(** * INEValidator: the validation pipeline of creditxpress-app

    A shallow embedding of the two copies of the INE credential validator
    that the repository ships:

    - [V2], the improved validator of [src/ine-validator.js]: five stages
      (format, structure, design, security, validity), the format stage
      being a gate;
    - [V1], the earlier validator of [src/unnamed/part_000]: five stages
      (structure, visible, secondLevel, qr, validity), no gate, detectors
      simulated with [Math.random()].

    Conventions of the embedding.

    - A JavaScript [async] method is a computation that either completes
      normally with a value or throws (its promise rejects): a
      [completion].  Code that mutates a local object while it may throw
      (the [results] objects and their [try]/[catch] blocks) is written in
      the state-and-exception monad [Js].
    - Numbers.  Counts, weights and pixel sizes are integers.  The score
      arithmetic of [calculateScore] is carried out on exact rationals,
      [NaN] being [None]; [Math.round] is [floor (x + 1/2)].  IEEE
      rounding of the intermediate binary64 values can change a result
      only when the exact value lies within about 1e-12 of a half-integer;
      [exact_score_is_binary64_score] checks, on binary64 numbers, that
      this happens on no combination of outcome counts a run can reach.
      A value of [Math.random()] is a rational, as every binary64 number
      is, and the constants it is compared with are the binary64 numbers
      JavaScript reads them as ([binary64]), so the simulated detectors
      answer as the code does on every value.  The confidence recorded
      with a simulated check, [r * 30 + 70] and the like, is the exact
      value; the binary64 result is that value rounded, at most 2e-14
      away and inside the same closed band.
    - Strings are sequences of one-byte characters; the evidence
      [imageData] is a string (a data URL).  What [validateINE] does when
      it is called with a value that is not a string is [validateINEOf].
    - Objects used as maps ([details], [weights]) are association lists in
      insertion order, which is the order of [Object.entries].
    - The display-only properties [value], [expected] and [data] of a
      check outcome, and the unused [details] property of the first copy's
      structure result, are never read by the pipeline and are left out;
      [passed] holds the truthiness of the property. *)

From Stdlib Require Import ZArith NArith QArith Qround Lqa List String Ascii Bool Lia.
From Stdlib Require Import Floats.PrimFloat Floats.SpecFloat Floats.FloatOps Uint63.
From Stdlib Require Import Sorting.Permutation Sorting.Sorted.
Import ListNotations.

Local Open Scope string_scope.
Local Open Scope list_scope.
Set Warnings "-inexact-float".

(** ** Completions and the [Js] monad *)

(** The outcome of evaluating a call: a value, or a thrown [Error]
    identified by its [message] (the only part of it any handler reads). *)
Inductive completion (A : Type) : Type :=
| Normal (value : A)
| Thrown (message : string).
Arguments Normal {A} value.
Arguments Thrown {A} message.

(** A block of statements over a mutable state [St]: it ends normally or
    throws, and in both cases leaves the state as mutated so far. *)
Definition Js (St A : Type) : Type := St -> completion A * St.

Definition ret {St A} (a : A) : Js St A := fun st => (Normal a, st).

Definition bind {St A B} (m : Js St A) (k : A -> Js St B) : Js St B :=
  fun st =>
    match m st with
    | (Normal a, st') => k a st'
    | (Thrown e, st') => (Thrown e, st')
    end.

Notation "x <- m ;; k" := (bind m (fun x => k))
  (at level 61, m at next level, right associativity).
Notation "m ;;; k" := (bind m (fun _ => k))
  (at level 61, right associativity).

(** [await p] for a settled promise [p]: its value, or its rejection
    rethrown. *)
Definition await {St A} (p : completion A) : Js St A := fun st => (p, st).

Definition modify {St} (f : St -> St) : Js St unit :=
  fun st => (Normal tt, f st).

(** [try { body } catch (error) { handler }] *)
Definition tryCatch {St A} (body : Js St A) (handler : string -> Js St A)
  : Js St A :=
  fun st =>
    match body st with
    | (Normal a, st') => (Normal a, st')
    | (Thrown e, st') => handler e st'
    end.

(** The state a block leaves behind. *)
Definition exec {St A} (m : Js St A) (st : St) : St := snd (m st).

(** ** Strings *)

(** [s.startsWith(p)] *)
Definition startsWith (s p : string) : bool := String.prefix p s.

(** [s.split(',')[1]]: the text between the first and the second comma,
    [undefined] ([None]) when [s] has no comma. *)
Fixpoint upToComma (s : string) : string :=
  match s with
  | EmptyString => EmptyString
  | String c rest =>
      if Ascii.eqb c ","%char then EmptyString else String c (upToComma rest)
  end.

Fixpoint afterFirstComma (s : string) : option string :=
  match s with
  | EmptyString => None
  | String c rest =>
      if Ascii.eqb c ","%char then Some (upToComma rest)
      else afterFirstComma rest
  end.

(** [extractFileSize]: the same text in both copies. *)
Definition extractFileSize (imageData : string) : Z :=
  if (String.length imageData =? 0)%nat || negb (startsWith imageData "data:")
  then 0%Z
  else
    match afterFirstComma imageData with
    | None => 0%Z
    | Some base64String =>
        if (String.length base64String =? 0)%nat then 0%Z
        else
          let stringLength := Z.of_nat (String.length base64String) in
          (stringLength * 3 / 4)%Z
    end.

(** Character classes of the two regular expressions. *)
Definition isUpper (c : ascii) : bool :=
  let n := nat_of_ascii c in ((65 <=? n) && (n <=? 90))%nat.
Definition isDigit (c : ascii) : bool :=
  let n := nat_of_ascii c in ((48 <=? n) && (n <=? 57))%nat.
Definition isUpperOrDigit (c : ascii) : bool := isUpper c || isDigit c.
Definition isHM (c : ascii) : bool :=
  Ascii.eqb c "H"%char || Ascii.eqb c "M"%char.

(** [/^c1 c2 ... cn$/.test(s)] for a pattern that is a sequence of single
    character classes. *)
Fixpoint matchClasses (classes : list (ascii -> bool)) (s : string) : bool :=
  match classes, s with
  | [], EmptyString => true
  | cl :: classes', String c rest => cl c && matchClasses classes' rest
  | _, _ => false
  end.

(** [/^[A-Z]{4}\d{6}[HM][A-Z]{5}[A-Z0-9]{2}$/] *)
Definition curpPattern : list (ascii -> bool) :=
  repeat isUpper 4 ++ repeat isDigit 6 ++ [isHM] ++ repeat isUpper 5
    ++ repeat isUpperOrDigit 2.

(** [/^[A-Z]{4}\d{10}[A-Z0-9]{2}$/] *)
Definition electorKeyPattern : list (ascii -> bool) :=
  repeat isUpper 4 ++ repeat isDigit 10 ++ repeat isUpperOrDigit 2.

(** ** Dates *)

(** Days from 1970-01-01 to the civil date [y]-[m]-[d] (proleptic
    Gregorian calendar). *)
Definition daysFromCivil (y m d : Z) : Z :=
  let y' := (if m <=? 2 then y - 1 else y)%Z in
  let era := (y' / 400)%Z in
  let yoe := (y' - era * 400)%Z in
  let mp := (if m <=? 2 then m + 9 else m - 3)%Z in
  let doy := ((153 * mp + 2) / 5 + d - 1)%Z in
  let doe := (yoe * 365 + yoe / 4 - yoe / 100 + doy)%Z in
  (era * 146097 + doe - 719468)%Z.

Definition digitValue (c : ascii) : option Z :=
  if isDigit c then Some (Z.of_nat (nat_of_ascii c) - 48)%Z else None.

Fixpoint digitsValue (acc : Z) (cs : list ascii) : option Z :=
  match cs with
  | [] => Some acc
  | c :: cs' =>
      match digitValue c with
      | Some v => digitsValue (acc * 10 + v)%Z cs'
      | None => None
      end
  end.

(** [new Date(s).getTime()] for a date-only ISO string [YYYY-MM-DD], which
    JavaScript reads as midnight UTC; [None] is an invalid date.  The
    validators only ever pass the two literal dates of
    [extractTextFromImage]. *)
Definition dateOf (s : string) : option Z :=
  match list_ascii_of_string s with
  | [y1; y2; y3; y4; "-"%char; m1; m2; "-"%char; d1; d2] =>
      match digitsValue 0 [y1; y2; y3; y4], digitsValue 0 [m1; m2],
            digitsValue 0 [d1; d2] with
      | Some y, Some m, Some d =>
          if ((1 <=? m) && (m <=? 12) && (1 <=? d) && (d <=? 31))%Z
          then Some (daysFromCivil y m d * 86400000)%Z
          else None
      | _, _, _ => None
      end
  | _ => None
  end.

(** [checkValidityPeriod(issueDate, expiryDate).valid].  The period in
    years is [diffTime / (1000*60*60*24*365)]; its comparisons with 10 and
    with 1 are taken on the integers.  With an invalid date the difference
    is [NaN], both comparisons are false and the last branch answers
    [true].  Both copies have the same text. *)
Definition msPerYear : Z := (1000 * 60 * 60 * 24 * 365)%Z.

Definition checkValidityPeriod (issueDate expiryDate : option Z) : bool :=
  match issueDate, expiryDate with
  | Some issue, Some expiry =>
      let diffTime := (expiry - issue)%Z in
      if (10 * msPerYear <? diffTime)%Z then false
      else if (diffTime <? msPerYear)%Z then false
      else true
  | _, _ => true
  end.

(** [expiryDate > currentDate] on two [Date] objects. *)
Definition laterThan (expiryDate : option Z) (currentDate : Z) : bool :=
  match expiryDate with
  | Some expiry => (currentDate <? expiry)%Z
  | None => false
  end.

(** Truthiness of a value that is a string or [null]. *)
Definition truthy (v : option string) : bool :=
  match v with
  | Some s => negb (String.eqb s "")
  | None => false
  end.

(** [validateModel]: [['D','E','F','G','H'].includes(model)] *)
Definition validateModel (model : option string) : bool :=
  match model with
  | Some m => existsb (String.eqb m) ["D"; "E"; "F"; "G"; "H"]
  | None => false
  end.

(** ** Check outcomes, stage results, reports *)

Record Element : Type := {
  name : string;
  passed : bool;
  confidence : option Q        (* only the first copy records one *)
}.

Record StageResult : Type := {
  stage_passed : bool;
  elements : list Element;
  stage_documentType : option string;  (* only the format stage has one *)
  stage_error : option string          (* only set by the first copy's QR stage *)
}.

(** The [details] object: stage id to stage result, in insertion order. *)
Definition Details : Type := list (string * StageResult).

Fixpoint lookup {A} (key : string) (obj : list (string * A)) : option A :=
  match obj with
  | [] => None
  | (k, v) :: rest => if String.eqb k key then Some v else lookup key rest
  end.

(** [obj[key] = v]: overwrite in place, or append a new property. *)
Fixpoint setProp {A} (key : string) (v : A) (obj : list (string * A))
  : list (string * A) :=
  match obj with
  | [] => [(key, v)]
  | (k, v0) :: rest =>
      if String.eqb k key then (k, v) :: rest
      else (k, v0) :: setProp key v rest
  end.

Record Report : Type := {
  isValid : bool;
  score : option Z;            (* a JS number; [None] is [NaN] *)
  details : Details;
  recommendations : list string;
  fileSize : Z;
  documentType : option string;
  error : option string
}.

(** [elements.filter(e => e.passed).length] *)
Definition countPassed (es : list Element) : nat :=
  List.length (filter passed es).

Definition pushElement (e : Element) (r : StageResult) : StageResult :=
  {| stage_passed := stage_passed r;
     elements := elements r ++ [e];
     stage_documentType := stage_documentType r;
     stage_error := stage_error r |}.

Definition setPassed (b : bool) (r : StageResult) : StageResult :=
  {| stage_passed := b;
     elements := elements r;
     stage_documentType := stage_documentType r;
     stage_error := stage_error r |}.

Definition setStageDocumentType (t : string) (r : StageResult) : StageResult :=
  {| stage_passed := stage_passed r;
     elements := elements r;
     stage_documentType := Some t;
     stage_error := stage_error r |}.

Definition setStageError (message : string) (r : StageResult) : StageResult :=
  {| stage_passed := stage_passed r;
     elements := elements r;
     stage_documentType := stage_documentType r;
     stage_error := Some message |}.

Definition check (n : string) (p : bool) : Element :=
  {| name := n; passed := p; confidence := None |}.

(** ** The score aggregator

    [calculateScore] has the same text in both copies except for the
    [weights] table, so it is written once over the table. *)

(** A JS number of the score arithmetic: a rational, or [NaN]. *)
Definition jsnum : Type := option Q.

Definition jsadd (a b : jsnum) : jsnum :=
  match a, b with
  | Some x, Some y => Some (x + y)%Q
  | _, _ => None
  end.

Definition jsmul (a b : jsnum) : jsnum :=
  match a, b with
  | Some x, Some y => Some (x * y)%Q
  | _, _ => None
  end.

(** Division. The aggregator divides by a zero [maxScore] only when
    [totalScore] is zero too (lemma [zero_maxScore_zero_totalScore]), so
    the only division by zero that arises is [0/0 = NaN]. *)
Definition jsdiv (a b : jsnum) : jsnum :=
  match a, b with
  | Some x, Some y => if Qeq_bool y 0 then None else Some (x / y)%Q
  | _, _ => None
  end.

(** [Math.round]: nearest integer, halves upwards. *)
Definition Math_round (a : jsnum) : option Z :=
  match a with
  | Some x => Some (Qfloor (x + (1 # 2)))
  | None => None
  end.

(** A weight table: stage id to a positive integer; [weights[category]]
    is [undefined] for any other key, which turns the arithmetic to
    [NaN]. *)
Definition Weights : Type := list (string * positive).

Definition weightOf (weights : Weights) (category : string) : jsnum :=
  match lookup category weights with
  | Some w => Some (inject_Z (Z.pos w))
  | None => None
  end.

(** [elements.filter(e => e.passed).length / elements.length * 100],
    evaluated only under the guard [elements.length > 0]. *)
Definition categoryScore (es : list Element) : Q :=
  (inject_Z (Z.of_nat (countPassed es)) / inject_Z (Z.of_nat (List.length es))
   * 100)%Q.

(** One iteration of the loop over [Object.entries(details)], on the pair
    [(totalScore, maxScore)]. *)
Definition scoreStep (weights : Weights) (acc : jsnum * jsnum)
  (entry : string * StageResult) : jsnum * jsnum :=
  let '(totalScore, maxScore) := acc in
  let '(category, result) := entry in
  let totalScore' :=
    if (0 <? List.length (elements result))%nat
    then jsadd totalScore
           (jsmul (Some (categoryScore (elements result)))
                  (jsdiv (weightOf weights category) (Some 100%Q)))
    else totalScore in
  (totalScore', jsadd maxScore (weightOf weights category)).

Definition scoreLoop (weights : Weights) (d : Details) : jsnum * jsnum :=
  fold_left (scoreStep weights) d (Some 0%Q, Some 0%Q).

Definition calculateScoreWith (weights : Weights) (d : Details) : option Z :=
  let '(totalScore, maxScore) := scoreLoop weights d in
  Math_round (jsmul (jsdiv totalScore maxScore) (Some 100%Q)).

(** [results.score >= 70] *)
Definition meetsThreshold (s : option Z) : bool :=
  match s with
  | Some z => (70 <=? z)%Z
  | None => false
  end.


(** The object literal [{ passed: false, elements: [] }] every stage
    starts from. *)
Definition newResult : StageResult :=
  {| stage_passed := false; elements := []; stage_documentType := None;
     stage_error := None |}.

(** [a > b] on numbers. *)
Definition gt (a b : Q) : bool := negb (Qle_bool a b).

(** The exact value of a finite binary64 number. *)
Definition exactValue (x : float) : option Q :=
  match Prim2SF x with
  | S754_zero _ => Some 0
  | S754_finite negative m e =>
      let magnitude :=
        if (0 <=? e)%Z then inject_Z (Z.pos m * 2 ^ e)
        else Z.pos m # Z.to_pos (2 ^ (- e)) in
      Some (if negative then - magnitude else magnitude)
  | S754_infinity _ => None
  | S754_nan => None
  end.

(** A decimal constant of the source as JavaScript reads it: the binary64
    number nearest to it ([0.3] and [0.6] are a little less than 3/10 and
    6/10, [0.2] and [0.4] a little more than 2/10 and 4/10, [0.5] is
    1/2). *)
Definition binary64 (x : float) : Q :=
  match exactValue x with
  | Some q => q
  | None => 0
  end.

(** [for (const x of xs) { body }] *)
Fixpoint forEach {St A} (xs : list A) (body : A -> Js St unit) : Js St unit :=
  match xs with
  | [] => ret tt
  | x :: rest => body x ;;; forEach rest body
  end.

(** [if (cond) recommendations.push(message)] *)
Definition pushIf (cond : bool) (message : string) (recs : list string)
  : list string :=
  if cond then recs ++ [message] else recs.

(** [details.stage && !details.stage.passed] *)
Definition presentAndFailed (d : Details) (stage : string) : bool :=
  match lookup stage d with
  | Some result => negb (stage_passed result)
  | None => false
  end.

(** Assignments to the properties of a report. *)
Definition setDetail (stage : string) (result : StageResult) (r : Report)
  : Report :=
  {| isValid := isValid r; score := score r;
     details := setProp stage result (details r);
     recommendations := recommendations r; fileSize := fileSize r;
     documentType := documentType r; error := error r |}.

Definition setDocumentType (t : option string) (r : Report) : Report :=
  {| isValid := isValid r; score := score r; details := details r;
     recommendations := recommendations r; fileSize := fileSize r;
     documentType := t; error := error r |}.

Definition setScore (s : option Z) (r : Report) : Report :=
  {| isValid := isValid r; score := s; details := details r;
     recommendations := recommendations r; fileSize := fileSize r;
     documentType := documentType r; error := error r |}.

Definition setIsValid (b : bool) (r : Report) : Report :=
  {| isValid := b; score := score r; details := details r;
     recommendations := recommendations r; fileSize := fileSize r;
     documentType := documentType r; error := error r |}.

Definition setRecommendations (recs : list string) (r : Report) : Report :=
  {| isValid := isValid r; score := score r; details := details r;
     recommendations := recs; fileSize := fileSize r;
     documentType := documentType r; error := error r |}.

Definition setError (message : string) (r : Report) : Report :=
  {| isValid := isValid r; score := score r; details := details r;
     recommendations := recommendations r; fileSize := fileSize r;
     documentType := documentType r; error := Some message |}.

(** What [extractTextFromImage] returns. *)
Record ExtractedData : Type := {
  curp : option string;
  electorKey : option string;
  fullName : option string;      (* the property [name] *)
  issueDate : option string;
  expiryDate : option string;
  model : option string
}.

(** * The improved validator, [src/ine-validator.js] *)
Module V2.

(** What the page's runtime supplies. *)
Record Image : Type := {
  naturalWidth : N;
  naturalHeight : N
}.

(** One RGBA pixel of [ctx.getImageData(0, 0, 50, 50).data]. *)
Definition Pixel : Type := (N * N * N * N)%type.
Definition Color : Type := (N * N * N)%type.

Record Browser : Type := {
  (** [createImage(imageData)]: the promise resolves with the decoded
      image ([onload]) or rejects ([onerror]).  Decoding the same data
      URL again gives the same outcome. *)
  createImage : string -> completion Image;
  (** The canvas calls of [analyzeColors], from [document.createElement]
      to [ctx.getImageData(0, 0, 50, 50).data]; any of them may throw. *)
  getImageData : Image -> completion (list Pixel);
  (** [new Date()], in milliseconds since the epoch. *)
  currentDate : Z
}.

(** [aspectRatio >= 1.5 && aspectRatio <= 1.7] for
    [aspectRatio = width / height].  With [height = 0] the ratio is
    [Infinity] or [NaN] and the test is false; otherwise the two
    comparisons are those of the exact quotient. *)
Definition aspectInRange (width height : N) : bool :=
  if (height =? 0)%N then false
  else ((15 * height <=? 10 * width) && (10 * width <=? 17 * height))%N.

Record ContentAnalysis : Type := {
  looksLikeINE : bool;
  analysisConfidence : Q        (* the property [confidence] *)
}.

Definition analyzeImageContent (img : Image) : ContentAnalysis :=
  let width := naturalWidth img in
  let height := naturalHeight img in
  let hasCorrectAspect := aspectInRange width height in
  let hasGoodResolution := ((600 <=? width) && (400 <=? height))%N in
  {| looksLikeINE := hasCorrectAspect && hasGoodResolution;
     analysisConfidence :=
       if hasCorrectAspect && hasGoodResolution then 8 # 10 else 2 # 10 |}.

Definition detectOfficialElements (img : Image) : bool :=
  looksLikeINE (analyzeImageContent img).

Definition validateLayout (img : Image) : bool :=
  looksLikeINE (analyzeImageContent img).

Definition detectSecurityPatterns (img : Image) : bool :=
  gt (analysisConfidence (analyzeImageContent img)) (7 # 10).

Definition detectReliefElements (img : Image) : bool :=
  gt (analysisConfidence (analyzeImageContent img)) (8 # 10).

(** [analyzeImageQuality(img).isHighQuality] *)
Definition analyzeImageQuality (img : Image) : bool :=
  let width := naturalWidth img in
  let height := naturalHeight img in
  if ((1000 <=? width) && (600 <=? height))%N then true
  else if ((600 <=? width) && (400 <=? height))%N then true
  else false.

Definition validateCURPFormat (curp : string) : bool :=
  matchClasses curpPattern curp.

Definition validateElectorKeyFormat (key : string) : bool :=
  matchClasses electorKeyPattern key.

(** The tally of [analyzeColors]: [colorCount[color] =
    (colorCount[color] || 0) + 1], keys in order of first occurrence. *)
Definition colorEqb (a b : Color) : bool :=
  let '(r1, g1, b1) := a in
  let '(r2, g2, b2) := b in
  ((r1 =? r2) && (g1 =? g2) && (b1 =? b2))%N.

Fixpoint countColor (color : Color) (colorCount : list (Color * nat))
  : list (Color * nat) :=
  match colorCount with
  | [] => [(color, 1%nat)]
  | (k, n) :: rest =>
      if colorEqb k color then (k, S n) :: rest
      else (k, n) :: countColor color rest
  end.

(** [entries.sort((a, b) => b[1] - a[1])]: stable, larger counts first. *)
Fixpoint insertByCount (x : Color * nat) (sorted : list (Color * nat))
  : list (Color * nat) :=
  match sorted with
  | [] => [x]
  | y :: rest =>
      if (snd y <? snd x)%nat then x :: y :: rest
      else y :: insertByCount x rest
  end.

Definition sortByCount (entries : list (Color * nat)) : list (Color * nat) :=
  fold_left (fun sorted x => insertByCount x sorted) entries [].

Definition dominantColorsOf (data : list Pixel) : list Color :=
  let colorCount :=
    fold_left (fun cc px => let '(r, g, b, _) := px in countColor (r, g, b) cc)
              data [] in
  map fst (firstn 3 (sortByCount colorCount)).

(** [hasBlueTones]: some dominant colour has [b > r && b > g]. *)
Definition hasBlueTones (dominantColors : list Color) : bool :=
  existsb (fun color => let '(r, g, b) := color in ((r <? b) && (g <? b))%N)
          dominantColors.

Section WithBrowser.

Variable browser : Browser.

(** [analyzeColors(img).hasOfficialColors] *)
Definition analyzeColors {St} (img : Image) : Js St bool :=
  data <- await (getImageData browser img) ;;
  ret (hasBlueTones (dominantColorsOf data)).

Definition extractTextFromImage {St} (imageData : string)
  : Js St ExtractedData :=
  img <- await (createImage browser imageData) ;;
  let analysis := analyzeImageContent img in
  let ifINE (s : string) := if looksLikeINE analysis then Some s else None in
  ret {| curp := ifINE "GOME800705HDFMLR09";
         electorKey := ifINE "GOME800705HDFMLR09";
         fullName := ifINE "GOMEZ MARGARITA";
         issueDate := ifINE "2019-01-15";
         expiryDate := ifINE "2029-01-15";
         model := ifINE "G" |}.

Definition detectINEText {St} (imageData : string) : Js St bool :=
  img <- await (createImage browser imageData) ;;
  ret (looksLikeINE (analyzeImageContent img)).

(** The pass policy of the four later stages:
    [results.passed = results.elements.filter(e => e.passed).length >= 2]. *)
Definition applyQuorum (k : nat) : Js StageResult unit :=
  modify (fun r => setPassed (k <=? countPassed (elements r))%nat r).

(** Each stage method is one [try] block around all its detector calls,
    with a [catch] that records a single failing outcome. *)

(** The [results] object of the format stage. *)
Definition newFormatResult : StageResult :=
  {| stage_passed := false; elements := [];
     stage_documentType := Some "unknown"; stage_error := None |}.

Definition validateDocumentFormat_try (imageData : string)
  : Js StageResult unit :=
  img <- await (createImage browser imageData) ;;
  let width := naturalWidth img in
  let height := naturalHeight img in
  let isCorrectAspect := aspectInRange width height in
  modify (pushElement (check "Relación de aspecto" isCorrectAspect)) ;;;
  let isSufficientSize := ((500 <=? width) && (300 <=? height))%N in
  modify (pushElement (check "Tamaño suficiente" isSufficientSize)) ;;;
  let isImage := startsWith imageData "data:image/" in
  modify (pushElement (check "Formato de imagen" isImage)) ;;;
  if isImage && isCorrectAspect && isSufficientSize then
    modify (setStageDocumentType "potential_ine") ;;;
    modify (setPassed true)
  else if isImage then
    modify (setStageDocumentType "other_image")
  else
    modify (setStageDocumentType "other_document").

Definition validateDocumentFormat (imageData : string) : StageResult :=
  exec
    (tryCatch (validateDocumentFormat_try imageData)
       (fun _ => modify (pushElement (check "Formato del documento" false))))
    newFormatResult.

Definition validateStructure_try (imageData : string)
  : Js StageResult unit :=
  extractedData <- extractTextFromImage imageData ;;
  (if truthy (curp extractedData) then
     let curpValid :=
       match curp extractedData with
       | Some c => validateCURPFormat c
       | None => false
       end in
     modify (pushElement (check "Formato CURP" curpValid))
   else
     modify (pushElement (check "Formato CURP" false))) ;;;
  (if truthy (electorKey extractedData) then
     let keyValid :=
       match electorKey extractedData with
       | Some k => validateElectorKeyFormat k
       | None => false
       end in
     modify (pushElement (check "Clave de elector" keyValid))
   else
     modify (pushElement (check "Clave de elector" false))) ;;;
  hasINEText <- detectINEText imageData ;;
  modify (pushElement (check "Texto oficial INE" hasINEText)) ;;;
  applyQuorum 2.

Definition validateStructure (imageData : string) : StageResult :=
  exec
    (tryCatch (validateStructure_try imageData)
       (fun _ => modify (pushElement (check "Estructura de datos" false))))
    newResult.

Definition validateOfficialDesign_try (imageData : string)
  : Js StageResult unit :=
  img <- await (createImage browser imageData) ;;
  hasOfficialColors <- analyzeColors img ;;
  modify (pushElement (check "Espectro de colores" hasOfficialColors)) ;;;
  let hasOfficialElements := detectOfficialElements img in
  modify (pushElement
            (check "Elementos gráficos oficiales" hasOfficialElements)) ;;;
  let layoutValid := validateLayout img in
  modify (pushElement (check "Distribución espacial" layoutValid)) ;;;
  applyQuorum 2.

Definition validateOfficialDesign (imageData : string) : StageResult :=
  exec
    (tryCatch (validateOfficialDesign_try imageData)
       (fun _ => modify (pushElement (check "Diseño oficial" false))))
    newResult.

Definition validateSecurityElements_try (imageData : string)
  : Js StageResult unit :=
  img <- await (createImage browser imageData) ;;
  let hasSecurityPatterns := detectSecurityPatterns img in
  modify (pushElement (check "Patrones de seguridad" hasSecurityPatterns)) ;;;
  let isHighQuality := analyzeImageQuality img in
  modify (pushElement (check "Calidad de impresión" isHighQuality)) ;;;
  let hasReliefElements := detectReliefElements img in
  modify (pushElement (check "Elementos en relieve" hasReliefElements)) ;;;
  applyQuorum 2.

Definition validateSecurityElements (imageData : string) : StageResult :=
  exec
    (tryCatch (validateSecurityElements_try imageData)
       (fun _ => modify (pushElement (check "Elementos de seguridad" false))))
    newResult.

Definition validateValidity_try (imageData : string)
  : Js StageResult unit :=
  extractedData <- extractTextFromImage imageData ;;
  (if truthy (issueDate extractedData)
      && truthy (expiryDate extractedData) then
     let now := currentDate browser in
     let expiry := match expiryDate extractedData with
                   | Some s => dateOf s | None => None end in
     let issue := match issueDate extractedData with
                  | Some s => dateOf s | None => None end in
     let notExpired := laterThan expiry now in
     modify (pushElement (check "No expirada" notExpired)) ;;;
     let validityPeriod := checkValidityPeriod issue expiry in
     modify (pushElement (check "Período de validez" validityPeriod)) ;;;
     let validModel := validateModel (model extractedData) in
     modify (pushElement (check "Modelo vigente" validModel))
   else
     modify (pushElement (check "Fechas de vigencia" false))) ;;;
  applyQuorum 2.

Definition validateValidity (imageData : string) : StageResult :=
  exec
    (tryCatch (validateValidity_try imageData)
       (fun _ => modify (pushElement (check "Vigencia" false))))
    newResult.

End WithBrowser.

(** The [weights] table of [calculateScore]. *)
Definition weights : Weights :=
  [("format", 20); ("structure", 25); ("design", 20); ("security", 25);
   ("validity", 10)]%positive.

Definition calculateScore (d : Details) : option Z :=
  calculateScoreWith weights d.

Definition formatMessage : string :=
  "El documento no tiene el formato adecuado de una INE".
Definition structureMessage : string :=
  "Verificar la estructura de datos (CURP y clave de elector)".
Definition designMessage : string :=
  "El diseño no coincide con los estándares oficiales del INE".
Definition securityMessage : string :=
  "Faltan elementos de seguridad característicos del INE".
Definition validityMessage : string :=
  "Verificar la vigencia de la credencial".
Definition allPassedMessage : string :=
  "La credencial pasó todas las validaciones principales".

Definition generateRecommendations (d : Details) : list string :=
  let recommendations := [] in
  if presentAndFailed d "format" then
    recommendations ++ [formatMessage]
  else
    let recommendations :=
      pushIf (presentAndFailed d "structure") structureMessage
             recommendations in
    let recommendations :=
      pushIf (presentAndFailed d "design") designMessage recommendations in
    let recommendations :=
      pushIf (presentAndFailed d "security") securityMessage
             recommendations in
    let recommendations :=
      pushIf (presentAndFailed d "validity") validityMessage
             recommendations in
    pushIf (List.length recommendations =? 0)%nat allPassedMessage
           recommendations.

(** ** The orchestrator

    [validateINE] calls the five stage methods through [this]; it is
    written over them, each one completing with a stage result or
    throwing. *)
Record StageMethods : Type := {
  formatStage : string -> completion StageResult;
  structureStage : string -> completion StageResult;
  designStage : string -> completion StageResult;
  securityStage : string -> completion StageResult;
  validityStage : string -> completion StageResult
}.

Definition gateMessage : string :=
  "El documento no tiene el formato adecuado para ser una INE válida".

(** The [results] object [validateINE] starts from. *)
Definition newReport (imageData : string) : Report :=
  {| isValid := false; score := Some 0%Z; details := [];
     recommendations := []; fileSize := extractFileSize imageData;
     documentType := Some "unknown"; error := None |}.

(** The [try] block of [validateINE]. The early [return results] is the
    end of the first branch. *)
Definition validateINE_try (this : StageMethods) (imageData : string)
  : Js Report unit :=
  formatResult <- await (formatStage this imageData) ;;
  modify (setDetail "format" formatResult) ;;;
  modify (setDocumentType (stage_documentType formatResult)) ;;;
  if negb (stage_passed formatResult) then
    modify (setScore (Some 0%Z)) ;;;
    modify (setIsValid false) ;;;
    modify (setRecommendations [gateMessage])
  else
    structureResult <- await (structureStage this imageData) ;;
    modify (setDetail "structure" structureResult) ;;;
    designResult <- await (designStage this imageData) ;;
    modify (setDetail "design" designResult) ;;;
    securityResult <- await (securityStage this imageData) ;;
    modify (setDetail "security" securityResult) ;;;
    validityResult <- await (validityStage this imageData) ;;
    modify (setDetail "validity" validityResult) ;;;
    modify (fun r => setScore (calculateScore (details r)) r) ;;;
    modify (fun r => setIsValid (meetsThreshold (score r)) r) ;;;
    modify (fun r => setRecommendations (generateRecommendations (details r)) r).

Definition validateINE_with (this : StageMethods) (imageData : string)
  : Report :=
  exec
    (tryCatch (validateINE_try this imageData)
              (fun message => modify (setError message)))
    (newReport imageData).

(** The class's own stage methods: each has its own [try]/[catch] around
    its whole body and so always completes normally. *)
Definition methods (browser : Browser) : StageMethods :=
  {| formatStage := fun d => Normal (validateDocumentFormat browser d);
     structureStage := fun d => Normal (validateStructure browser d);
     designStage := fun d => Normal (validateOfficialDesign browser d);
     securityStage := fun d => Normal (validateSecurityElements browser d);
     validityStage := fun d => Normal (validateValidity browser d) |}.

Definition validateINE (browser : Browser) (imageData : string) : Report :=
  validateINE_with (methods browser) imageData.

End V2.

(** * The earlier validator, [src/unnamed/part_000] *)
Module V1.

Section WithRuntime.

(** The successive values of [Math.random()], each in [0, 1). *)
Variable rho : nat -> Q.
(** [new Date()], in milliseconds since the epoch. *)
Variable currentDate : Z.

(** A method runs from the number of [Math.random()] calls made so far
    and leaves the new number: a [Js] block over that counter.  Inside a
    method that builds a local object, the state pairs the object with the
    counter. *)
Definition Math_random : Js nat Q :=
  fun n => (Normal (rho n), S n).

(** A call of a method from a block that has a local object. *)
Definition call {L A} (m : Js nat A) : Js (L * nat) A :=
  fun st =>
    let '(l, n) := st in
    let '(c, n') := m n in
    (c, (l, n')).

(** An assignment to the local object. *)
Definition assign {L} (f : L -> L) : Js (L * nat) unit :=
  modify (fun st => (f (fst st), snd st)).

(** A method body [const results = init; ...; return results]. *)
Definition returning {L} (init : L) (body : Js (L * nat) unit) : Js nat L :=
  fun n =>
    match body (init, n) with
    | (Normal _, (l, n')) => (Normal l, n')
    | (Thrown e, (_, n')) => (Thrown e, n')
    end.

(** The simulated detectors. *)
Definition detectMicrotext : Js nat bool :=
  r <- Math_random ;; ret (gt r (binary64 0.3)).
Definition detectOVD : Js nat bool :=
  r <- Math_random ;; ret (gt r (binary64 0.4)).
Definition detectUVInk : Js nat bool :=
  r <- Math_random ;; ret (gt r (binary64 0.5)).
Definition detectRelief : Js nat bool :=
  r <- Math_random ;; ret (gt r (binary64 0.6)).
Definition detectSecurityBackground : Js nat bool :=
  r <- Math_random ;; ret (gt r (binary64 0.4)).
Definition detectEdgeMicrotext : Js nat bool :=
  r <- Math_random ;; ret (gt r (binary64 0.3)).
Definition detectFineLinePatterns : Js nat bool :=
  r <- Math_random ;; ret (gt r (binary64 0.4)).
Definition detectRainbowPrint : Js nat bool :=
  r <- Math_random ;; ret (gt r (binary64 0.5)).

Definition qrText : string :=
  "IDMEX18365777170<<07471163758428007057M2212315MEX<02<<12345<<7GOMEZ<VELAZQUEZ<<MARGARITA<<<<".

Definition decodeQRCode : Js nat (option string) :=
  r <- Math_random ;; ret (if gt r (binary64 0.2) then Some qrText else None).

(** [qrData && qrData.length > 50] *)
Definition validateQRStructure (qrData : string) : bool :=
  negb (String.eqb qrData "") && (50 <? String.length qrData)%nat.

Definition validateDigitalSignature : Js nat bool :=
  r <- Math_random ;; ret (gt r (binary64 0.3)).

Definition verifyQRConsistency : Js nat bool :=
  r <- Math_random ;; ret (gt r (binary64 0.4)).

(** [this[element.method](imageData)]: the detector of that name; calling
    a property that is not a method throws a [TypeError]. *)
Definition detectorNamed (method : string) : Js nat bool :=
  match
    lookup method
      [("detectMicrotext", detectMicrotext); ("detectOVD", detectOVD);
       ("detectUVInk", detectUVInk); ("detectRelief", detectRelief);
       ("detectSecurityBackground", detectSecurityBackground);
       ("detectEdgeMicrotext", detectEdgeMicrotext);
       ("detectFineLinePatterns", detectFineLinePatterns);
       ("detectRainbowPrint", detectRainbowPrint)]
  with
  | Some detector => detector
  | None => fun n => (Thrown "this[element.method] is not a function", n)
  end.

Definition extractTextFromImage : ExtractedData :=
  {| curp := Some "GOME800705HDFMLR09";
     electorKey := Some "GOME800705HDFMLR09";
     fullName := Some "GOMEZ MARGARITA";
     issueDate := Some "2019-01-15";
     expiryDate := Some "2029-01-15";
     model := Some "G" |}.

Definition validateCURP (curp : string) : bool :=
  matchClasses curpPattern curp.

(** [key && key.length >= 18] *)
Definition validateElectorKey (key : string) : bool :=
  negb (String.eqb key "") && (18 <=? String.length key)%nat.

(** [data.curp && data.electorKey && data.name] *)
Definition validateDataConsistency (data : ExtractedData) : bool :=
  truthy (curp data) && truthy (electorKey data) && truthy (fullName data).

Definition validateStructure : Js nat StageResult :=
  returning newResult
    (let extractedData := extractTextFromImage in
     (if truthy (curp extractedData) then
        let curpValid :=
          match curp extractedData with
          | Some c => validateCURP c
          | None => false
          end in
        assign (pushElement (check "CURP" curpValid))
      else ret tt) ;;;
     (if truthy (electorKey extractedData) then
        let keyValid :=
          match electorKey extractedData with
          | Some k => validateElectorKey k
          | None => false
          end in
        assign (pushElement (check "Clave de Elector" keyValid))
      else ret tt) ;;;
     let dataConsistent := validateDataConsistency extractedData in
     assign (pushElement (check "Consistencia de datos" dataConsistent)) ;;;
     assign (fun r => setPassed (2 <=? countPassed (elements r))%nat r)).

(** One round of the detector loops: the detector, then one more
    [Math.random()] for the confidence,
    [detected ? Math.random() * spread + base : Math.random() * spread]. *)
Definition detectInto (spread base : Q) (element : string * string)
  : Js (StageResult * nat) unit :=
  let '(elementName, method) := element in
  detected <- call (detectorNamed method) ;;
  c <- (if detected
        then r <- call Math_random ;; ret (r * spread + base)%Q
        else r <- call Math_random ;; ret (r * spread)%Q) ;;
  assign (pushElement
            {| name := elementName; passed := detected;
               confidence := Some c |}).

Definition elementsToCheck : list (string * string) :=
  [("Microtexto INE", "detectMicrotext");
   ("Elementos OVD/OVI", "detectOVD");
   ("Tintas UV", "detectUVInk");
   ("Relieve táctil", "detectRelief");
   ("Fondo de seguridad", "detectSecurityBackground")].

Definition validateVisibleElements : Js nat StageResult :=
  returning newResult
    (forEach elementsToCheck (detectInto 30 70) ;;;
     assign (fun r => setPassed (3 <=? countPassed (elements r))%nat r)).

Definition secondLevelElements : list (string * string) :=
  [("Microtexto en bordes", "detectEdgeMicrotext");
   ("Patrones de líneas finas", "detectFineLinePatterns");
   ("Impresión arcoíris", "detectRainbowPrint")].

Definition validateSecondLevelElements : Js nat StageResult :=
  returning newResult
    (forEach secondLevelElements (detectInto 25 75) ;;;
     assign (fun r => setPassed (2 <=? countPassed (elements r))%nat r)).

Definition validateQRCodes : Js nat StageResult :=
  returning newResult
    (tryCatch
       (qrData <- call decodeQRCode ;;
        (match qrData with
         | Some qr =>
             if truthy (Some qr) then
               let qrStructureValid := validateQRStructure qr in
               assign (pushElement (check "Estructura QR" qrStructureValid)) ;;;
               digitalSignatureValid <- call validateDigitalSignature ;;
               assign (pushElement
                         (check "Firma digital" digitalSignatureValid)) ;;;
               consistencyValid <- call verifyQRConsistency ;;
               assign (pushElement
                         (check "Consistencia datos" consistencyValid))
             else ret tt
         | None => ret tt
         end) ;;;
        assign (fun r =>
                  setPassed ((0 <? List.length (elements r))%nat
                             && (2 <=? countPassed (elements r))%nat) r))
       (fun message => assign (setStageError message))).

Definition validateValidity : Js nat StageResult :=
  returning newResult
    (tryCatch
       (let extractedData := extractTextFromImage in
        (if truthy (issueDate extractedData)
            && truthy (expiryDate extractedData) then
           let expiry := match expiryDate extractedData with
                         | Some s => dateOf s | None => None end in
           let issue := match issueDate extractedData with
                        | Some s => dateOf s | None => None end in
           let notExpired := laterThan expiry currentDate in
           assign (pushElement (check "No expirada" notExpired)) ;;;
           let validModel := validateModel (model extractedData) in
           assign (pushElement (check "Modelo vigente" validModel)) ;;;
           let validityPeriod := checkValidityPeriod issue expiry in
           assign (pushElement (check "Período de validez" validityPeriod))
         else ret tt) ;;;
        assign (fun r => setPassed (2 <=? countPassed (elements r))%nat r))
       (fun _ => ret tt)).

(** The [weights] table of [calculateScore]. *)
Definition weights : Weights :=
  [("structure", 25); ("visible", 25); ("secondLevel", 20); ("qr", 20);
   ("validity", 10)]%positive.

Definition calculateScore (d : Details) : option Z :=
  calculateScoreWith weights d.

Definition structureMessage : string :=
  "Verificar la estructura de CURP y clave de elector".
Definition visibleMessage : string :=
  "Múltiples elementos de seguridad visibles no detectados".
Definition validityMessage : string :=
  "Verificar la vigencia de la credencial".
Definition allPassedMessage : string :=
  "La credencial pasó todas las validaciones principales".

(** [details.visible.elements.filter(e => !e.passed).length > 2] under
    its guard [details.visible && details.visible.elements]. *)
Definition manyVisibleFailed (d : Details) : bool :=
  match lookup "visible" d with
  | Some result =>
      let failedVisible := filter (fun e => negb (passed e)) (elements result) in
      (2 <? List.length failedVisible)%nat
  | None => false
  end.

Definition generateRecommendations (d : Details) : list string :=
  let recommendations := [] in
  let recommendations :=
    pushIf (presentAndFailed d "structure") structureMessage recommendations in
  let recommendations :=
    pushIf (manyVisibleFailed d) visibleMessage recommendations in
  let recommendations :=
    pushIf (presentAndFailed d "validity") validityMessage recommendations in
  pushIf (List.length recommendations =? 0)%nat allPassedMessage
         recommendations.

(** The [results] object [validateINE] starts from. *)
Definition newReport (imageData : string) : Report :=
  {| isValid := false; score := Some 0%Z; details := [];
     recommendations := []; fileSize := extractFileSize imageData;
     documentType := None; error := None |}.

(** The [try] block of [validateINE]. *)
Definition validateINE_try : Js (Report * nat) unit :=
  structureResult <- call validateStructure ;;
  assign (setDetail "structure" structureResult) ;;;
  visibleResult <- call validateVisibleElements ;;
  assign (setDetail "visible" visibleResult) ;;;
  secondLevelResult <- call validateSecondLevelElements ;;
  assign (setDetail "secondLevel" secondLevelResult) ;;;
  qrResult <- call validateQRCodes ;;
  assign (setDetail "qr" qrResult) ;;;
  validityResult <- call validateValidity ;;
  assign (setDetail "validity" validityResult) ;;;
  assign (fun r => setScore (calculateScore (details r)) r) ;;;
  assign (fun r => setIsValid (meetsThreshold (score r)) r) ;;;
  assign (fun r => setRecommendations (generateRecommendations (details r)) r).

(** [validateINE], started with no [Math.random()] call made yet. *)
Definition validateINE (imageData : string) : Report :=
  fst (exec
         (tryCatch validateINE_try
                   (fun message => assign (setError message)))
         (newReport imageData, 0%nat)).

End WithRuntime.

End V1.

(** * Definitions used by the statements *)

(** ** The exact value of the score *)

(** What one entry of [details] adds to [totalScore] and to [maxScore]
    when its category is in the table. *)
Definition weightQ (weights : Weights) (category : string) : Q :=
  match lookup category weights with
  | Some w => inject_Z (Z.pos w)
  | None => 0
  end.

Definition contribution (weights : Weights) (entry : string * StageResult)
  : Q :=
  if (0 <? List.length (elements (snd entry)))%nat
  then categoryScore (elements (snd entry))
       * (weightQ weights (fst entry) / 100)
  else 0.

Definition totalOf (weights : Weights) (d : Details) : Q :=
  fold_right (fun entry acc => contribution weights entry + acc) 0 d.

Definition maxOf (weights : Weights) (d : Details) : Q :=
  fold_right (fun entry acc => weightQ weights (fst entry) + acc) 0 d.

(** Every category of [d] has a configured weight. *)
Definition allWeighted (weights : Weights) (d : Details) : Prop :=
  Forall (fun entry => lookup (fst entry) weights <> None) d.

(** ** Sample data *)

Definition passing (n : string) : Element := check n true.
Definition failing (n : string) : Element := check n false.

Definition stageOf (p : bool) (es : list Element) : StageResult :=
  {| stage_passed := p; elements := es; stage_documentType := None;
     stage_error := None |}.

Definition allPassDetails : Details :=
  [("format", stageOf true [passing "a"; passing "b"; passing "c"]);
   ("structure", stageOf true [passing "a"; passing "b"]);
   ("validity", stageOf true [passing "a"])].

(** [e] with its [passed] property set to [true]. *)
Definition markPassed (e : Element) : Element :=
  {| name := name e; passed := true; confidence := confidence e |}.

(** [result] with its [elements] replaced. *)
Definition withElements (es : list Element) (result : StageResult)
  : StageResult :=
  {| stage_passed := stage_passed result; elements := es;
     stage_documentType := stage_documentType result;
     stage_error := stage_error result |}.

(** Browsers: one that decodes every data URL to a 1600x1000 image with
    a blue-dominated canvas, one whose decoder fails, one whose canvas
    throws. *)
Definition goodImage : V2.Image :=
  {| V2.naturalWidth := 1600; V2.naturalHeight := 1000 |}.

Definition goodBrowser : V2.Browser :=
  {| V2.createImage := fun _ => Normal goodImage;
     V2.getImageData :=
       fun _ => Normal [(10, 20, 200, 255); (10, 20, 200, 255);
                        (90, 90, 90, 255)]%N;
     V2.currentDate := 1800000000000 |}.

Definition noDecodeBrowser : V2.Browser :=
  {| V2.createImage := fun _ => Thrown "error";
     V2.getImageData := V2.getImageData goodBrowser;
     V2.currentDate := 1800000000000 |}.

Definition noCanvasBrowser : V2.Browser :=
  {| V2.createImage := fun _ => Normal goodImage;
     V2.getImageData := fun _ => Thrown "The operation is insecure.";
     V2.currentDate := 1800000000000 |}.

Definition pngData : string := "data:image/png;base64,iVBORw0KGgo=".

(** Stage methods that answer with fixed completions. *)
Definition fixedMethods (f s d c v : completion StageResult)
  : V2.StageMethods :=
  {| V2.formatStage := fun _ => f; V2.structureStage := fun _ => s;
     V2.designStage := fun _ => d; V2.securityStage := fun _ => c;
     V2.validityStage := fun _ => v |}.

(** ** The recommendation rule, in the words of the spec *)

(** One message for each failing stage, in pipeline order. *)
Fixpoint failingStageMessages (pipeline : list (string * string))
  (d : Details) : list string :=
  match pipeline with
  | [] => []
  | (stage, message) :: rest =>
      if presentAndFailed d stage
      then message :: failingStageMessages rest d
      else failingStageMessages rest d
  end.

(** If the gating stage failed, its message alone; otherwise the messages
    of the failing stages; if there is none, the affirmative message. *)
Definition synthesize (gate : string * string)
  (pipeline : list (string * string)) (affirmative : string) (d : Details)
  : list string :=
  if presentAndFailed d (fst gate) then [snd gate]
  else
    match failingStageMessages pipeline d with
    | [] => [affirmative]
    | messages => messages
    end.

(** The stages after the gate in [src/ine-validator.js], each with its
    message. *)
Definition laterStages : list (string * string) :=
  [("structure", V2.structureMessage); ("design", V2.designMessage);
   ("security", V2.securityMessage); ("validity", V2.validityMessage)].

(** ** The stages of [src/ine-validator.js], by name *)

Inductive StageId : Type := Format | Structure | Design | Security | Validity.

Definition tryOf (stage : StageId) (browser : V2.Browser) (imageData : string)
  : Js StageResult unit :=
  match stage with
  | Format => V2.validateDocumentFormat_try browser imageData
  | Structure => V2.validateStructure_try browser imageData
  | Design => V2.validateOfficialDesign_try browser imageData
  | Security => V2.validateSecurityElements_try browser imageData
  | Validity => V2.validateValidity_try browser imageData
  end.

Definition runOf (stage : StageId) (browser : V2.Browser) (imageData : string)
  : StageResult :=
  match stage with
  | Format => V2.validateDocumentFormat browser imageData
  | Structure => V2.validateStructure browser imageData
  | Design => V2.validateOfficialDesign browser imageData
  | Security => V2.validateSecurityElements browser imageData
  | Validity => V2.validateValidity browser imageData
  end.

(** The object a stage starts from, and the outcome its [catch] records. *)
Definition initOf (stage : StageId) : StageResult :=
  match stage with
  | Format => V2.newFormatResult
  | _ => newResult
  end.

Definition markerOf (stage : StageId) : Element :=
  match stage with
  | Format => check "Formato del documento" false
  | Structure => check "Estructura de datos" false
  | Design => check "Diseño oficial" false
  | Security => check "Elementos de seguridad" false
  | Validity => check "Vigencia" false
  end.

(** The quorum of each stage: the format stage wants its three checks,
    the others two of theirs. *)
Definition quorumOf (stage : StageId) : nat :=
  match stage with
  | Format => 3
  | _ => 2
  end.

(** ** The quorum law *)

(** A stage result obeys the quorum [k]: it passed exactly when at least
    [k] of its collected outcomes passed. *)
Definition quorumLaw (k : nat) (r : StageResult) : Prop :=
  stage_passed r = true <-> (k <= countPassed (elements r))%nat.

(** A method of the first copy, started after [n] calls of
    [Math.random()], completes with a result that obeys the quorum [k]. *)
Definition completesWithQuorum (k : nat) (m : Js nat StageResult) (n : nat)
  : Prop :=
  exists r n', m n = (Normal r, n') /\ quorumLaw k r.

(** ** Runs of the first copy *)

(** The answer of a detector called after [n] calls of [Math.random()]. *)
Definition answerOf (detector : Js nat bool) (n : nat) : bool :=
  match detector n with
  | (Normal b, _) => b
  | (Thrown _, _) => false
  end.






(** Streams of [Math.random()] values: a constant one; one that differs
    from it only at the calls made for a confidence; one on which the
    three second-level detectors answer no and every other detector
    yes. *)
Definition steadyStream (n : nat) : Q := 9 # 10.


Definition weakSecondLevelStream (n : nat) : Q :=
  if existsb (Nat.eqb n) [10; 12; 14]%nat then 1 # 10 else 9 # 10.

(** A clock in January 2027. *)
Definition sampleDate : Z := 1800000000000.

(** A detector that draws once and cannot throw. *)
Definition oneDraw (detector : Js nat bool) : Prop :=
  forall n, detector n = (Normal (answerOf detector n), S n).

(** The outcome one round of a detector loop records when it starts
    after [n] calls of [Math.random()]. *)
Definition observed (rho : nat -> Q) (spread base : Q) (elementName : string)
  (detector : Js nat bool) (n : nat) : Element :=
  {| name := elementName;
     passed := answerOf detector n;
     confidence :=
       Some (if answerOf detector n
             then rho (S n) * spread + base
             else rho (S n) * spread) |}.

Definition visibleElementsAt (rho : nat -> Q) (n : nat) : list Element :=
  [observed rho 30 70 "Microtexto INE" (V1.detectMicrotext rho) n;
   observed rho 30 70 "Elementos OVD/OVI" (V1.detectOVD rho) (2 + n);
   observed rho 30 70 "Tintas UV" (V1.detectUVInk rho) (4 + n);
   observed rho 30 70 "Relieve táctil" (V1.detectRelief rho) (6 + n);
   observed rho 30 70 "Fondo de seguridad" (V1.detectSecurityBackground rho)
     (8 + n)].

Definition secondLevelElementsAt (rho : nat -> Q) (n : nat) : list Element :=
  [observed rho 25 75 "Microtexto en bordes" (V1.detectEdgeMicrotext rho) n;
   observed rho 25 75 "Patrones de líneas finas"
     (V1.detectFineLinePatterns rho) (2 + n);
   observed rho 25 75 "Impresión arcoíris" (V1.detectRainbowPrint rho)
     (4 + n)].

Definition qrElementsAt (rho : nat -> Q) (n : nat) : list Element :=
  [check "Estructura QR" true;
   check "Firma digital" (answerOf (V1.validateDigitalSignature rho) (1 + n));
   check "Consistencia datos" (answerOf (V1.verifyQRConsistency rho) (2 + n))].

Definition structureElements : list Element :=
  [check "CURP" true; check "Clave de Elector" true;
   check "Consistencia de datos" true].

Definition validityElementsAt (currentDate : Z) : list Element :=
  [check "No expirada" (currentDate <? 1863129600000)%Z;
   check "Modelo vigente" true;
   check "Período de validez" false].

(** A stage result with the given outcomes, passed by the quorum [k]. *)
Definition quorumResult (k : nat) (es : list Element) : StageResult :=
  stageOf (k <=? countPassed es)%nat es.

(** The [details] of a run of [V1.validateINE] and the report built on
    them. *)
Definition detailsOfRun (rho : nat -> Q) (currentDate : Z) : Details :=
  [("structure", quorumResult 2 structureElements);
   ("visible", quorumResult 3 (visibleElementsAt rho 0));
   ("secondLevel", quorumResult 2 (secondLevelElementsAt rho 10));
   ("qr", if gt (rho 16%nat) (binary64 0.2)
          then quorumResult 2 (qrElementsAt rho 16)
          else newResult);
   ("validity", quorumResult 2 (validityElementsAt currentDate))].

Definition reportOfDetails (imageData : string) (d : Details) : Report :=
  {| isValid := meetsThreshold (V1.calculateScore d);
     score := V1.calculateScore d;
     details := d;
     recommendations := V1.generateRecommendations d;
     fileSize := extractFileSize imageData;
     documentType := None;
     error := None |}.


(** ** The score on binary64 numbers

    The loop of [calculateScore] once more, on the binary64 numbers
    JavaScript computes with, to compare the exact score with on concrete
    runs. *)

Definition Math_round64 (x : float) : option Z :=
  Math_round (exactValue x).

Definition float_of_nat (n : nat) : float :=
  PrimFloat.of_uint63 (Uint63.of_Z (Z.of_nat n)).

Definition weightOf64 (weights : Weights) (category : string) : float :=
  match lookup category weights with
  | Some w => PrimFloat.of_uint63 (Uint63.of_Z (Z.pos w))
  | None => PrimFloat.nan
  end.

Definition scoreStep64 (weights : Weights) (acc : float * float)
  (entry : string * StageResult) : float * float :=
  let '(totalScore, maxScore) := acc in
  let '(category, result) := entry in
  let totalScore' :=
    if (0 <? List.length (elements result))%nat
    then (totalScore
          + float_of_nat (countPassed (elements result))
            / float_of_nat (List.length (elements result)) * 100
            * (weightOf64 weights category / 100))%float
    else totalScore in
  (totalScore', (maxScore + weightOf64 weights category)%float).

Definition calculateScore64 (weights : Weights) (d : Details) : option Z :=
  let '(totalScore, maxScore) :=
    fold_left (scoreStep64 weights) d (0%float, 0%float) in
  Math_round64 (totalScore / maxScore * 100)%float.

(** A stage result with [p] passing outcomes out of [n]. *)
Definition stageWithCounts (pn : nat * nat) : StageResult :=
  stageOf true (repeat (passing "check") (fst pn)
                  ++ repeat (failing "check") (snd pn - fst pn)).

(** All the ways of giving each stage of the list one of its possible
    counts. *)
Fixpoint allDetails (stages : list (string * list (nat * nat)))
  : list Details :=
  match stages with
  | [] => [[]]
  | (stage, counts) :: rest =>
      flat_map (fun pn => map (cons (stage, stageWithCounts pn))
                              (allDetails rest))
               counts
  end.

Definition upTo (n : nat) : list (nat * nat) :=
  map (fun p => (p, n)) (seq 0 (S n)).

(** The counts a complete run of [src/ine-validator.js] can produce: the
    format stage passed its three checks; each later stage collected
    three outcomes, or the single failing marker of its [catch]. *)
Definition reachableV2 : list Details :=
  allDetails
    [("format", [(3, 3)]); ("structure", (0, 1) :: upTo 3);
     ("design", (0, 1) :: upTo 3); ("security", (0, 1) :: upTo 3);
     ("validity", (0, 1) :: upTo 3)]%nat.

(** The counts a run of [src/unnamed/part_000] can produce. *)
Definition reachableV1 : list Details :=
  allDetails
    [("structure", [(3, 3)]); ("visible", upTo 5); ("secondLevel", upTo 3);
     ("qr", (0, 0) :: upTo 3); ("validity", upTo 3)]%nat.

(** Both scores agree on every one of the listed details. *)
Definition agreeOn (weights : Weights) (ds : list Details) : bool :=
  forallb (fun d =>
             match calculateScore64 weights d, calculateScoreWith weights d with
             | Some a, Some b => (a =? b)%Z
             | _, _ => false
             end) ds.

(** ** The recommendation rule of the first copy *)

(** The rule without a gate: the messages of the failing stages, in
    pipeline order; if there is none, the affirmative message. *)
Definition synthesizeUngated (pipeline : list (string * string))
  (affirmative : string) (d : Details) : list string :=
  match failingStageMessages pipeline d with
  | [] => [affirmative]
  | messages => messages
  end.

(** The stages [src/unnamed/part_000] has a message for, each with its
    message. *)
Definition firstCopyStages : list (string * string) :=
  [("structure", V1.structureMessage); ("visible", V1.visibleMessage);
   ("validity", V1.validityMessage)].

(** The messages of [src/unnamed/part_000], in order: the one of a failing
    structure stage, the one of a visible stage with more than two failed
    checks, the one of a failing validity stage. *)
Definition firstCopyMessages (d : Details) : list string :=
  failingStageMessages [("structure", V1.structureMessage)] d
  ++ (if V1.manyVisibleFailed d then [V1.visibleMessage] else [])
  ++ failingStageMessages [("validity", V1.validityMessage)] d.

(** The visible result of [d], if there is one, holds the five outcomes
    of the stage and obeys its quorum of three, as every result that
    [validateVisibleElements] returns does. *)
Definition visibleAsReturned (d : Details) : Prop :=
  forall r,
    lookup "visible" d = Some r ->
    List.length (elements r) = 5%nat /\ quorumLaw 3 r.

(** ** The stages of [src/ine-validator.js], over any detectors

    A stage reaches its detectors through [this] and awaits each of them.
    Written over the detectors, each call completing with its answer or
    throwing, a stage shows what its [try]/[catch] does with a fault at
    any of its calls, the later ones included: [validateStructure] has the
    image decoded twice, by [extractTextFromImage] and again by
    [detectINEText], and the second decoding may fail after the first
    succeeded. *)
Module Stages.

Record Detectors : Type := {
  createImage : string -> completion V2.Image;
  extractTextFromImage : string -> completion ExtractedData;
  detectINEText : string -> completion bool;
  (** [analyzeColors(img).hasOfficialColors] *)
  analyzeColors : V2.Image -> completion bool;
  detectOfficialElements : V2.Image -> completion bool;
  validateLayout : V2.Image -> completion bool;
  detectSecurityPatterns : V2.Image -> completion bool;
  (** [analyzeImageQuality(img).isHighQuality] *)
  analyzeImageQuality : V2.Image -> completion bool;
  detectReliefElements : V2.Image -> completion bool;
  (** [new Date()], in milliseconds since the epoch. *)
  currentDate : Z
}.

Section WithDetectors.

Variable this : Detectors.

Definition validateDocumentFormat_try (imageData : string)
  : Js StageResult unit :=
  img <- await (createImage this imageData) ;;
  let width := V2.naturalWidth img in
  let height := V2.naturalHeight img in
  let isCorrectAspect := V2.aspectInRange width height in
  modify (pushElement (check "Relación de aspecto" isCorrectAspect)) ;;;
  let isSufficientSize := ((500 <=? width) && (300 <=? height))%N in
  modify (pushElement (check "Tamaño suficiente" isSufficientSize)) ;;;
  let isImage := startsWith imageData "data:image/" in
  modify (pushElement (check "Formato de imagen" isImage)) ;;;
  if isImage && isCorrectAspect && isSufficientSize then
    modify (setStageDocumentType "potential_ine") ;;;
    modify (setPassed true)
  else if isImage then
    modify (setStageDocumentType "other_image")
  else
    modify (setStageDocumentType "other_document").

Definition validateStructure_try (imageData : string)
  : Js StageResult unit :=
  extractedData <- await (extractTextFromImage this imageData) ;;
  (if truthy (curp extractedData) then
     let curpValid :=
       match curp extractedData with
       | Some c => V2.validateCURPFormat c
       | None => false
       end in
     modify (pushElement (check "Formato CURP" curpValid))
   else
     modify (pushElement (check "Formato CURP" false))) ;;;
  (if truthy (electorKey extractedData) then
     let keyValid :=
       match electorKey extractedData with
       | Some k => V2.validateElectorKeyFormat k
       | None => false
       end in
     modify (pushElement (check "Clave de elector" keyValid))
   else
     modify (pushElement (check "Clave de elector" false))) ;;;
  hasINEText <- await (detectINEText this imageData) ;;
  modify (pushElement (check "Texto oficial INE" hasINEText)) ;;;
  V2.applyQuorum 2.

Definition validateOfficialDesign_try (imageData : string)
  : Js StageResult unit :=
  img <- await (createImage this imageData) ;;
  hasOfficialColors <- await (analyzeColors this img) ;;
  modify (pushElement (check "Espectro de colores" hasOfficialColors)) ;;;
  hasOfficialElements <- await (detectOfficialElements this img) ;;
  modify (pushElement
            (check "Elementos gráficos oficiales" hasOfficialElements)) ;;;
  layoutValid <- await (validateLayout this img) ;;
  modify (pushElement (check "Distribución espacial" layoutValid)) ;;;
  V2.applyQuorum 2.

Definition validateSecurityElements_try (imageData : string)
  : Js StageResult unit :=
  img <- await (createImage this imageData) ;;
  hasSecurityPatterns <- await (detectSecurityPatterns this img) ;;
  modify (pushElement (check "Patrones de seguridad" hasSecurityPatterns)) ;;;
  isHighQuality <- await (analyzeImageQuality this img) ;;
  modify (pushElement (check "Calidad de impresión" isHighQuality)) ;;;
  hasReliefElements <- await (detectReliefElements this img) ;;
  modify (pushElement (check "Elementos en relieve" hasReliefElements)) ;;;
  V2.applyQuorum 2.

Definition validateValidity_try (imageData : string)
  : Js StageResult unit :=
  extractedData <- await (extractTextFromImage this imageData) ;;
  (if truthy (issueDate extractedData)
      && truthy (expiryDate extractedData) then
     let now := currentDate this in
     let expiry := match expiryDate extractedData with
                   | Some s => dateOf s | None => None end in
     let issue := match issueDate extractedData with
                  | Some s => dateOf s | None => None end in
     let notExpired := laterThan expiry now in
     modify (pushElement (check "No expirada" notExpired)) ;;;
     let validityPeriod := checkValidityPeriod issue expiry in
     modify (pushElement (check "Período de validez" validityPeriod)) ;;;
     let validModel := validateModel (model extractedData) in
     modify (pushElement (check "Modelo vigente" validModel))
   else
     modify (pushElement (check "Fechas de vigencia" false))) ;;;
  V2.applyQuorum 2.

Definition tryOf (stage : StageId) (imageData : string)
  : Js StageResult unit :=
  match stage with
  | Format => validateDocumentFormat_try imageData
  | Structure => validateStructure_try imageData
  | Design => validateOfficialDesign_try imageData
  | Security => validateSecurityElements_try imageData
  | Validity => validateValidity_try imageData
  end.

(** The stage method: the [try] block and its [catch], which pushes the
    stage's failing marker onto [results.elements] as they stand. *)
Definition run (stage : StageId) (imageData : string) : StageResult :=
  exec
    (tryCatch (tryOf stage imageData)
       (fun _ => modify (pushElement (markerOf stage))))
    (initOf stage).

End WithDetectors.

(** The detectors of the class itself. *)
Definition own (browser : V2.Browser) : Detectors :=
  {| createImage := V2.createImage browser;
     extractTextFromImage := fun imageData =>
       fst (V2.extractTextFromImage browser imageData tt);
     detectINEText := fun imageData =>
       fst (V2.detectINEText browser imageData tt);
     analyzeColors := fun img => fst (V2.analyzeColors browser img tt);
     detectOfficialElements := fun img => Normal (V2.detectOfficialElements img);
     validateLayout := fun img => Normal (V2.validateLayout img);
     detectSecurityPatterns := fun img => Normal (V2.detectSecurityPatterns img);
     analyzeImageQuality := fun img => Normal (V2.analyzeImageQuality img);
     detectReliefElements := fun img => Normal (V2.detectReliefElements img);
     currentDate := V2.currentDate browser |}.

End Stages.

(** The class's detectors on a good image, except that the decoder fails
    when [detectINEText] asks for the image once more. *)
Definition secondDecodeFails : Stages.Detectors :=
  {| Stages.createImage := Stages.createImage (Stages.own goodBrowser);
     Stages.extractTextFromImage :=
       Stages.extractTextFromImage (Stages.own goodBrowser);
     Stages.detectINEText := fun _ => Thrown "Error al cargar la imagen";
     Stages.analyzeColors := Stages.analyzeColors (Stages.own goodBrowser);
     Stages.detectOfficialElements :=
       Stages.detectOfficialElements (Stages.own goodBrowser);
     Stages.validateLayout := Stages.validateLayout (Stages.own goodBrowser);
     Stages.detectSecurityPatterns :=
       Stages.detectSecurityPatterns (Stages.own goodBrowser);
     Stages.analyzeImageQuality :=
       Stages.analyzeImageQuality (Stages.own goodBrowser);
     Stages.detectReliefElements :=
       Stages.detectReliefElements (Stages.own goodBrowser);
     Stages.currentDate := Stages.currentDate (Stages.own goodBrowser) |}.

(** The names of the checks a stage can collect in its [try] block. *)
Definition checkNames (stage : StageId) : list string :=
  match stage with
  | Format => ["Relación de aspecto"; "Tamaño suficiente"; "Formato de imagen"]
  | Structure => ["Formato CURP"; "Clave de elector"; "Texto oficial INE"]
  | Design => ["Espectro de colores"; "Elementos gráficos oficiales";
               "Distribución espacial"]
  | Security => ["Patrones de seguridad"; "Calidad de impresión";
                 "Elementos en relieve"]
  | Validity => ["No expirada"; "Período de validez"; "Modelo vigente";
                 "Fechas de vigencia"]
  end.

(** ** [validateINE] of [src/ine-validator.js], called with any value

    [validateINE] is written for a data URL, but a caller can hand it any
    value.  What the method does with a value that is not a string depends
    only on whether the value is falsy and on the text it turns into when
    it is assigned to [img.src]. *)
Inductive Argument : Type :=
| Text (s : string)
    (* a string *)
| Falsy (shown : string)
    (* [undefined], [null], [0], [NaN] or [false] *)
| Truthy (shown : string).
    (* any other value without a [startsWith] method: a non-zero number,
       [true], an array, a [File], a plain object *)

(** [String(imageData)], which [img.src = imageData] assigns. *)
Definition shownAs (v : Argument) : string :=
  match v with
  | Text s => s
  | Falsy shown => shown
  | Truthy shown => shown
  end.

(** [!imageData] *)
Definition isFalsy (v : Argument) : bool :=
  match v with
  | Text s => (String.length s =? 0)%nat
  | Falsy _ => true
  | Truthy _ => false
  end.

Definition notAFunction : string := "imageData.startsWith is not a function".

(** [imageData.startsWith(p)]: on a value that is not a string the
    property is missing and the call throws a [TypeError] (with another
    message on [undefined] and [null], where it is caught by a handler
    that does not read it). *)
Definition startsWithOf (v : Argument) (p : string) : completion bool :=
  match v with
  | Text s => Normal (startsWith s p)
  | Falsy _ => Thrown notAFunction
  | Truthy _ => Thrown notAFunction
  end.

(** [extractFileSize(imageData)]: past the first line the argument is a
    string. *)
Definition extractFileSizeOf (v : Argument) : completion Z :=
  if isFalsy v then Normal 0%Z
  else
    match startsWithOf v "data:" with
    | Thrown e => Thrown e
    | Normal false => Normal 0%Z
    | Normal true => Normal (extractFileSize (shownAs v))
    end.

(** [validateDocumentFormat(imageData)], the one stage that calls a string
    method on its argument. *)
Definition validateDocumentFormatOf_try (browser : V2.Browser) (v : Argument)
  : Js StageResult unit :=
  img <- await (V2.createImage browser (shownAs v)) ;;
  let width := V2.naturalWidth img in
  let height := V2.naturalHeight img in
  let isCorrectAspect := V2.aspectInRange width height in
  modify (pushElement (check "Relación de aspecto" isCorrectAspect)) ;;;
  let isSufficientSize := ((500 <=? width) && (300 <=? height))%N in
  modify (pushElement (check "Tamaño suficiente" isSufficientSize)) ;;;
  isImage <- await (startsWithOf v "data:image/") ;;
  modify (pushElement (check "Formato de imagen" isImage)) ;;;
  if isImage && isCorrectAspect && isSufficientSize then
    modify (setStageDocumentType "potential_ine") ;;;
    modify (setPassed true)
  else if isImage then
    modify (setStageDocumentType "other_image")
  else
    modify (setStageDocumentType "other_document").

Definition validateDocumentFormatOf (browser : V2.Browser) (v : Argument)
  : StageResult :=
  exec
    (tryCatch (validateDocumentFormatOf_try browser v)
       (fun _ => modify (pushElement (check "Formato del documento" false))))
    V2.newFormatResult.

(** The stage methods on the value [v]: the later stages hand their
    argument to [createImage] only. *)
Definition methodsOf (browser : V2.Browser) (v : Argument) : V2.StageMethods :=
  {| V2.formatStage := fun _ => Normal (validateDocumentFormatOf browser v);
     V2.structureStage := fun d => Normal (V2.validateStructure browser d);
     V2.designStage := fun d => Normal (V2.validateOfficialDesign browser d);
     V2.securityStage := fun d => Normal (V2.validateSecurityElements browser d);
     V2.validityStage := fun d => Normal (V2.validateValidity browser d) |}.

(** [validateINE(imageData)]: the object literal of [results], with its
    call of [extractFileSize], is evaluated before the [try] block is
    entered; a fault there leaves the method (its promise rejects). *)
Definition validateINEOf (browser : V2.Browser) (v : Argument)
  : completion Report :=
  match extractFileSizeOf v with
  | Thrown e => Thrown e
  | Normal size =>
      let results :=
        {| isValid := false; score := Some 0%Z; details := [];
           recommendations := []; fileSize := size;
           documentType := Some "unknown"; error := None |} in
      Normal (exec
                (tryCatch (V2.validateINE_try (methodsOf browser v) (shownAs v))
                          (fun message => modify (setError message)))
                results)
  end.

(** The number 12345 as an argument. *)
Definition numberArgument : Argument := Truthy "12345".

(** ** Definitions used by the further properties *)

(** [s] contains a comma. *)
Fixpoint hasComma (s : string) : bool :=
  match s with
  | EmptyString => false
  | String c rest => Ascii.eqb c ","%char || hasComma rest
  end.


(** The colour of a pixel, and how many pixels of the sample have a given
    colour. *)
Definition rgbOf (px : V2.Pixel) : V2.Color :=
  let '(r, g, b, _) := px in (r, g, b).

Definition occurrences (color : V2.Color) (data : list V2.Pixel) : nat :=
  List.length (filter (fun px => V2.colorEqb (rgbOf px) color) data).

(** The [colorCount] object [analyzeColors] builds, and the count it
    holds for a colour (0 when the colour is not a key). *)
Definition colorCountOf (data : list V2.Pixel) : list (V2.Color * nat) :=
  fold_left (fun cc px => let '(r, g, b, _) := px in V2.countColor (r, g, b) cc)
            data [].

Fixpoint countOf (color : V2.Color) (colorCount : list (V2.Color * nat))
  : nat :=
  match colorCount with
  | [] => 0
  | (k, n) :: rest => if V2.colorEqb k color then n else countOf color rest
  end.

(** Larger counts first. *)
Definition byCountDescending (x y : V2.Color * nat) : Prop :=
  (snd y <= snd x)%nat.

(** [analyzeImageContent(img).looksLikeINE] *)
Definition likeINE (img : V2.Image) : bool :=
  V2.looksLikeINE (V2.analyzeImageContent img).

(** The checks of the four later stages of [src/ine-validator.js] on a
    decoded image, as they come out of the stubs. *)
Definition structureChecks (img : V2.Image) : list Element :=
  [check "Formato CURP" (likeINE img);
   check "Clave de elector" false;
   check "Texto oficial INE" (likeINE img)].

Definition designChecks (img : V2.Image) (data : list V2.Pixel)
  : list Element :=
  [check "Espectro de colores" (V2.hasBlueTones (V2.dominantColorsOf data));
   check "Elementos gráficos oficiales" (likeINE img);
   check "Distribución espacial" (likeINE img)].

Definition securityChecks (img : V2.Image) : list Element :=
  [check "Patrones de seguridad" (likeINE img);
   check "Calidad de impresión" (V2.analyzeImageQuality img);
   check "Elementos en relieve" false].

Definition validityChecks (img : V2.Image) (currentDate : Z) : list Element :=
  if likeINE img
  then [check "No expirada" (currentDate <? 1863129600000)%Z;
        check "Período de validez" false;
        check "Modelo vigente" true]
  else [check "Fechas de vigencia" false].

(** The stage ids in the order [validateINE] of [src/ine-validator.js]
    runs them. *)
Definition pipelineOrder : list string :=
  ["format"; "structure"; "design"; "security"; "validity"].

(** [this.validationSteps] of the two constructors: id, name,
    description. *)
Definition validationStepsV2 : list (string * string * string) :=
  [("format", "Formato de documento",
    "Verificación de dimensiones y formato");
   ("structure", "Estructura de datos",
    "Validación de CURP y clave de elector");
   ("design", "Diseño oficial", "Elementos visuales del INE");
   ("security", "Elementos de seguridad", "Microtexto, OVD, relieve táctil");
   ("validity", "Vigencia", "Verificación de vigencia de la credencial")].

Definition validationStepsV1 : list (string * string * string) :=
  [("structure", "Estructura de datos",
    "Validación de CURP y clave de elector");
   ("visible", "Elementos visibles", "Microtexto, OVD, tinta UV");
   ("secondLevel", "Elementos de segundo nivel",
    "Elementos que requieren lupa");
   ("nonVisible", "Elementos no visibles", "Elementos con luz UV");
   ("qr", "Códigos QR", "Validación de códigos QR y contenido");
   ("validity", "Vigencia", "Verificación de vigencia de la credencial")].

Definition stepIds (steps : list (string * string * string)) : list string :=
  map (fun step => fst (fst step)) steps.

(** Every way the [try] block of [validateINE] can end. *)
Inductive RunShape (this : V2.StageMethods) (d : string) : Report -> Prop :=
| EndedByFault (n : nat) (e : string) (r : Report) :
    (n < 5)%nat ->
    map fst (details r) = firstn n pipelineOrder ->
    error r = Some e -> recommendations r = [] ->
    isValid r = false -> score r = Some 0%Z ->
    RunShape this d r
| EndedAtGate (fr : StageResult) (r : Report) :
    V2.formatStage this d = Normal fr -> stage_passed fr = false ->
    map fst (details r) = firstn 1 pipelineOrder ->
    error r = None -> isValid r = false ->
    RunShape this d r
| RanToEnd (fr : StageResult) (r : Report) :
    V2.formatStage this d = Normal fr -> stage_passed fr = true ->
    map fst (details r) = pipelineOrder ->
    error r = None ->
    isValid r = meetsThreshold (score r) ->
    recommendations r = V2.generateRecommendations (details r) ->
    RunShape this d r.

(** The largest binary64 number below 1, the largest value
    [Math.random()] can return. *)
Definition largestBelowOne : float := 0x1.fffffffffffffp-1%float.

(** The confidence of a simulated check lies in the upper band of width
    [spread] below 100 when the check passed, in the lower band of that
    width above 0 when it did not; both bands with their ends: the exact
    value stays below the upper end, but the binary64 sum rounds up to 100
    when the value of [Math.random()] is the largest number below 1. *)
Definition confidenceBand (spread : Q) (e : Element) : Prop :=
  exists c,
    confidence e = Some c
    /\ if passed e then 100 - spread <= c /\ c <= 100
       else 0 <= c /\ c <= spread.

(** The checks of [src/ine-validator.js] that no input can pass. *)
Definition deadChecks : list string :=
  ["Clave de elector"; "Elementos en relieve"; "Período de validez"].

(** * Verified properties *)

(** ** The score aggregator *)
Lemma weightQ_pos weights c :
  lookup c weights <> None -> 0 < weightQ weights c.
Proof.
  unfold weightQ. destruct (lookup c weights) as [w|]; [intros _|congruence].
  unfold Qlt. simpl. lia.
Qed.

Lemma weightOf_weighted weights c :
  lookup c weights <> None -> weightOf weights c = Some (weightQ weights c).
Proof.
  unfold weightOf, weightQ. destruct (lookup c weights); congruence.
Qed.

Lemma totalOf_cons weights entry d :
  totalOf weights (entry :: d) = contribution weights entry + totalOf weights d.
Proof. reflexivity. Qed.

Lemma maxOf_cons weights entry d :
  maxOf weights (entry :: d) = weightQ weights (fst entry) + maxOf weights d.
Proof. reflexivity. Qed.

Lemma scoreLoop_acc weights d : forall t0 m0,
  allWeighted weights d ->
  exists t m,
    fold_left (scoreStep weights) d (Some t0, Some m0) = (Some t, Some m)
    /\ t == t0 + totalOf weights d /\ m == m0 + maxOf weights d.
Proof.
  induction d as [|[c r] d IH]; intros t0 m0 Hw.
  - exists t0, m0. cbn [fold_left totalOf maxOf fold_right].
    split; [reflexivity | split; ring].
  - inversion Hw as [|? ? Hc Hd]; subst. simpl in Hc.
    cbn [fold_left scoreStep].
    rewrite (weightOf_weighted _ _ Hc).
    cbn [jsdiv jsmul jsadd].
    replace (Qeq_bool 100 0) with false by reflexivity.
    rewrite totalOf_cons, maxOf_cons. unfold contribution. cbn [fst snd].
    destruct (0 <? List.length (elements r))%nat eqn:E.
    + cbn [jsadd].
      destruct (IH (t0 + categoryScore (elements r) * (weightQ weights c / 100))
                   (m0 + weightQ weights c) Hd) as (t & m & Hf & Ht & Hm).
      exists t, m. split; [exact Hf|].
      split; [rewrite Ht | rewrite Hm]; ring.
    + destruct (IH t0 (m0 + weightQ weights c) Hd) as (t & m & Hf & Ht & Hm).
      exists t, m. split; [exact Hf|].
      split; [rewrite Ht | rewrite Hm]; ring.
Qed.

Lemma maxOf_nonneg weights d : 0 <= maxOf weights d.
Proof.
  induction d as [|[c r] d IH]; [cbn; lra|].
  rewrite maxOf_cons. cbn [fst].
  assert (0 <= weightQ weights c).
  { unfold weightQ. destruct (lookup c weights); [|lra]. unfold Qle; simpl; lia. }
  lra.
Qed.

Lemma maxOf_pos weights d :
  allWeighted weights d -> d <> [] -> 0 < maxOf weights d.
Proof.
  intros Hw Hd. destruct d as [|[c r] d]; [congruence|].
  inversion Hw as [|? ? Hc Hd']; subst. simpl in Hc.
  rewrite maxOf_cons. cbn [fst].
  pose proof (weightQ_pos _ _ Hc). pose proof (maxOf_nonneg weights d). lra.
Qed.

Lemma calculateScoreWith_exact weights d :
  allWeighted weights d -> d <> [] ->
  calculateScoreWith weights d
  = Some (Qfloor (totalOf weights d / maxOf weights d * 100 + (1 # 2))).
Proof.
  intros Hw Hd. unfold calculateScoreWith, scoreLoop.
  destruct (scoreLoop_acc weights d 0 0 Hw) as (t & m & Hf & Ht & Hm).
  rewrite Hf. pose proof (maxOf_pos _ _ Hw Hd) as Hpos.
  assert (Hm' : m == maxOf weights d) by (rewrite Hm; ring).
  assert (Ht' : t == totalOf weights d) by (rewrite Ht; ring).
  cbn [jsdiv].
  destruct (Qeq_bool m 0) eqn:E.
  - apply Qeq_bool_eq in E. rewrite Hm' in E. lra.
  - cbn [jsmul Math_round]. f_equal. apply Qfloor_comp.
    rewrite Ht', Hm'. reflexivity.
Qed.

Lemma totalOf_app weights d1 d2 :
  totalOf weights (d1 ++ d2) == totalOf weights d1 + totalOf weights d2.
Proof.
  induction d1 as [|x d1 IH].
  - cbn [app]. change (totalOf weights []) with 0. ring.
  - cbn [app]. rewrite !totalOf_cons, IH. ring.
Qed.

Lemma maxOf_app weights d1 d2 :
  maxOf weights (d1 ++ d2) == maxOf weights d1 + maxOf weights d2.
Proof.
  induction d1 as [|x d1 IH].
  - cbn [app]. change (maxOf weights []) with 0. ring.
  - cbn [app]. rewrite !maxOf_cons, IH. ring.
Qed.

Lemma weightQ_nonneg weights c : 0 <= weightQ weights c.
Proof.
  unfold weightQ. destruct (lookup c weights); [|lra].
  unfold Qle; simpl; lia.
Qed.

Lemma countPassed_le_length es : (countPassed es <= List.length es)%nat.
Proof. unfold countPassed. apply filter_length_le. Qed.

Lemma inject_nat_le (a b : nat) :
  (a <= b)%nat -> inject_Z (Z.of_nat a) <= inject_Z (Z.of_nat b).
Proof. intros H. rewrite <- Zle_Qle. lia. Qed.

(** The percentage of a stage grows with the number of passing checks. *)
Lemma percentage_mono (p q n : nat) :
  (0 < n)%nat -> (p <= q)%nat ->
  inject_Z (Z.of_nat p) / inject_Z (Z.of_nat n) * 100
  <= inject_Z (Z.of_nat q) / inject_Z (Z.of_nat n) * 100.
Proof.
  intros Hn Hpq.
  assert (Hpos : 0 < inject_Z (Z.of_nat n)).
  { replace 0 with (inject_Z 0) by reflexivity. rewrite <- Zlt_Qlt. lia. }
  apply Qmult_le_compat_r; [|lra].
  unfold Qdiv. apply Qmult_le_compat_r.
  - apply inject_nat_le, Hpq.
  - apply Qlt_le_weak, Qinv_lt_0_compat, Hpos.
Qed.

Lemma categoryScore_bounds es :
  (0 < List.length es)%nat ->
  0 <= categoryScore es /\ categoryScore es <= 100.
Proof.
  intros Hn. unfold categoryScore. split.
  - assert (H := percentage_mono 0 (countPassed es) (List.length es) Hn
                   (Nat.le_0_l _)).
    assert (E : inject_Z (Z.of_nat 0) / inject_Z (Z.of_nat (List.length es)) * 100 == 0).
    { change (inject_Z (Z.of_nat 0)) with 0. unfold Qdiv. ring. }
    rewrite E in H. exact H.
  - assert (H := percentage_mono (countPassed es) (List.length es)
                   (List.length es) Hn (countPassed_le_length es)).
    assert (E : inject_Z (Z.of_nat (List.length es))
                / inject_Z (Z.of_nat (List.length es)) * 100 == 100).
    { field. intros Hz.
      assert (0 < inject_Z (Z.of_nat (List.length es))).
      { replace 0 with (inject_Z 0) by reflexivity. rewrite <- Zlt_Qlt. lia. }
      lra. }
    rewrite E in H. exact H.
Qed.

Lemma contribution_bounds weights entry :
  0 <= contribution weights entry
  /\ contribution weights entry <= weightQ weights (fst entry).
Proof.
  unfold contribution. pose proof (weightQ_nonneg weights (fst entry)) as Hw.
  destruct (0 <? List.length (elements (snd entry)))%nat eqn:E.
  - apply Nat.ltb_lt in E.
    destruct (categoryScore_bounds _ E) as [H0 H100].
    set (s := categoryScore (elements (snd entry))) in *.
    set (w := weightQ weights (fst entry)) in *.
    split.
    + apply Qmult_le_0_compat; [exact H0|].
      unfold Qdiv. apply Qmult_le_0_compat; [exact Hw|]. unfold Qle; simpl; lia.
    + assert (H : s * (w / 100) <= 100 * (w / 100)).
      { apply Qmult_le_compat_r; [exact H100|].
        unfold Qdiv. apply Qmult_le_0_compat; [exact Hw|]. unfold Qle; simpl; lia. }
      assert (E' : 100 * (w / 100) == w) by field.
      rewrite E' in H. exact H.
  - split; [lra | exact Hw].
Qed.

Lemma totalOf_bounds weights d :
  0 <= totalOf weights d /\ totalOf weights d <= maxOf weights d.
Proof.
  induction d as [|x d [IH0 IH1]].
  - cbn. split; lra.
  - rewrite totalOf_cons, maxOf_cons.
    destruct (contribution_bounds weights x). split; lra.
Qed.

(** The rounded percentage of [t] out of [m] is monotone in [t]. *)
Lemma rounded_ratio_mono (t t' m : Q) :
  0 < m -> t <= t' ->
  (Qfloor (t / m * 100 + (1 # 2)) <= Qfloor (t' / m * 100 + (1 # 2)))%Z.
Proof.
  intros Hm Ht. apply Qfloor_resp_le.
  apply Qplus_le_compat; [|lra].
  apply Qmult_le_compat_r; [|lra].
  unfold Qdiv. apply Qmult_le_compat_r; [exact Ht|].
  apply Qlt_le_weak, Qinv_lt_0_compat, Hm.
Qed.

Lemma rounded_ratio_full (t m : Q) :
  0 < m -> t == m -> Qfloor (t / m * 100 + (1 # 2)) = 100%Z.
Proof.
  intros Hm Ht.
  assert (E : t / m * 100 + (1 # 2) == 100 + (1 # 2)).
  { rewrite Ht. field. lra. }
  rewrite (Qfloor_comp _ _ E). reflexivity.
Qed.

Lemma rounded_ratio_bounds (t m : Q) :
  0 < m -> 0 <= t -> t <= m ->
  (0 <= Qfloor (t / m * 100 + (1 # 2)) <= 100)%Z.
Proof.
  intros Hm H0 H1. split.
  - assert (H := rounded_ratio_mono 0 t m Hm H0).
    assert (E : 0 / m * 100 + (1 # 2) == 1 # 2) by (field; lra).
    rewrite (Qfloor_comp _ _ E) in H. exact H.
  - assert (H := rounded_ratio_mono t m m Hm H1).
    rewrite (rounded_ratio_full m m Hm) in H by reflexivity. exact H.
Qed.

Lemma calculateScoreWith_bounds weights d :
  allWeighted weights d -> d <> [] ->
  exists z, calculateScoreWith weights d = Some z /\ (0 <= z <= 100)%Z.
Proof.
  intros Hw Hd. rewrite (calculateScoreWith_exact _ _ Hw Hd).
  eexists; split; [reflexivity|].
  destruct (totalOf_bounds weights d).
  apply rounded_ratio_bounds; auto using maxOf_pos.
Qed.

(** A zero [maxScore] never meets a non-zero [totalScore]. *)
Lemma zero_maxScore_zero_totalScore weights d :
  allWeighted weights d -> maxOf weights d == 0 -> totalOf weights d == 0.
Proof.
  intros Hw Hz. destruct d as [|x d].
  - reflexivity.
  - assert (H : 0 < maxOf weights (x :: d)) by (apply maxOf_pos; congruence).
    lra.
Qed.

(** With no entry at all both sums are zero: [0 / 0] is [NaN]. *)
Example no_stage_scores_NaN (weights : Weights) :
  calculateScoreWith weights [] = None.
Proof. reflexivity. Qed.

Lemma countPassed_all es :
  forallb passed es = true -> countPassed es = List.length es.
Proof.
  unfold countPassed. induction es as [|e es IH]; [reflexivity|].
  cbn [forallb filter]. intros H. apply andb_prop in H as [He Hes].
  rewrite He. cbn [List.length]. f_equal. exact (IH Hes).
Qed.

Lemma contribution_all_pass weights entry :
  elements (snd entry) <> [] ->
  forallb passed (elements (snd entry)) = true ->
  contribution weights entry == weightQ weights (fst entry).
Proof.
  intros Hne Hall. unfold contribution, categoryScore.
  rewrite (countPassed_all _ Hall).
  destruct (elements (snd entry)) as [|e es] eqn:E; [congruence|].
  replace (0 <? List.length (e :: es))%nat with true by reflexivity.
  assert (0 < inject_Z (Z.of_nat (List.length (e :: es)))).
  { replace 0 with (inject_Z 0) by reflexivity. rewrite <- Zlt_Qlt.
    cbn [List.length]. lia. }
  field. lra.
Qed.

(** C6. For every table of positive weights and every run whose executed
    stages each collected at least one outcome, all of them passing, the
    aggregated score is 100. *)
Theorem all_pass_scores_100 (weights : Weights) (d : Details) :
  d <> [] ->
  allWeighted weights d ->
  Forall (fun entry => elements (snd entry) <> []
                       /\ forallb passed (elements (snd entry)) = true) d ->
  calculateScoreWith weights d = Some 100%Z.
Proof.
  intros Hd Hw Hall.
  rewrite (calculateScoreWith_exact _ _ Hw Hd). f_equal.
  apply rounded_ratio_full; [apply maxOf_pos; assumption|].
  clear Hd Hw. induction Hall as [|x d [Hne Hp] _ IH].
  - reflexivity.
  - rewrite totalOf_cons, maxOf_cons, IH.
    rewrite (contribution_all_pass _ _ Hne Hp). reflexivity.
Qed.

Lemma all_pass_scores_100_witness :
  V2.calculateScore allPassDetails = Some 100%Z.
Proof.
  apply (all_pass_scores_100 V2.weights allPassDetails).
  - discriminate.
  - repeat constructor; discriminate.
  - repeat constructor; discriminate.
Defined.

Lemma allWeighted_middle weights pre x y post :
  fst x = fst y ->
  allWeighted weights (pre ++ x :: post) ->
  allWeighted weights (pre ++ y :: post).
Proof.
  unfold allWeighted. intros E H.
  apply Forall_app in H as [Hpre Hx]. inversion Hx; subst.
  apply Forall_app. split; [assumption|]. constructor; [|assumption].
  rewrite <- E. assumption.
Qed.

Lemma totalOf_middle weights pre x post :
  totalOf weights (pre ++ x :: post)
  == totalOf weights pre + contribution weights x + totalOf weights post.
Proof. rewrite totalOf_app, totalOf_cons. ring. Qed.

Lemma maxOf_middle weights pre x y post :
  fst x = fst y ->
  maxOf weights (pre ++ x :: post) == maxOf weights (pre ++ y :: post).
Proof. intros E. rewrite !maxOf_app, !maxOf_cons, E. reflexivity. Qed.

Lemma middle_nonempty {A} (pre : list A) x post : pre ++ x :: post <> [].
Proof. destruct pre; discriminate. Qed.

(** Replacing one entry by another of the same category changes the score
    in the direction of the entry's contribution. *)
Lemma calculateScoreWith_middle_le weights pre x y post :
  fst x = fst y ->
  allWeighted weights (pre ++ x :: post) ->
  contribution weights x <= contribution weights y ->
  exists z z',
    calculateScoreWith weights (pre ++ x :: post) = Some z
    /\ calculateScoreWith weights (pre ++ y :: post) = Some z'
    /\ (z <= z')%Z.
Proof.
  intros E Hw Hc.
  pose proof (allWeighted_middle _ _ _ _ _ E Hw) as Hw'.
  rewrite (calculateScoreWith_exact _ _ Hw (middle_nonempty _ _ _)).
  rewrite (calculateScoreWith_exact _ _ Hw' (middle_nonempty _ _ _)).
  do 2 eexists. split; [reflexivity|]. split; [reflexivity|].
  rewrite (Qfloor_comp
             (totalOf weights (pre ++ y :: post)
              / maxOf weights (pre ++ y :: post) * 100 + (1 # 2))
             (totalOf weights (pre ++ y :: post)
              / maxOf weights (pre ++ x :: post) * 100 + (1 # 2))).
  2:{ rewrite (maxOf_middle _ _ _ _ _ E). reflexivity. }
  apply rounded_ratio_mono.
  - apply maxOf_pos; [assumption | apply middle_nonempty].
  - rewrite !totalOf_middle. lra.
Qed.

Lemma calculateScoreWith_middle_eq weights pre x y post :
  fst x = fst y ->
  allWeighted weights (pre ++ x :: post) ->
  contribution weights x == contribution weights y ->
  calculateScoreWith weights (pre ++ x :: post)
  = calculateScoreWith weights (pre ++ y :: post).
Proof.
  intros E Hw Hc.
  pose proof (allWeighted_middle _ _ _ _ _ E Hw) as Hw'.
  rewrite (calculateScoreWith_exact _ _ Hw (middle_nonempty _ _ _)).
  rewrite (calculateScoreWith_exact _ _ Hw' (middle_nonempty _ _ _)).
  f_equal. apply Qfloor_comp.
  rewrite (maxOf_middle _ _ _ _ _ E), !totalOf_middle, Hc. reflexivity.
Qed.

Lemma countPassed_none es :
  forallb (fun e => negb (passed e)) es = true -> countPassed es = 0%nat.
Proof.
  unfold countPassed. induction es as [|e es IH]; [reflexivity|].
  cbn [forallb filter]. intros H. apply andb_prop in H as [He Hes].
  destruct (passed e); [discriminate|]. exact (IH Hes).
Qed.

Lemma contribution_all_fail weights category result :
  forallb (fun e => negb (passed e)) (elements result) = true ->
  contribution weights (category, result) == 0.
Proof.
  intros H. unfold contribution, categoryScore. cbn [fst snd].
  rewrite (countPassed_none _ H).
  destruct (0 <? List.length (elements result))%nat; [|reflexivity].
  change (inject_Z (Z.of_nat 0)) with 0. unfold Qdiv. ring.
Qed.

(** C8. A stage with zero collected outcomes is scored without any
    division by zero: the score is a number between 0 and 100, it is the
    score the run would have if every check of that stage had failed, and
    such a stage on its own scores 0 (not 100) even when its [passed] flag
    is set. *)
Theorem empty_stage_scores_zero
  (weights : Weights) (pre post : Details) (category : string)
  (result : StageResult) :
  allWeighted weights (pre ++ (category, result) :: post) ->
  elements result = [] ->
  (exists z,
      calculateScoreWith weights (pre ++ (category, result) :: post) = Some z
      /\ (0 <= z <= 100)%Z)
  /\ (forall es,
         forallb (fun e => negb (passed e)) es = true ->
         calculateScoreWith weights
           (pre ++ (category, withElements es result) :: post)
         = calculateScoreWith weights (pre ++ (category, result) :: post))
  /\ calculateScoreWith weights [(category, result)] = Some 0%Z.
Proof.
  intros Hw He. split; [|split].
  - apply calculateScoreWith_bounds; [assumption | apply middle_nonempty].
  - intros es Hes. apply calculateScoreWith_middle_eq.
    + reflexivity.
    + apply (allWeighted_middle _ _ (category, result)); [reflexivity|assumption].
    + rewrite !contribution_all_fail; [reflexivity | | exact Hes].
      rewrite He. reflexivity.
  - assert (Hw1 : allWeighted weights [(category, result)]).
    { apply Forall_app in Hw as [_ Hx]. inversion Hx; subst.
      constructor; [assumption | constructor]. }
    rewrite (calculateScoreWith_exact _ _ Hw1) by discriminate.
    f_equal.
    assert (E : totalOf weights [(category, result)]
                / maxOf weights [(category, result)] * 100 + (1 # 2)
                == 1 # 2).
    { rewrite totalOf_cons. change (totalOf weights []) with 0.
      rewrite contribution_all_fail by (rewrite He; reflexivity).
      field. pose proof (maxOf_pos _ _ Hw1). 
      assert (0 < maxOf weights [(category, result)]) by (apply H; discriminate).
      lra. }
    rewrite (Qfloor_comp _ _ E). reflexivity.
Qed.

Lemma empty_stage_scores_zero_witness :
  (exists z,
      V2.calculateScore
        ([("format", stageOf true [passing "a"])]
           ++ ("structure", stageOf true []) :: [])
      = Some z /\ (0 <= z <= 100)%Z)
  /\ (forall es,
         forallb (fun e => negb (passed e)) es = true ->
         V2.calculateScore
           ([("format", stageOf true [passing "a"])]
              ++ ("structure", withElements es (stageOf true [])) :: [])
         = V2.calculateScore
             ([("format", stageOf true [passing "a"])]
                ++ ("structure", stageOf true []) :: []))
  /\ V2.calculateScore [("structure", stageOf true [])] = Some 0%Z.
Proof.
  apply (empty_stage_scores_zero V2.weights
           [("format", stageOf true [passing "a"])] []
           "structure" (stageOf true [])).
  - repeat constructor; discriminate.
  - reflexivity.
Defined.

Lemma countPassed_flip es1 e es2 :
  passed e = false ->
  countPassed (es1 ++ markPassed e :: es2) = S (countPassed (es1 ++ e :: es2)).
Proof.
  intros He. unfold countPassed.
  rewrite !filter_app, !length_app. cbn [filter markPassed passed].
  rewrite He. cbn [List.length]. lia.
Qed.

Lemma contribution_flip weights category result es1 e es2 :
  elements result = es1 ++ e :: es2 ->
  passed e = false ->
  contribution weights (category, result)
  <= contribution weights
       (category, withElements (es1 ++ markPassed e :: es2) result).
Proof.
  intros Hel He. unfold contribution, categoryScore. cbn [fst snd withElements elements].
  rewrite Hel, (countPassed_flip _ _ _ He), !length_app. cbn [List.length].
  replace (0 <? List.length es1 + S (List.length es2))%nat with true
    by (symmetry; apply Nat.ltb_lt; lia).
  apply Qmult_le_compat_r.
  - apply percentage_mono; lia.
  - unfold Qdiv. apply Qmult_le_0_compat; [apply weightQ_nonneg|].
    unfold Qle; simpl; lia.
Qed.

(** C10. For every details mapping whose categories all have configured
    weights, turning one check outcome from failed to passed, everything
    else unchanged, never lowers the score of [calculateScore]. *)
Theorem calculateScore_monotone
  (pre post : Details) (category : string) (result : StageResult)
  (es1 es2 : list Element) (e : Element) :
  allWeighted V2.weights (pre ++ (category, result) :: post) ->
  elements result = es1 ++ e :: es2 ->
  passed e = false ->
  exists z z',
    V2.calculateScore (pre ++ (category, result) :: post) = Some z
    /\ V2.calculateScore
         (pre ++ (category, withElements (es1 ++ markPassed e :: es2) result)
              :: post) = Some z'
    /\ (z <= z')%Z.
Proof.
  intros Hw Hel He. unfold V2.calculateScore.
  apply calculateScoreWith_middle_le; [reflexivity | exact Hw |].
  apply contribution_flip; assumption.
Qed.

Lemma calculateScore_monotone_witness :
  exists z z',
    V2.calculateScore
      ([("format", stageOf true [passing "a"])]
         ++ ("structure", stageOf false ([passing "a"] ++ failing "b" :: [failing "c"]))
         :: [])
    = Some z
    /\ V2.calculateScore
         ([("format", stageOf true [passing "a"])]
            ++ ("structure",
                withElements ([passing "a"] ++ markPassed (failing "b") :: [failing "c"])
                  (stageOf false ([passing "a"] ++ failing "b" :: [failing "c"])))
            :: [])
       = Some z'
    /\ (z <= z')%Z.
Proof.
  apply (calculateScore_monotone
           [("format", stageOf true [passing "a"])] []
           "structure"
           (stageOf false ([passing "a"] ++ failing "b" :: [failing "c"]))
           [passing "a"] [failing "c"] (failing "b")).
  - repeat constructor; discriminate.
  - reflexivity.
  - reflexivity.
Defined.

(** ** The orchestrator of [src/ine-validator.js] *)

(** What [validateINE] returns when the format stage completes and
    fails. *)
Lemma validateINE_with_gate this imageData fr :
  V2.formatStage this imageData = Normal fr ->
  stage_passed fr = false ->
  V2.validateINE_with this imageData
  = {| isValid := false; score := Some 0%Z; details := [("format", fr)];
       recommendations := [V2.gateMessage];
       fileSize := extractFileSize imageData;
       documentType := stage_documentType fr; error := None |}.
Proof.
  intros Hf Hp.
  unfold V2.validateINE_with, V2.validateINE_try, exec, tryCatch, bind, await.
  rewrite Hf. cbn [modify]. rewrite Hp. reflexivity.
Qed.

(** What [validateINE] returns when the five stages complete and the
    format stage passes. *)
Lemma validateINE_with_full this imageData fr sr dr cr vr :
  V2.formatStage this imageData = Normal fr ->
  V2.structureStage this imageData = Normal sr ->
  V2.designStage this imageData = Normal dr ->
  V2.securityStage this imageData = Normal cr ->
  V2.validityStage this imageData = Normal vr ->
  stage_passed fr = true ->
  let d := [("format", fr); ("structure", sr); ("design", dr);
            ("security", cr); ("validity", vr)] in
  V2.validateINE_with this imageData
  = {| isValid := meetsThreshold (V2.calculateScore d);
       score := V2.calculateScore d; details := d;
       recommendations := V2.generateRecommendations d;
       fileSize := extractFileSize imageData;
       documentType := stage_documentType fr; error := None |}.
Proof.
  intros Hf Hs Hd Hc Hv Hp.
  unfold V2.validateINE_with, V2.validateINE_try, exec, tryCatch, bind, await.
  rewrite Hf. cbn [modify]. rewrite Hp. cbn [negb].
  rewrite Hs, Hd, Hc, Hv. reflexivity.
Qed.

(** C1. Whenever the format stage fails, [validateINE] returns a report
    whose [details] hold the format entry and nothing else, with score 0,
    [isValid] false and exactly one recommendation, the one that explains
    the gate. *)
Theorem gate_failure_report (browser : V2.Browser) (imageData : string) :
  stage_passed (V2.validateDocumentFormat browser imageData) = false ->
  let r := V2.validateINE browser imageData in
  details r = [("format", V2.validateDocumentFormat browser imageData)]
  /\ score r = Some 0%Z
  /\ isValid r = false
  /\ recommendations r = [V2.gateMessage]
  /\ List.length (recommendations r) = 1%nat
  /\ error r = None.
Proof.
  intros Hp r. subst r. unfold V2.validateINE.
  rewrite (validateINE_with_gate (V2.methods browser) imageData
             (V2.validateDocumentFormat browser imageData) eq_refl Hp).
  repeat split.
Qed.

Lemma gate_failure_report_witness :
  let r := V2.validateINE noDecodeBrowser pngData in
  details r = [("format", V2.validateDocumentFormat noDecodeBrowser pngData)]
  /\ score r = Some 0%Z
  /\ isValid r = false
  /\ recommendations r = [V2.gateMessage]
  /\ List.length (recommendations r) = 1%nat
  /\ error r = None.
Proof.
  apply (gate_failure_report noDecodeBrowser pngData). reflexivity.
Defined.

Lemma five_stages_weighted fr sr dr cr vr :
  allWeighted V2.weights
    [("format", fr); ("structure", sr); ("design", dr); ("security", cr);
     ("validity", vr)].
Proof. repeat constructor; discriminate. Qed.

(** The class's own stage methods never throw into [validateINE]. *)
Lemma own_methods_complete browser imageData :
  exists u,
    fst (V2.validateINE_try (V2.methods browser) imageData
           (V2.newReport imageData)) = Normal u.
Proof.
  unfold V2.validateINE_try, bind, await, V2.methods. cbn [V2.formatStage].
  cbn [modify].
  destruct (negb (stage_passed (V2.validateDocumentFormat browser imageData)));
    eexists; reflexivity.
Qed.

(** Called with a string, [validateINE] always returns a well-formed
    report, whatever the stage methods do: the score is an integer between
    0 and 100 and [isValid] is its comparison with 70.  When a fault
    reaches the orchestrator (its [try] block throws), the report carries
    the fault's message in [error], with [isValid] false and score 0;
    otherwise [error] is unset.  The class's own stages catch their faults
    themselves, so with them the block never throws. *)
Lemma validateINE_with_report (this : V2.StageMethods) (imageData : string) :
  let r := V2.validateINE_with this imageData in
  (exists z, score r = Some z /\ (0 <= z <= 100)%Z)
  /\ isValid r = meetsThreshold (score r)
  /\ match fst (V2.validateINE_try this imageData (V2.newReport imageData)) with
     | Thrown message =>
         error r = Some message /\ isValid r = false /\ score r = Some 0%Z
     | Normal _ => error r = None
     end
  /\ forall browser,
       error (V2.validateINE browser imageData) = None
       /\ exists u,
            fst (V2.validateINE_try (V2.methods browser) imageData
                   (V2.newReport imageData)) = Normal u.
Proof.
  assert (Hzero : exists z, Some 0%Z = Some z /\ (0 <= z <= 100)%Z)
    by (exists 0%Z; split; [reflexivity | lia]).
  assert (Hgen :
    let r := V2.validateINE_with this imageData in
    (exists z, score r = Some z /\ (0 <= z <= 100)%Z)
    /\ isValid r = meetsThreshold (score r)
    /\ match fst (V2.validateINE_try this imageData (V2.newReport imageData)) with
       | Thrown message =>
           error r = Some message /\ isValid r = false /\ score r = Some 0%Z
       | Normal _ => error r = None
       end).
  { cbv zeta.
    destruct (V2.formatStage this imageData) as [fr|e] eqn:Hf.
    2:{ unfold V2.validateINE_with, V2.validateINE_try, exec, tryCatch, bind,
          await. rewrite Hf. cbn. auto. }
    destruct (stage_passed fr) eqn:Hp.
    2:{ rewrite (validateINE_with_gate _ _ _ Hf Hp).
        unfold V2.validateINE_try, bind, await. rewrite Hf. cbn [modify].
        rewrite Hp. cbn. auto. }
    destruct (V2.structureStage this imageData) as [sr|e] eqn:Hs.
    2:{ unfold V2.validateINE_with, V2.validateINE_try, exec, tryCatch, bind,
          await. rewrite Hf. cbn [modify]. rewrite Hp, Hs. cbn. auto. }
    destruct (V2.designStage this imageData) as [dr|e] eqn:Hd.
    2:{ unfold V2.validateINE_with, V2.validateINE_try, exec, tryCatch, bind,
          await. rewrite Hf. cbn [modify]. rewrite Hp, Hs, Hd. cbn. auto. }
    destruct (V2.securityStage this imageData) as [cr|e] eqn:Hc.
    2:{ unfold V2.validateINE_with, V2.validateINE_try, exec, tryCatch, bind,
          await. rewrite Hf. cbn [modify]. rewrite Hp, Hs, Hd, Hc. cbn. auto. }
    destruct (V2.validityStage this imageData) as [vr|e] eqn:Hv.
    2:{ unfold V2.validateINE_with, V2.validateINE_try, exec, tryCatch, bind,
          await. rewrite Hf. cbn [modify]. rewrite Hp, Hs, Hd, Hc, Hv. cbn.
        auto. }
    rewrite (validateINE_with_full _ _ _ _ _ _ _ Hf Hs Hd Hc Hv Hp).
    cbn [score isValid error].
    split; [|split; [reflexivity|]].
    - apply calculateScoreWith_bounds;
        [apply five_stages_weighted | discriminate].
    - unfold V2.validateINE_try, bind, await. rewrite Hf. cbn [modify].
      rewrite Hp. cbn [negb]. rewrite Hs, Hd, Hc, Hv. reflexivity. }
  destruct Hgen as (H1 & H2 & H3).
  split; [exact H1 | split; [exact H2 | split; [exact H3|]]].
  intros browser. destruct (own_methods_complete browser imageData) as [u Hu].
  split; [|exists u; exact Hu].
  unfold V2.validateINE, V2.validateINE_with, exec, tryCatch.
  destruct (V2.validateINE_try (V2.methods browser) imageData
              (V2.newReport imageData)) as [[u'|e] st] eqn:E;
    cbn [fst] in Hu; [|discriminate].
  cbn [snd]. clear Hu.
  unfold V2.validateINE_try, bind, await, V2.methods in E.
  cbn [V2.formatStage V2.structureStage V2.designStage V2.securityStage
       V2.validityStage modify] in E.
  destruct (negb (stage_passed (V2.validateDocumentFormat browser imageData)));
    inversion E; reflexivity.
Qed.

Lemma extractFileSizeOf_Text s :
  extractFileSizeOf (Text s) = Normal (extractFileSize s).
Proof.
  unfold extractFileSizeOf, extractFileSize. cbn [isFalsy startsWithOf shownAs].
  destruct (String.length s =? 0)%nat; [reflexivity|].
  destruct (startsWith s "data:"); reflexivity.
Qed.

Lemma validateDocumentFormatOf_Text browser s :
  validateDocumentFormatOf browser (Text s) = V2.validateDocumentFormat browser s.
Proof. reflexivity. Qed.

(** On a string, the method is [V2.validateINE]. *)
Lemma validateINEOf_Text browser s :
  validateINEOf browser (Text s) = Normal (V2.validateINE browser s).
Proof.
  unfold validateINEOf. rewrite extractFileSizeOf_Text. reflexivity.
Qed.

(** On a falsy value the format stage cannot pass: either the image does
    not decode, or [imageData.startsWith] throws after two outcomes. *)
Lemma validateDocumentFormatOf_Falsy browser shown :
  stage_passed (validateDocumentFormatOf browser (Falsy shown)) = false.
Proof.
  unfold validateDocumentFormatOf, validateDocumentFormatOf_try, exec, tryCatch,
    bind, await, modify. cbn [shownAs startsWithOf].
  destruct (V2.createImage browser shown); reflexivity.
Qed.

(** C2, in the code.  [validateINE] evaluates
    [this.extractFileSize(imageData)] in the object literal of [results],
    before it enters its [try] block.  Called with a truthy value that is
    not a string, the number 12345 for one, that call throws a
    [TypeError] that nothing catches: [validateINE] throws (its promise
    rejects) and returns no report.  Called with a string it returns the
    report of [V2.validateINE], and called with a falsy value the report
    of a failed format gate. *)
Theorem validateINE_rejects_non_string (browser : V2.Browser) :
  validateINEOf browser numberArgument = Thrown notAFunction
  /\ (forall shown, validateINEOf browser (Truthy shown) = Thrown notAFunction)
  /\ (forall s, validateINEOf browser (Text s) = Normal (V2.validateINE browser s))
  /\ (forall shown,
         exists r,
           validateINEOf browser (Falsy shown) = Normal r
           /\ error r = None /\ isValid r = false /\ score r = Some 0%Z
           /\ recommendations r = [V2.gateMessage]
           /\ fileSize r = 0%Z).
Proof.
  split; [reflexivity|]. split; [reflexivity|].
  split; [apply validateINEOf_Text|].
  intros shown. eexists. split; [reflexivity|].
  unfold V2.validateINE_try, exec, tryCatch, bind, await, modify, methodsOf.
  cbn [V2.formatStage].
  rewrite validateDocumentFormatOf_Falsy. repeat split.
Qed.

Example validateINE_fault_example :
  let this := fixedMethods (Normal (stageOf true [passing "a"]))
                           (Thrown "boom") (Thrown "later") (Thrown "later")
                           (Thrown "later") in
  let r := V2.validateINE_with this pngData in
  error r = Some "boom" /\ isValid r = false /\ score r = Some 0%Z
  /\ map fst (details r) = ["format"] /\ recommendations r = [].
Proof. cbv zeta. repeat split. Qed.

Lemma contribution_counts weights category result (p n : nat) :
  List.length (elements result) = n -> countPassed (elements result) = p ->
  (0 < n)%nat ->
  contribution weights (category, result)
  == inject_Z (Z.of_nat p) / inject_Z (Z.of_nat n) * 100
     * (weightQ weights category / 100).
Proof.
  intros Hn Hp Hpos. unfold contribution, categoryScore. cbn [fst snd].
  rewrite Hn, Hp. replace (0 <? n)%nat with true
    by (symmetry; apply Nat.ltb_lt; exact Hpos).
  reflexivity.
Qed.

(** C4. Five stages with the weights 20, 25, 20, 25, 10: the format stage
    passes 3 of 3 checks, the structure stage 1 of 3 (and so fails), the
    design, security and validity stages pass all their checks.  The report
    has score 83, [isValid] true, and the structure message as its only
    recommendation. *)
Theorem scenario_score_83
  (this : V2.StageMethods) (imageData : string)
  (fr sr dr cr vr : StageResult) :
  V2.formatStage this imageData = Normal fr ->
  V2.structureStage this imageData = Normal sr ->
  V2.designStage this imageData = Normal dr ->
  V2.securityStage this imageData = Normal cr ->
  V2.validityStage this imageData = Normal vr ->
  stage_passed fr = true /\ List.length (elements fr) = 3%nat
    /\ countPassed (elements fr) = 3%nat ->
  stage_passed sr = false /\ List.length (elements sr) = 3%nat
    /\ countPassed (elements sr) = 1%nat ->
  Forall (fun x => stage_passed x = true /\ elements x <> []
                   /\ forallb passed (elements x) = true) [dr; cr; vr] ->
  let r := V2.validateINE_with this imageData in
  score r = Some 83%Z
  /\ isValid r = true
  /\ recommendations r = [V2.structureMessage].
Proof.
  intros Hf Hs Hd Hc Hv (Hfp & Hfn & Hfc) (Hsp & Hsn & Hsc) Hrest r.
  inversion Hrest as [|? ? (Hdp & Hdn & Hda) Hrest1]; subst.
  inversion Hrest1 as [|? ? (Hcp & Hcn & Hca) Hrest2]; subst.
  inversion Hrest2 as [|? ? (Hvp & Hvn & Hva) _]; subst.
  subst r. rewrite (validateINE_with_full _ _ _ _ _ _ _ Hf Hs Hd Hc Hv Hfp).
  cbn [score isValid recommendations].
  assert (Hscore :
    V2.calculateScore
      [("format", fr); ("structure", sr); ("design", dr); ("security", cr);
       ("validity", vr)] = Some 83%Z).
  { unfold V2.calculateScore.
    rewrite (calculateScoreWith_exact _ _ (five_stages_weighted fr sr dr cr vr))
      by discriminate.
    f_equal.
    assert (E : totalOf V2.weights
                  [("format", fr); ("structure", sr); ("design", dr);
                   ("security", cr); ("validity", vr)]
                / maxOf V2.weights
                    [("format", fr); ("structure", sr); ("design", dr);
                     ("security", cr); ("validity", vr)] * 100 + (1 # 2)
                == (250 # 3) + (1 # 2)).
    { rewrite !totalOf_cons. change (totalOf V2.weights []) with 0.
      rewrite (contribution_counts _ _ _ 3 3 Hfn Hfc) by lia.
      rewrite (contribution_counts _ _ _ 1 3 Hsn Hsc) by lia.
      rewrite (contribution_all_pass _ ("design", dr) Hdn Hda).
      rewrite (contribution_all_pass _ ("security", cr) Hcn Hca).
      rewrite (contribution_all_pass _ ("validity", vr) Hvn Hva).
      reflexivity. }
    rewrite (Qfloor_comp _ _ E). reflexivity. }
  rewrite Hscore. split; [reflexivity | split; [reflexivity|]].
  unfold V2.generateRecommendations, presentAndFailed. cbn [lookup String.eqb
    Ascii.eqb Bool.eqb].
  cbn. rewrite Hfp, Hsp, Hdp, Hcp, Hvp. reflexivity.
Qed.

Lemma scenario_score_83_witness :
  let this :=
    fixedMethods
      (Normal (stageOf true [passing "a"; passing "b"; passing "c"]))
      (Normal (stageOf false [passing "a"; failing "b"; failing "c"]))
      (Normal (stageOf true [passing "a"; passing "b"; passing "c"]))
      (Normal (stageOf true [passing "a"; passing "b"; passing "c"]))
      (Normal (stageOf true [passing "a"])) in
  let r := V2.validateINE_with this pngData in
  score r = Some 83%Z
  /\ isValid r = true
  /\ recommendations r = [V2.structureMessage].
Proof.
  cbv zeta.
  apply (scenario_score_83
           (fixedMethods
              (Normal (stageOf true [passing "a"; passing "b"; passing "c"]))
              (Normal (stageOf false [passing "a"; failing "b"; failing "c"]))
              (Normal (stageOf true [passing "a"; passing "b"; passing "c"]))
              (Normal (stageOf true [passing "a"; passing "b"; passing "c"]))
              (Normal (stageOf true [passing "a"])))
           pngData _ _ _ _ _ eq_refl eq_refl eq_refl eq_refl eq_refl).
  - repeat split.
  - repeat split.
  - repeat constructor; discriminate.
Defined.

(** ** The stages *)

Lemma quorumLaw_leb k r :
  stage_passed r = (k <=? countPassed (elements r))%nat -> quorumLaw k r.
Proof. unfold quorumLaw. intros ->. apply Nat.leb_le. Qed.

Lemma quorumLaw_format browser imageData :
  quorumLaw 3 (V2.validateDocumentFormat browser imageData).
Proof.
  unfold V2.validateDocumentFormat, V2.validateDocumentFormat_try, exec,
    tryCatch, bind, await, modify.
  destruct (V2.createImage browser imageData) as [img|msg].
  - destruct (startsWith imageData "data:image/"),
      (V2.aspectInRange (V2.naturalWidth img) (V2.naturalHeight img)),
      ((500 <=? V2.naturalWidth img) && (300 <=? V2.naturalHeight img))%N;
      cbn; unfold quorumLaw; cbn; split; intros H; try discriminate H;
      try reflexivity; try lia.
  - unfold quorumLaw; cbn. split; intros H; [discriminate H | lia].
Qed.

Lemma quorumLaw_structure browser imageData :
  quorumLaw 2 (V2.validateStructure browser imageData).
Proof.
  apply quorumLaw_leb.
  unfold V2.validateStructure, V2.validateStructure_try,
    V2.extractTextFromImage, V2.detectINEText,
    V2.applyQuorum, exec, tryCatch, bind, await, ret, modify.
  destruct (V2.createImage browser imageData) as [img|msg]; [|reflexivity].
  destruct (V2.looksLikeINE (V2.analyzeImageContent img)); reflexivity.
Qed.

Lemma quorumLaw_design browser imageData :
  quorumLaw 2 (V2.validateOfficialDesign browser imageData).
Proof.
  apply quorumLaw_leb.
  unfold V2.validateOfficialDesign, V2.validateOfficialDesign_try,
    V2.analyzeColors, V2.applyQuorum, exec, tryCatch, bind, await, ret, modify.
  destruct (V2.createImage browser imageData) as [img|msg]; [|reflexivity].
  destruct (V2.getImageData browser img); reflexivity.
Qed.

Lemma quorumLaw_security browser imageData :
  quorumLaw 2 (V2.validateSecurityElements browser imageData).
Proof.
  apply quorumLaw_leb.
  unfold V2.validateSecurityElements, V2.validateSecurityElements_try,
    V2.applyQuorum, exec, tryCatch, bind, await, ret, modify.
  destruct (V2.createImage browser imageData) as [img|msg]; reflexivity.
Qed.

Lemma quorumLaw_validity browser imageData :
  quorumLaw 2 (V2.validateValidity browser imageData).
Proof.
  apply quorumLaw_leb.
  unfold V2.validateValidity, V2.validateValidity_try,
    V2.extractTextFromImage, V2.applyQuorum, exec, tryCatch, bind, await, ret,
    modify.
  destruct (V2.createImage browser imageData) as [img|msg]; [|reflexivity].
  destruct (V2.looksLikeINE (V2.analyzeImageContent img)); reflexivity.
Qed.

Lemma quorumLaw_V2 stage browser imageData :
  quorumLaw (quorumOf stage) (runOf stage browser imageData).
Proof.
  destruct stage; cbn [quorumOf runOf].
  - apply quorumLaw_format.
  - apply quorumLaw_structure.
  - apply quorumLaw_design.
  - apply quorumLaw_security.
  - apply quorumLaw_validity.
Qed.

Lemma runOf_tryOf stage browser imageData :
  runOf stage browser imageData
  = exec (tryCatch (tryOf stage browser imageData)
            (fun _ => modify (pushElement (markerOf stage))))
         (initOf stage).
Proof. destruct stage; reflexivity. Qed.

(** C7, as stated, fails.  In the design stage the canvas sampling of
    [analyzeColors] throws; the two other detectors of the stage would
    answer yes on the same image, but the stage result holds the single
    failing marker and none of their outcomes. *)
Lemma design_fault_drops_other_outcomes :
  V2.createImage noCanvasBrowser pngData = Normal goodImage
  /\ V2.getImageData noCanvasBrowser goodImage
     = Thrown "The operation is insecure."
  /\ V2.detectOfficialElements goodImage = true
  /\ V2.validateLayout goodImage = true
  /\ V2.validateOfficialDesign noCanvasBrowser pngData
     = stageOf false [failing "Diseño oficial"]
  /\ ~ In "Elementos gráficos oficiales"
         (map name (elements (V2.validateOfficialDesign noCanvasBrowser pngData)))
  /\ ~ In "Distribución espacial"
         (map name (elements (V2.validateOfficialDesign noCanvasBrowser pngData))).
Proof.
  repeat split; try reflexivity; cbn; intros [H|[]]; discriminate H.
Qed.

(** Over the class's own detectors, the stages are those of [V2]. *)
Lemma Stages_own stage browser imageData :
  Stages.run (Stages.own browser) stage imageData = runOf stage browser imageData.
Proof.
  destruct stage; unfold Stages.run; cbn [Stages.tryOf runOf initOf markerOf];
    unfold V2.validateDocumentFormat, V2.validateStructure,
      V2.validateOfficialDesign, V2.validateSecurityElements,
      V2.validateValidity, Stages.validateDocumentFormat_try,
      Stages.validateStructure_try, Stages.validateOfficialDesign_try,
      Stages.validateSecurityElements_try, Stages.validateValidity_try,
      V2.validateDocumentFormat_try, V2.validateStructure_try,
      V2.validateOfficialDesign_try, V2.validateSecurityElements_try,
      V2.validateValidity_try, Stages.own, V2.extractTextFromImage,
      V2.detectINEText, V2.analyzeColors, exec, tryCatch, bind, await, ret;
    cbn [Stages.createImage Stages.extractTextFromImage Stages.detectINEText
         Stages.analyzeColors Stages.detectOfficialElements
         Stages.validateLayout Stages.detectSecurityPatterns
         Stages.analyzeImageQuality Stages.detectReliefElements
         Stages.currentDate];
    destruct (V2.createImage browser imageData) as [img|msg]; cbn [fst];
    try reflexivity;
    try (destruct (V2.looksLikeINE (V2.analyzeImageContent img)); reflexivity);
    destruct (V2.getImageData browser img); reflexivity.
Qed.

Lemma Stages_run_of_try this stage imageData c st :
  Stages.tryOf this stage imageData (initOf stage) = (c, st) ->
  Stages.run this stage imageData
  = match c with
    | Normal _ => st
    | Thrown _ => pushElement (markerOf stage) st
    end.
Proof.
  intros H. unfold Stages.run, exec, tryCatch. rewrite H.
  destruct c; reflexivity.
Qed.

(** What a [try] block that threw leaves in [results]: [passed] and
    [documentType] untouched, and fewer outcomes than the stage collects,
    each one of the stage's own checks. *)
Lemma fault_leaves_partial_outcomes this stage imageData e st :
  Stages.tryOf this stage imageData (initOf stage) = (Thrown e, st) ->
  stage_passed st = false
  /\ stage_documentType st = stage_documentType (initOf stage)
  /\ stage_error st = None
  /\ (List.length (elements st) <= 2)%nat
  /\ Forall (fun outcome => In (name outcome) (checkNames stage)) (elements st).
Proof.
  destruct stage; cbn [Stages.tryOf initOf checkNames];
    unfold Stages.validateDocumentFormat_try, Stages.validateStructure_try,
      Stages.validateOfficialDesign_try, Stages.validateSecurityElements_try,
      Stages.validateValidity_try, V2.applyQuorum, bind, await, modify.
  - destruct (Stages.createImage this imageData) as [img|msg].
    + destruct (startsWith imageData "data:image/"),
        (V2.aspectInRange (V2.naturalWidth img) (V2.naturalHeight img)),
        ((500 <=? V2.naturalWidth img) && (300 <=? V2.naturalHeight img))%N;
        cbn; intros H; inversion H.
    + intros H; inversion H; subst. cbn. repeat split; auto.
  - destruct (Stages.extractTextFromImage this imageData) as [data|msg].
    2:{ intros H; inversion H; subst. cbn. repeat split; auto. }
    destruct (truthy (curp data)), (truthy (electorKey data));
      cbn [modify];
      destruct (Stages.detectINEText this imageData) as [b|msg];
      intros H; inversion H; subst; cbn;
      repeat split; auto; repeat constructor; cbn; auto.
  - destruct (Stages.createImage this imageData) as [img|msg].
    2:{ intros H; inversion H; subst. cbn. repeat split; auto. }
    destruct (Stages.analyzeColors this img) as [b1|msg].
    2:{ intros H; inversion H; subst. cbn. repeat split; auto. }
    destruct (Stages.detectOfficialElements this img) as [b2|msg].
    2:{ intros H; inversion H; subst. cbn. repeat split; auto;
        repeat constructor; cbn; auto. }
    destruct (Stages.validateLayout this img) as [b3|msg];
      intros H; inversion H; subst; cbn;
      repeat split; auto; repeat constructor; cbn; auto.
  - destruct (Stages.createImage this imageData) as [img|msg].
    2:{ intros H; inversion H; subst. cbn. repeat split; auto. }
    destruct (Stages.detectSecurityPatterns this img) as [b1|msg].
    2:{ intros H; inversion H; subst. cbn. repeat split; auto. }
    destruct (Stages.analyzeImageQuality this img) as [b2|msg].
    2:{ intros H; inversion H; subst. cbn. repeat split; auto;
        repeat constructor; cbn; auto. }
    destruct (Stages.detectReliefElements this img) as [b3|msg];
      intros H; inversion H; subst; cbn;
      repeat split; auto; repeat constructor; cbn; auto.
  - destruct (Stages.extractTextFromImage this imageData) as [data|msg].
    2:{ intros H; inversion H; subst. cbn. repeat split; auto. }
    destruct (truthy (issueDate data) && truthy (expiryDate data));
      cbn; intros H; inversion H.
Qed.

(** C7, amended.  A fault raised by a detector call of a stage of
    [src/ine-validator.js], the first call or a later one, is caught by
    the stage's own [try]/[catch], which encloses all of the stage's
    detector calls: the stage still returns a stage result, with [passed]
    false, whose outcomes are those collected before the fault (fewer
    than the stage's three, each one of the stage's checks) followed by
    the stage's single failing marker; the detectors after the fault are
    not run.  So when the second decoding of the image, in
    [detectINEText], faults, the structure stage returns the CURP and
    elector-key outcomes and the marker. *)
Theorem stage_fault_contained :
  (forall (this : Stages.Detectors) (stage : StageId) (imageData : string)
          (e : string) (st : StageResult),
      Stages.tryOf this stage imageData (initOf stage) = (Thrown e, st) ->
      let r := Stages.run this stage imageData in
      r = pushElement (markerOf stage) st
      /\ stage_passed r = false
      /\ elements r = elements st ++ [markerOf stage]
      /\ passed (markerOf stage) = false
      /\ (List.length (elements st) <= 2)%nat
      /\ Forall (fun outcome => In (name outcome) (checkNames stage))
                (elements st)
      /\ ~ In (name (markerOf stage)) (checkNames stage))
  /\ (forall (this : Stages.Detectors) (imageData : string)
             (extractedData : ExtractedData) (e : string),
         Stages.extractTextFromImage this imageData = Normal extractedData ->
         Stages.detectINEText this imageData = Thrown e ->
         let r := Stages.run this Structure imageData in
         stage_passed r = false
         /\ map name (elements r)
            = ["Formato CURP"; "Clave de elector"; "Estructura de datos"])
  /\ (forall (browser : V2.Browser) (stage : StageId) (imageData : string),
         Stages.run (Stages.own browser) stage imageData
         = runOf stage browser imageData).
Proof.
  split; [|split].
  - intros this stage imageData e st H r. subst r.
    rewrite (Stages_run_of_try _ _ _ _ _ H).
    destruct (fault_leaves_partial_outcomes _ _ _ _ _ H)
      as (Hp & _ & _ & Hl & Hn).
    split; [reflexivity|]. split; [exact Hp|]. split; [reflexivity|].
    split; [destruct stage; reflexivity|]. split; [exact Hl|].
    split; [exact Hn|].
    destruct stage; cbn; intuition discriminate.
  - intros this imageData data e Hx Hd r. subst r.
    unfold Stages.run, Stages.tryOf, Stages.validateStructure_try, exec,
      tryCatch, bind, await. rewrite Hx.
    destruct (truthy (curp data)), (truthy (electorKey data));
      cbn [modify]; rewrite Hd; split; reflexivity.
  - intros browser stage imageData. apply Stages_own.
Qed.

Lemma stage_fault_contained_witness :
  let r := Stages.run secondDecodeFails Structure pngData in
  r = stageOf false [passing "Formato CURP"; failing "Clave de elector";
                     failing "Estructura de datos"]
  /\ stage_passed r = false
  /\ elements r
     = [passing "Formato CURP"; failing "Clave de elector"]
       ++ [markerOf Structure]
  /\ passed (markerOf Structure) = false
  /\ (2 <= 2)%nat
  /\ Forall (fun outcome => In (name outcome) (checkNames Structure))
            [passing "Formato CURP"; failing "Clave de elector"]
  /\ ~ In (name (markerOf Structure)) (checkNames Structure).
Proof.
  apply (proj1 stage_fault_contained secondDecodeFails Structure pngData
           "Error al cargar la imagen"
           (stageOf false [passing "Formato CURP"; failing "Clave de elector"])).
  reflexivity.
Defined.

(** ** The stages of [src/unnamed/part_000] *)

Lemma forEach_cons {St A} (x : A) (rest : list A) (body : A -> Js St unit) st :
  forEach (x :: rest) body st
  = match body x st with
    | (Normal _, st') => forEach rest body st'
    | (Thrown e, st') => (Thrown e, st')
    end.
Proof. reflexivity. Qed.

Lemma detectInto_step rho spread base elementName method detector r n :
  V1.detectorNamed rho method = detector ->
  oneDraw detector ->
  V1.detectInto rho spread base (elementName, method) (r, n)
  = (Normal tt,
     (pushElement (observed rho spread base elementName detector n) r,
      S (S n))).
Proof.
  intros Hd H1. unfold V1.detectInto, observed. rewrite Hd.
  unfold bind at 1. unfold V1.call at 1. rewrite (H1 n).
  destruct (answerOf detector n); reflexivity.
Qed.

Ltac detector_round detector :=
  rewrite forEach_cons;
  rewrite (detectInto_step _ _ _ _ _ detector);
  [ | reflexivity | intros ?; reflexivity ].

Lemma visible_run rho n :
  V1.validateVisibleElements rho n
  = (Normal (quorumResult 3 (visibleElementsAt rho n)), (10 + n)%nat).
Proof.
  unfold V1.validateVisibleElements, V1.returning, V1.elementsToCheck.
  unfold bind at 1.
  detector_round (V1.detectMicrotext rho).
  detector_round (V1.detectOVD rho).
  detector_round (V1.detectUVInk rho).
  detector_round (V1.detectRelief rho).
  detector_round (V1.detectSecurityBackground rho).
  reflexivity.
Qed.

Lemma secondLevel_run rho n :
  V1.validateSecondLevelElements rho n
  = (Normal (quorumResult 2 (secondLevelElementsAt rho n)), (6 + n)%nat).
Proof.
  unfold V1.validateSecondLevelElements, V1.returning, V1.secondLevelElements.
  unfold bind at 1.
  detector_round (V1.detectEdgeMicrotext rho).
  detector_round (V1.detectFineLinePatterns rho).
  detector_round (V1.detectRainbowPrint rho).
  reflexivity.
Qed.

Lemma qr_run rho n :
  V1.validateQRCodes rho n
  = if gt (rho n) (binary64 0.2)
    then (Normal (quorumResult 2 (qrElementsAt rho n)), (3 + n)%nat)
    else (Normal newResult, (1 + n)%nat).
Proof.
  unfold V1.validateQRCodes, V1.returning, V1.decodeQRCode, tryCatch, bind,
    V1.call, V1.Math_random, ret.
  destruct (gt (rho n) (binary64 0.2)); reflexivity.
Qed.

Lemma structure_run n :
  V1.validateStructure n = (Normal (quorumResult 2 structureElements), n).
Proof. reflexivity. Qed.

Lemma validity_run currentDate n :
  V1.validateValidity currentDate n
  = (Normal (quorumResult 2 (validityElementsAt currentDate)), n).
Proof. reflexivity. Qed.

Lemma V1_validateINE_run rho currentDate imageData :
  V1.validateINE rho currentDate imageData
  = reportOfDetails imageData (detailsOfRun rho currentDate).
Proof.
  unfold V1.validateINE, V1.validateINE_try, exec, tryCatch.
  unfold bind at 1. unfold V1.call at 1. rewrite structure_run.
  unfold bind at 1. unfold V1.assign at 1. unfold modify at 1.
  unfold bind at 1. unfold V1.call at 1. cbn [fst snd]. rewrite visible_run.
  unfold bind at 1. unfold V1.assign at 1. unfold modify at 1.
  unfold bind at 1. unfold V1.call at 1. cbn [fst snd]. rewrite secondLevel_run.
  unfold bind at 1. unfold V1.assign at 1. unfold modify at 1.
  unfold bind at 1. unfold V1.call at 1. cbn [fst snd]. rewrite qr_run.
  unfold detailsOfRun. cbn [Nat.add].
  destruct (gt (rho 16%nat) (binary64 0.2)); reflexivity.
Qed.

Lemma quorumLaw_quorumResult k es : quorumLaw k (quorumResult k es).
Proof. apply quorumLaw_leb. reflexivity. Qed.

Lemma quorumLaw_V1 rho currentDate n :
  completesWithQuorum 2 V1.validateStructure n
  /\ completesWithQuorum 3 (V1.validateVisibleElements rho) n
  /\ completesWithQuorum 2 (V1.validateSecondLevelElements rho) n
  /\ completesWithQuorum 2 (V1.validateQRCodes rho) n
  /\ completesWithQuorum 2 (V1.validateValidity currentDate) n.
Proof.
  unfold completesWithQuorum.
  rewrite structure_run, visible_run, secondLevel_run, qr_run, validity_run.
  repeat split.
  - do 2 eexists; split; [reflexivity | apply quorumLaw_quorumResult].
  - do 2 eexists; split; [reflexivity | apply quorumLaw_quorumResult].
  - do 2 eexists; split; [reflexivity | apply quorumLaw_quorumResult].
  - destruct (gt (rho n) (binary64 0.2)); do 2 eexists;
      (split; [reflexivity|]).
    + apply quorumLaw_quorumResult.
    + unfold quorumLaw. cbn. split; [discriminate | lia].
  - do 2 eexists; split; [reflexivity | apply quorumLaw_quorumResult].
Qed.

(** C3. Every stage passes exactly when at least its quorum of the
    collected outcomes passed, whichever outcomes those are: the count of
    passing outcomes alone decides.  This holds of the five stages of
    [src/ine-validator.js] on every input and of the five stages of
    [src/unnamed/part_000] on every stream of random values. *)
Theorem quorum_law :
  (forall stage browser imageData,
      quorumLaw (quorumOf stage) (runOf stage browser imageData))
  /\ (forall rho currentDate n,
         completesWithQuorum 2 V1.validateStructure n
         /\ completesWithQuorum 3 (V1.validateVisibleElements rho) n
         /\ completesWithQuorum 2 (V1.validateSecondLevelElements rho) n
         /\ completesWithQuorum 2 (V1.validateQRCodes rho) n
         /\ completesWithQuorum 2 (V1.validateValidity currentDate) n).
Proof.
  split.
  - apply quorumLaw_V2.
  - apply quorumLaw_V1.
Qed.

(** ** Randomness in [src/unnamed/part_000] *)

(** The constants of the simulated detectors are not the decimal fractions
    they are written as. *)
Lemma binary64_constants :
  2 # 10 < binary64 0.2 /\ binary64 0.3 < 3 # 10 /\ 4 # 10 < binary64 0.4
  /\ binary64 0.5 == 1 # 2 /\ binary64 0.6 < 6 # 10.
Proof. repeat split; vm_compute; reflexivity. Qed.













(** The report of [src/ine-validator.js] depends on the page's runtime
    only through the decoded image, the canvas sample and the clock: it
    draws no random value. *)
Lemma V2_report_determined_by_observations b1 b2 imageData :
  V2.createImage b1 imageData = V2.createImage b2 imageData ->
  (forall img, V2.getImageData b1 img = V2.getImageData b2 img) ->
  V2.currentDate b1 = V2.currentDate b2 ->
  V2.validateINE b1 imageData = V2.validateINE b2 imageData.
Proof.
  intros Himg Hcanvas Hclock.
  assert (Hs : forall stage, runOf stage b1 imageData = runOf stage b2 imageData).
  { intros stage. rewrite !runOf_tryOf. f_equal. f_equal.
    destruct stage; cbn [tryOf];
      unfold V2.validateDocumentFormat_try, V2.validateStructure_try,
        V2.validateOfficialDesign_try, V2.validateSecurityElements_try,
        V2.validateValidity_try, V2.extractTextFromImage, V2.detectINEText,
        V2.analyzeColors;
      rewrite ?Himg, ?Hclock; try reflexivity.
    destruct (V2.createImage b2 imageData) as [img|msg]; [|reflexivity].
    unfold bind at 1 3. unfold await at 1 3.
    unfold bind at 1 5. unfold await at 1 2. rewrite (Hcanvas img).
    reflexivity. }
  unfold V2.validateINE, V2.validateINE_with, V2.validateINE_try, V2.methods.
  cbn [V2.formatStage V2.structureStage V2.designStage V2.securityStage
       V2.validityStage].
  rewrite (Hs Format : V2.validateDocumentFormat b1 imageData = _).
  rewrite (Hs Structure : V2.validateStructure b1 imageData = _).
  rewrite (Hs Design : V2.validateOfficialDesign b1 imageData = _).
  rewrite (Hs Security : V2.validateSecurityElements b1 imageData = _).
  rewrite (Hs Validity : V2.validateValidity b1 imageData = _).
  reflexivity.
Qed.




(** ** The recommendation synthesizer *)

Lemma lookup_setProp_other {A} (key k : string) (v : A) obj :
  String.eqb k key = false ->
  lookup key (setProp k v obj) = lookup key obj.
Proof.
  intros Hk. induction obj as [|[k0 v0] obj IH].
  - cbn [setProp lookup]. rewrite Hk. reflexivity.
  - cbn [setProp lookup]. destruct (String.eqb k0 k) eqn:E.
    + apply String.eqb_eq in E. subst k0. cbn [lookup]. rewrite Hk. reflexivity.
    + cbn [lookup]. destruct (String.eqb k0 key); [reflexivity | exact IH].
Qed.

Lemma V1_recommendations_ignore (k : string) (r : StageResult) d :
  String.eqb k "structure" = false -> String.eqb k "visible" = false ->
  String.eqb k "validity" = false ->
  V1.generateRecommendations (setProp k r d) = V1.generateRecommendations d.
Proof.
  intros H1 H2 H3.
  unfold V1.generateRecommendations, V1.manyVisibleFailed, presentAndFailed.
  rewrite !lookup_setProp_other by assumption. reflexivity.
Qed.

Lemma V2_recommendations_synthesize d :
  V2.generateRecommendations d
  = synthesize ("format", V2.formatMessage) laterStages V2.allPassedMessage d.
Proof.
  unfold V2.generateRecommendations, synthesize, laterStages.
  cbn [fst snd failingStageMessages].
  destruct (presentAndFailed d "format"),
    (presentAndFailed d "structure"), (presentAndFailed d "design"),
    (presentAndFailed d "security"), (presentAndFailed d "validity");
    reflexivity.
Qed.

Lemma V2_recommendations_NoDup d : NoDup (V2.generateRecommendations d).
Proof.
  unfold V2.generateRecommendations.
  destruct (presentAndFailed d "format"),
    (presentAndFailed d "structure"), (presentAndFailed d "design"),
    (presentAndFailed d "security"), (presentAndFailed d "validity");
    cbn; repeat constructor; cbn; intuition discriminate.
Qed.

Lemma V1_recommendations_NoDup d : NoDup (V1.generateRecommendations d).
Proof.
  unfold V1.generateRecommendations.
  destruct (presentAndFailed d "structure"), (V1.manyVisibleFailed d),
    (presentAndFailed d "validity");
    cbn; repeat constructor; cbn; intuition discriminate.
Qed.

Lemma presentAndFailed_all_passed d stage :
  (forall s r, lookup s d = Some r -> stage_passed r = true) ->
  presentAndFailed d stage = false.
Proof.
  intros H. unfold presentAndFailed.
  destruct (lookup stage d) as [r|] eqn:E; [|reflexivity].
  rewrite (H _ _ E). reflexivity.
Qed.

(** C5, as stated, fails.  A run of the first copy in which the
    second-level stage was executed and failed: no message speaks of that
    stage, and the only recommendation is the affirmative one. *)
Lemma failing_second_level_gets_no_message :
  let r := V1.validateINE weakSecondLevelStream sampleDate pngData in
  (exists result,
      lookup "secondLevel" (details r) = Some result
      /\ stage_passed result = false)
  /\ recommendations r = [V1.allPassedMessage].
Proof.
  cbv zeta. split.
  - eexists. split; [vm_compute; reflexivity | reflexivity].
  - vm_compute. reflexivity.
Qed.

Lemma failed_count (es : list Element) :
  (List.length (filter (fun e => negb (passed e)) es) + countPassed es
   = List.length es)%nat.
Proof.
  unfold countPassed.
  induction es as [|e es IH]; [reflexivity|].
  cbn [filter List.length]. destruct (passed e); cbn [negb List.length]; lia.
Qed.

Lemma manyVisibleFailed_is_failed d :
  visibleAsReturned d ->
  V1.manyVisibleFailed d = presentAndFailed d "visible".
Proof.
  intros H. unfold V1.manyVisibleFailed, presentAndFailed.
  unfold visibleAsReturned in H.
  destruct (lookup "visible" d) as [r|] eqn:E; [|reflexivity].
  destruct (H r eq_refl) as [Hl Hq].
  pose proof (failed_count (elements r)) as Hc. rewrite Hl in Hc.
  unfold quorumLaw in Hq.
  destruct (stage_passed r) eqn:Hp; cbn [negb].
  - apply Nat.ltb_ge. pose proof (proj1 Hq eq_refl). lia.
  - apply Nat.ltb_lt.
    assert (~ (3 <= countPassed (elements r))%nat)
      by (intros Hge; apply Hq in Hge; discriminate Hge).
    lia.
Qed.

Lemma V1_recommendations_rule d :
  V1.generateRecommendations d
  = match firstCopyMessages d with
    | [] => [V1.allPassedMessage]
    | messages => messages
    end.
Proof.
  unfold V1.generateRecommendations, firstCopyMessages.
  cbn [failingStageMessages].
  destruct (presentAndFailed d "structure"), (V1.manyVisibleFailed d),
    (presentAndFailed d "validity"); reflexivity.
Qed.

Lemma V1_recommendations_synthesize d :
  visibleAsReturned d ->
  V1.generateRecommendations d
  = synthesizeUngated firstCopyStages V1.allPassedMessage d.
Proof.
  intros H. rewrite V1_recommendations_rule.
  unfold firstCopyMessages, synthesizeUngated, firstCopyStages.
  cbn [failingStageMessages].
  rewrite (manyVisibleFailed_is_failed d H).
  destruct (presentAndFailed d "structure"), (presentAndFailed d "visible"),
    (presentAndFailed d "validity"); reflexivity.
Qed.

Lemma visibleAsReturned_run rho currentDate imageData :
  visibleAsReturned (details (V1.validateINE rho currentDate imageData)).
Proof.
  intros r. rewrite V1_validateINE_run.
  unfold reportOfDetails, detailsOfRun. cbn [details lookup String.eqb Ascii.eqb Bool.eqb].
  intros H. inversion H. subst r. split; [reflexivity|].
  unfold quorumResult, stageOf, quorumLaw. cbn [stage_passed elements].
  split; intros Hq.
  - apply Nat.leb_le. exact Hq.
  - apply Nat.leb_le. exact Hq.
Qed.

(** C5, amended.  The synthesizer of [src/ine-validator.js] is the rule of
    the spec: when the format gate failed it returns the format message
    alone; otherwise it goes through structure, design, security and
    validity in that order and appends one stage-specific message for each
    failing stage (never one per failing check), and when none failed it
    returns the one affirmative message; it never repeats a message.  The
    synthesizer of [src/unnamed/part_000] has no gate and knows three
    stages: in this order, it appends one message for a failing structure
    stage, one for the visible stage when more than two of its checks
    failed, and one for a failing validity stage; when none of the three
    applies it returns the one affirmative message; it never repeats a
    message.  On the five checks and the quorum of three of the visible
    stage, which every run has, more than two failed checks means the
    stage failed, and the synthesizer is the rule of the spec, without
    gate, over structure, visible and validity.  It has no message for the
    second-level and QR stages: their results do not change its answer. *)
Theorem recommendations_rule (d : Details) :
  V2.generateRecommendations d
  = synthesize ("format", V2.formatMessage) laterStages V2.allPassedMessage d
  /\ NoDup (V2.generateRecommendations d)
  /\ ((forall s r, lookup s d = Some r -> stage_passed r = true) ->
      V2.generateRecommendations d = [V2.allPassedMessage])
  /\ NoDup (V1.generateRecommendations d)
  /\ (forall r,
         V1.generateRecommendations (setProp "secondLevel" r d)
         = V1.generateRecommendations d
         /\ V1.generateRecommendations (setProp "qr" r d)
            = V1.generateRecommendations d)
  /\ V1.generateRecommendations d
     = match firstCopyMessages d with
       | [] => [V1.allPassedMessage]
       | messages => messages
       end
  /\ (visibleAsReturned d ->
      V1.generateRecommendations d
      = synthesizeUngated firstCopyStages V1.allPassedMessage d)
  /\ (forall rho currentDate imageData,
         visibleAsReturned
           (details (V1.validateINE rho currentDate imageData))).
Proof.
  split; [apply V2_recommendations_synthesize|].
  split; [apply V2_recommendations_NoDup|].
  split.
  { intros H. unfold V2.generateRecommendations.
    rewrite !(presentAndFailed_all_passed d _ H). reflexivity. }
  split; [apply V1_recommendations_NoDup|].
  split; [intros r; split; apply V1_recommendations_ignore; reflexivity|].
  split; [apply V1_recommendations_rule|].
  split; [apply V1_recommendations_synthesize|].
  apply visibleAsReturned_run.
Qed.

Lemma recommendations_rule_witness :
  V2.generateRecommendations allPassDetails = [V2.allPassedMessage].
Proof.
  apply (proj1 (proj2 (proj2 (recommendations_rule allPassDetails)))).
  intros s r H. cbn in H.
  repeat match type of H with
         | (if ?c then _ else _) = _ => destruct c
         end;
    inversion H; reflexivity.
Defined.

(** ** The exact score against binary64 arithmetic *)

(** On every combination of outcome counts that a run of either copy can
    reach, the score computed on binary64 numbers is the exact score. *)
Lemma exact_score_is_binary64_score :
  agreeOn V2.weights reachableV2 = true
  /\ agreeOn V1.weights reachableV1 = true
  /\ List.length reachableV2 = 625%nat
  /\ List.length reachableV1 = 480%nat.
Proof. repeat split; vm_compute; reflexivity. Qed.

Example scenario_score_binary64 :
  calculateScore64 V2.weights
    [("format", stageWithCounts (3, 3)%nat);
     ("structure", stageWithCounts (1, 3)%nat);
     ("design", stageWithCounts (3, 3)%nat);
     ("security", stageWithCounts (3, 3)%nat);
     ("validity", stageWithCounts (3, 3)%nat)] = Some 83%Z.
Proof. vm_compute. reflexivity. Qed.
(** * Further properties of the code *)

(** ** [extractFileSize] *)

Lemma prefix_app (p s rest : string) :
  String.prefix p s = true -> String.prefix p (s ++ rest) = true.
Proof.
  revert p. induction s as [|c' s IH]; intros [|c p] H.
  - destruct rest; reflexivity.
  - discriminate H.
  - reflexivity.
  - cbn [String.prefix append] in *.
    destruct (ascii_dec c c'); [|discriminate H]. apply IH, H.
Qed.

Lemma upToComma_noComma (s : string) :
  hasComma s = false -> upToComma s = s.
Proof.
  induction s as [|c s IH]; [reflexivity|]. cbn [hasComma upToComma].
  intros H. apply orb_false_iff in H as [Hc Hs]. rewrite Hc, (IH Hs).
  reflexivity.
Qed.

Lemma afterFirstComma_app (header payload : string) :
  hasComma header = false ->
  afterFirstComma (header ++ String ","%char payload)
  = Some (upToComma payload).
Proof.
  induction header as [|c h IH]; cbn [hasComma append afterFirstComma].
  - intros _. reflexivity.
  - intros H. apply orb_false_iff in H as [Hc Hh]. rewrite Hc. apply IH, Hh.
Qed.

Lemma length_app_string (a b : string) :
  String.length (a ++ b) = (String.length a + String.length b)%nat.
Proof.
  induction a as [|c a IH]; [reflexivity|]. cbn [append String.length].
  rewrite IH. reflexivity.
Qed.

(** X1. For a data URL [header,payload] whose header starts with [data:]
    and where neither part holds a comma, the reported size is the length
    of the payload times 3/4, rounded down; padding characters are
    counted like any other. *)
Theorem extractFileSize_of_data_url (header payload : string) :
  startsWith header "data:" = true ->
  hasComma header = false ->
  hasComma payload = false ->
  extractFileSize (header ++ String ","%char payload)
  = (Z.of_nat (String.length payload) * 3 / 4)%Z.
Proof.
  intros Hp Hh Hpl. unfold extractFileSize.
  unfold startsWith in *. rewrite (prefix_app _ _ _ Hp).
  rewrite length_app_string. cbn [String.length].
  replace (String.length header + S (String.length payload) =? 0)%nat
    with false by (symmetry; apply Nat.eqb_neq; lia).
  cbn [orb negb]. rewrite (afterFirstComma_app _ _ Hh).
  rewrite (upToComma_noComma _ Hpl).
  destruct (String.length payload =? 0)%nat eqn:E; [|reflexivity].
  apply Nat.eqb_eq in E. rewrite E. reflexivity.
Qed.

Lemma extractFileSize_of_data_url_witness :
  extractFileSize ("data:image/png;base64" ++ String ","%char "iVBORw0KGgo=")
  = (Z.of_nat (String.length "iVBORw0KGgo=") * 3 / 4)%Z.
Proof.
  apply (extractFileSize_of_data_url "data:image/png;base64" "iVBORw0KGgo=");
    reflexivity.
Defined.

Lemma upToComma_length (s : string) :
  (String.length (upToComma s) <= String.length s)%nat.
Proof.
  induction s as [|c s IH]; [apply Nat.le_refl|]. cbn [upToComma].
  destruct (Ascii.eqb c ","%char); cbn [String.length]; lia.
Qed.

Lemma afterFirstComma_length (s t : string) :
  afterFirstComma s = Some t -> (String.length t < String.length s)%nat.
Proof.
  revert t. induction s as [|c s IH]; intros t; [discriminate|].
  cbn [afterFirstComma]. destruct (Ascii.eqb c ","%char).
  - intros H. inversion H; subst. cbn [String.length].
    pose proof (upToComma_length s). lia.
  - intros H. apply IH in H. cbn [String.length]. lia.
Qed.

Lemma afterFirstComma_noComma (s : string) :
  hasComma s = false -> afterFirstComma s = None.
Proof.
  induction s as [|c s IH]; [reflexivity|]. cbn [hasComma afterFirstComma].
  intros H. apply orb_false_iff in H as [Hc Hs]. rewrite Hc. apply IH, Hs.
Qed.

(** X2. The reported size is never negative, never more than three
    quarters of the length of the input, and 0 for every input that does
    not start with [data:] (the empty string included) or has no comma. *)
Theorem extractFileSize_bounds (imageData : string) :
  (0 <= extractFileSize imageData)%Z
  /\ (4 * extractFileSize imageData
      <= 3 * Z.of_nat (String.length imageData))%Z
  /\ (startsWith imageData "data:" = false -> extractFileSize imageData = 0%Z)
  /\ (hasComma imageData = false -> extractFileSize imageData = 0%Z).
Proof.
  assert (Hprefix : startsWith imageData "data:" = false
                    -> extractFileSize imageData = 0%Z).
  { intros H. unfold extractFileSize. rewrite H.
    rewrite orb_true_r. reflexivity. }
  assert (Hcomma : hasComma imageData = false
                   -> extractFileSize imageData = 0%Z).
  { intros H. unfold extractFileSize.
    rewrite (afterFirstComma_noComma _ H).
    destruct (_ || _); reflexivity. }
  assert (Hrange : (0 <= extractFileSize imageData)%Z
                   /\ (4 * extractFileSize imageData
                       <= 3 * Z.of_nat (String.length imageData))%Z).
  { unfold extractFileSize.
    destruct ((String.length imageData =? 0)%nat
              || negb (startsWith imageData "data:")); [lia|].
    destruct (afterFirstComma imageData) as [b64|] eqn:Ha; [|lia].
    pose proof (afterFirstComma_length _ _ Ha) as Hlen.
    destruct (String.length b64 =? 0)%nat; [lia|].
    assert (H0 : (0 <= Z.of_nat (String.length b64) * 3 / 4)%Z)
      by (apply Z.div_pos; lia).
    assert (H1 : (4 * (Z.of_nat (String.length b64) * 3 / 4)
                  <= Z.of_nat (String.length b64) * 3)%Z)
      by (apply Z.mul_div_le; lia).
    lia. }
  destruct Hrange as [H0 H1]. repeat split; assumption.
Qed.

(** ** The two patterns *)

Lemma matchClasses_length classes : forall s,
  matchClasses classes s = true -> String.length s = List.length classes.
Proof.
  induction classes as [|cl classes IH]; intros [|c s] H;
    try discriminate H; [reflexivity|].
  cbn [matchClasses] in H. apply andb_prop in H as [_ H].
  cbn [String.length List.length]. f_equal. apply IH, H.
Qed.

(** X3. A text that matches the CURP pattern has 18 characters, one that
    matches the elector-key pattern has 16: no text matches both, so a
    CURP never passes as an elector key. *)
Theorem curp_and_electorKey_exclusive (s : string) :
  (V2.validateCURPFormat s = true -> String.length s = 18%nat)
  /\ (V2.validateElectorKeyFormat s = true -> String.length s = 16%nat)
  /\ V2.validateCURPFormat s && V2.validateElectorKeyFormat s = false.
Proof.
  unfold V2.validateCURPFormat, V2.validateElectorKeyFormat.
  assert (H1 : matchClasses curpPattern s = true -> String.length s = 18%nat)
    by (intros H; apply matchClasses_length in H; exact H).
  assert (H2 : matchClasses electorKeyPattern s = true
               -> String.length s = 16%nat)
    by (intros H; apply matchClasses_length in H; exact H).
  repeat split; [exact H1 | exact H2 |].
  destruct (matchClasses curpPattern s); [|reflexivity].
  destruct (matchClasses electorKeyPattern s); [|reflexivity].
  specialize (H1 eq_refl). specialize (H2 eq_refl). lia.
Qed.

(** ** [checkValidityPeriod] *)

(** X4. For a period of a whole number of days the check answers yes
    exactly from 365 to 3650 days: ten calendar years, which hold at least
    two leap days, are always refused. *)
Theorem checkValidityPeriod_in_days (issueDate days : Z) :
  checkValidityPeriod (Some issueDate) (Some (issueDate + days * 86400000)%Z)
  = ((365 <=? days) && (days <=? 3650))%Z.
Proof.
  unfold checkValidityPeriod, msPerYear.
  replace (issueDate + days * 86400000 - issueDate)%Z
    with (days * 86400000)%Z by lia.
  destruct (10 * (1000 * 60 * 60 * 24 * 365) <? days * 86400000)%Z eqn:E1;
    destruct (days * 86400000 <? 1000 * 60 * 60 * 24 * 365)%Z eqn:E2;
    destruct (365 <=? days)%Z eqn:E3; destruct (days <=? 3650)%Z eqn:E4;
    try reflexivity; exfalso;
    rewrite ?Z.ltb_lt, ?Z.ltb_ge, ?Z.leb_le, ?Z.leb_gt in *; lia.
Qed.

Lemma extractFileSize_bounds_witness :
  extractFileSize "https://example.org/ine.png" = 0%Z.
Proof.
  apply (proj1 (proj2 (proj2 (extractFileSize_bounds
                                "https://example.org/ine.png")))).
  reflexivity.
Defined.

Lemma curp_and_electorKey_exclusive_witness :
  String.length "GOME800705HDFMLR09" = 18%nat.
Proof.
  apply (proj1 (curp_and_electorKey_exclusive "GOME800705HDFMLR09")).
  reflexivity.
Defined.

(** ** More on the score aggregator *)

Lemma scoreLoop_NaN_stays weights d : forall t,
  exists t', fold_left (scoreStep weights) d (t, None) = (t', None).
Proof.
  induction d as [|[c r] d IH]; intros t.
  - exists t. reflexivity.
  - cbn [fold_left scoreStep jsadd]. apply IH.
Qed.

Lemma scoreLoop_unweighted weights d :
  Exists (fun entry => lookup (fst entry) weights = None) d ->
  forall acc, exists t', fold_left (scoreStep weights) d acc = (t', None).
Proof.
  induction 1 as [[c r] d Hc | [c r] d _ IH]; intros [t m].
  - cbn [fst] in Hc. cbn [fold_left scoreStep]. unfold weightOf. rewrite Hc.
    destruct m; cbn [jsadd]; apply scoreLoop_NaN_stays.
  - cbn [fold_left]. apply IH.
Qed.

(** X5. A stage id that is not in the weights table turns the whole score
    into [NaN], whatever the other stages hold; [isValid] is then false. *)
Theorem unweighted_category_scores_NaN (weights : Weights) (d : Details) :
  Exists (fun entry => lookup (fst entry) weights = None) d ->
  calculateScoreWith weights d = None
  /\ meetsThreshold (calculateScoreWith weights d) = false.
Proof.
  intros H. unfold calculateScoreWith, scoreLoop.
  destruct (scoreLoop_unweighted _ _ H (Some 0, Some 0)) as [t' ->].
  destruct t'; split; reflexivity.
Qed.

Lemma unweighted_category_scores_NaN_witness :
  V2.calculateScore
    [("format", stageOf true [passing "a"]);
     ("visible", stageOf true [passing "b"])] = None
  /\ meetsThreshold
       (V2.calculateScore
          [("format", stageOf true [passing "a"]);
           ("visible", stageOf true [passing "b"])]) = false.
Proof.
  apply (unweighted_category_scores_NaN V2.weights).
  apply Exists_cons_tl, Exists_cons_hd. reflexivity.
Defined.

(** X6. When every category has a weight and no collected outcome
    passed, the score is 0. *)
Theorem all_fail_scores_0 (weights : Weights) (d : Details) :
  d <> [] ->
  allWeighted weights d ->
  Forall (fun entry =>
            forallb (fun e => negb (passed e)) (elements (snd entry)) = true)
         d ->
  calculateScoreWith weights d = Some 0%Z.
Proof.
  intros Hd Hw Hall.
  rewrite (calculateScoreWith_exact _ _ Hw Hd). f_equal.
  pose proof (maxOf_pos _ _ Hw Hd) as Hpos.
  assert (Ht : totalOf weights d == 0).
  { clear Hd Hw Hpos. induction Hall as [|[c r] d Hx _ IH]; [reflexivity|].
    rewrite totalOf_cons, IH. cbn [snd] in Hx.
    rewrite (contribution_all_fail _ _ _ Hx). reflexivity. }
  assert (E : totalOf weights d / maxOf weights d * 100 + (1 # 2) == 1 # 2).
  { rewrite Ht. field. lra. }
  rewrite (Qfloor_comp _ _ E). reflexivity.
Qed.

Lemma all_fail_scores_0_witness :
  V1.calculateScore
    [("visible", stageOf false [failing "a"; failing "b"]);
     ("qr", stageOf false [])] = Some 0%Z.
Proof.
  apply (all_fail_scores_0 V1.weights).
  - discriminate.
  - repeat constructor; discriminate.
  - repeat constructor.
Defined.

(** X7. Whatever the outcomes, as soon as there is a stage and every
    stage has a weight, the score is an integer from 0 to 100. *)
Theorem score_between_0_and_100 (weights : Weights) (d : Details) :
  d <> [] ->
  allWeighted weights d ->
  exists z, calculateScoreWith weights d = Some z /\ (0 <= z <= 100)%Z.
Proof. intros Hd Hw. apply calculateScoreWith_bounds; assumption. Qed.

Lemma score_between_0_and_100_witness :
  exists z, V2.calculateScore allPassDetails = Some z /\ (0 <= z <= 100)%Z.
Proof.
  apply (score_between_0_and_100 V2.weights allPassDetails).
  - discriminate.
  - repeat constructor; discriminate.
Defined.

(** ** [analyzeColors] *)

Lemma colorEqb_eq (a b : V2.Color) : V2.colorEqb a b = true <-> a = b.
Proof.
  destruct a as [[r1 g1] b1], b as [[r2 g2] b2]. unfold V2.colorEqb.
  rewrite !andb_true_iff, !N.eqb_eq. split.
  - intros [[-> ->] ->]. reflexivity.
  - intros H. inversion H. auto.
Qed.

Lemma colorEqb_refl (a : V2.Color) : V2.colorEqb a a = true.
Proof. apply colorEqb_eq. reflexivity. Qed.

Lemma colorEqb_neq (a b : V2.Color) : V2.colorEqb a b = false <-> a <> b.
Proof.
  split.
  - intros H E. apply colorEqb_eq in E. congruence.
  - intros H. destruct (V2.colorEqb a b) eqn:E; [|reflexivity].
    apply colorEqb_eq in E. contradiction.
Qed.

Lemma countOf_countColor c c' cc :
  countOf c' (V2.countColor c cc)
  = if V2.colorEqb c c' then S (countOf c' cc) else countOf c' cc.
Proof.
  induction cc as [|[k n] cc IH].
  - cbn [V2.countColor countOf]. destruct (V2.colorEqb c c'); reflexivity.
  - cbn [V2.countColor countOf].
    destruct (V2.colorEqb k c) eqn:Ekc.
    + apply colorEqb_eq in Ekc. subst k. cbn [countOf].
      destruct (V2.colorEqb c c'); reflexivity.
    + cbn [countOf]. destruct (V2.colorEqb k c') eqn:Ekc'.
      * apply colorEqb_eq in Ekc'. subst k.
        replace (V2.colorEqb c c') with false; [reflexivity|].
        symmetry. apply colorEqb_neq. apply colorEqb_neq in Ekc. congruence.
      * exact IH.
Qed.

Lemma keys_countColor c cc :
  map fst (V2.countColor c cc)
  = if existsb (fun k => V2.colorEqb k c) (map fst cc)
    then map fst cc else map fst cc ++ [c].
Proof.
  induction cc as [|[k n] cc IH]; [reflexivity|].
  cbn [V2.countColor map fst existsb].
  destruct (V2.colorEqb k c); [reflexivity|].
  cbn [map fst orb]. rewrite IH.
  destruct (existsb (fun k0 => V2.colorEqb k0 c) (map fst cc)); reflexivity.
Qed.

Lemma keys_countColor_NoDup c cc :
  NoDup (map fst cc) -> NoDup (map fst (V2.countColor c cc)).
Proof.
  intros H. rewrite keys_countColor.
  destruct (existsb (fun k => V2.colorEqb k c) (map fst cc)) eqn:E; [exact H|].
  apply NoDup_app; [exact H | repeat constructor; intros [] |].
  intros k Hk [Ek|[]]. subst k.
  assert (existsb (fun k0 => V2.colorEqb k0 c) (map fst cc) = true).
  { apply existsb_exists. exists c. split; [exact Hk | apply colorEqb_refl]. }
  congruence.
Qed.

Lemma colorCount_fold data : forall cc,
  NoDup (map fst cc) ->
  let cc' := fold_left (fun cc px => let '(r, g, b, _) := px in
                                      V2.countColor (r, g, b) cc) data cc in
  NoDup (map fst cc')
  /\ forall c, countOf c cc' = (countOf c cc + occurrences c data)%nat.
Proof.
  induction data as [|[[[r g] b] a] data IH]; intros cc Hcc.
  - cbn. split; [exact Hcc | intros c; lia].
  - cbn [fold_left].
    destruct (IH (V2.countColor (r, g, b) cc) (keys_countColor_NoDup _ _ Hcc))
      as [Hnd Hcount].
    split; [exact Hnd|]. intros c. rewrite Hcount, countOf_countColor.
    unfold occurrences. cbn [filter rgbOf].
    destruct (V2.colorEqb (r, g, b) c); cbn [List.length]; lia.
Qed.

Lemma colorCountOf_spec data :
  NoDup (map fst (colorCountOf data))
  /\ forall c, countOf c (colorCountOf data) = occurrences c data.
Proof.
  destruct (colorCount_fold data [] (NoDup_nil _)) as [H1 H2].
  split; [exact H1 | intros c; apply H2].
Qed.

Lemma countOf_In c n cc :
  NoDup (map fst cc) -> In (c, n) cc -> countOf c cc = n.
Proof.
  induction cc as [|[k m] cc IH]; [intros _ []|].
  cbn [map fst]. intros Hnd [E|Hin].
  - inversion E; subst. cbn [countOf]. rewrite colorEqb_refl. reflexivity.
  - inversion Hnd as [|? ? Hk Hnd']; subst. cbn [countOf].
    destruct (V2.colorEqb k c) eqn:E.
    + apply colorEqb_eq in E. subst k. exfalso. apply Hk.
      apply (in_map fst) in Hin. exact Hin.
    + exact (IH Hnd' Hin).
Qed.

Lemma countOf_pos_In c cc :
  (0 < countOf c cc)%nat -> In (c, countOf c cc) cc.
Proof.
  induction cc as [|[k m] cc IH]; cbn [countOf]; [lia|].
  destruct (V2.colorEqb k c) eqn:E.
  - apply colorEqb_eq in E. subst k. intros _. left. reflexivity.
  - intros H. right. exact (IH H).
Qed.

(** Every entry of the table counts at least one pixel. *)
Lemma countColor_positive c cc :
  Forall (fun e => 0 < snd e)%nat cc ->
  Forall (fun e => 0 < snd e)%nat (V2.countColor c cc).
Proof.
  induction cc as [|[k n] cc IH]; intros H.
  - repeat constructor.
  - inversion H as [|? ? Hn Hcc]; subst. cbn [V2.countColor].
    destruct (V2.colorEqb k c); constructor; cbn [snd] in *;
      try lia; auto.
Qed.

Lemma colorCountOf_positive data :
  Forall (fun e => 0 < snd e)%nat (colorCountOf data).
Proof.
  unfold colorCountOf.
  assert (H : forall cc, Forall (fun e => 0 < snd e)%nat cc ->
            Forall (fun e => 0 < snd e)%nat
              (fold_left (fun cc px => let '(r, g, b, _) := px in
                                       V2.countColor (r, g, b) cc) data cc)).
  { induction data as [|[[[r g] b] a] data IH]; intros cc Hcc; [exact Hcc|].
    cbn [fold_left]. apply IH, countColor_positive, Hcc. }
  apply H. constructor.
Qed.

Lemma insertByCount_perm x l : Permutation (V2.insertByCount x l) (x :: l).
Proof.
  induction l as [|y l IH]; [reflexivity|]. cbn [V2.insertByCount].
  destruct (snd y <? snd x)%nat; [reflexivity|].
  rewrite IH. apply perm_swap.
Qed.

Lemma insertByCount_sorted x l :
  StronglySorted byCountDescending l ->
  StronglySorted byCountDescending (V2.insertByCount x l).
Proof.
  induction l as [|y l IH]; intros H.
  - repeat constructor.
  - inversion H as [|? ? Hl Hy]; subst. cbn [V2.insertByCount].
    destruct (snd y <? snd x)%nat eqn:E.
    + apply Nat.ltb_lt in E. constructor; [exact H|].
      constructor; [unfold byCountDescending; lia|].
      rewrite Forall_forall in *. intros z Hz. specialize (Hy z Hz).
      unfold byCountDescending in *. lia.
    + apply Nat.ltb_ge in E. constructor; [apply IH, Hl|].
      rewrite Forall_forall in *. intros z Hz.
      apply (Permutation_in _ (insertByCount_perm x l)) in Hz.
      destruct Hz as [<-|Hz]; [exact E | exact (Hy z Hz)].
Qed.

Lemma sortByCount_fold entries : forall sorted,
  StronglySorted byCountDescending sorted ->
  let out := fold_left (fun sorted x => V2.insertByCount x sorted)
                       entries sorted in
  StronglySorted byCountDescending out
  /\ Permutation out (sorted ++ entries).
Proof.
  induction entries as [|x entries IH]; intros sorted Hs.
  - cbn. rewrite app_nil_r. split; [exact Hs | reflexivity].
  - cbn [fold_left].
    destruct (IH _ (insertByCount_sorted x _ Hs)) as [H1 H2].
    split; [exact H1|]. rewrite H2, insertByCount_perm.
    apply Permutation_middle.
Qed.

Lemma sortByCount_spec (entries : list (V2.Color * nat)) :
  Permutation (V2.sortByCount entries) entries
  /\ StronglySorted byCountDescending (V2.sortByCount entries).
Proof.
  destruct (sortByCount_fold entries [] (SSorted_nil _)) as [H1 H2].
  split; [exact H2 | exact H1].
Qed.

(** X8. The sort of [analyzeColors] keeps every entry of the colour table
    and puts larger counts first. *)
Theorem sortByCount_sorts (entries : list (V2.Color * nat)) :
  Permutation (V2.sortByCount entries) entries
  /\ StronglySorted byCountDescending (V2.sortByCount entries).
Proof. exact (sortByCount_spec entries). Qed.

Lemma NoDup_firstn {A} (n : nat) (l : list A) :
  NoDup l -> NoDup (firstn n l).
Proof.
  revert n. induction l as [|x l IH]; intros [|n] H; cbn [firstn];
    try constructor.
  - inversion H as [|? ? Hx Hl]; subst. intros Hin. apply Hx.
    rewrite <- (firstn_skipn n l). apply in_or_app. left. exact Hin.
  - inversion H; subst. apply IH. assumption.
Qed.

Lemma In_firstn {A} (n : nat) (l : list A) x : In x (firstn n l) -> In x l.
Proof.
  intros H. rewrite <- (firstn_skipn n l). apply in_or_app. left. exact H.
Qed.

Lemma occurrences_pos_pixel c data :
  (0 < occurrences c data)%nat -> exists px, In px data /\ rgbOf px = c.
Proof.
  unfold occurrences. induction data as [|px data IH]; cbn [filter List.length].
  - lia.
  - destruct (V2.colorEqb (rgbOf px) c) eqn:E.
    + intros _. exists px. split; [left; reflexivity | apply colorEqb_eq, E].
    + intros H. destruct (IH H) as [px' [Hin Hc]].
      exists px'. split; [right; exact Hin | exact Hc].
Qed.

Lemma dominant_entry c data :
  In c (V2.dominantColorsOf data) ->
  In (c, occurrences c data) (colorCountOf data)
  /\ (0 < occurrences c data)%nat.
Proof.
  unfold V2.dominantColorsOf. fold (colorCountOf data). intros H.
  apply in_map_iff in H as [[k n] [Hk Hin]]. cbn [fst] in Hk. subst k.
  apply In_firstn in Hin.
  apply (Permutation_in _ (proj1 (sortByCount_spec _))) in Hin.
  destruct (colorCountOf_spec data) as [Hnd Hcount].
  pose proof (countOf_In _ _ _ Hnd Hin) as E. rewrite Hcount in E. subst n.
  split; [exact Hin|].
  pose proof (colorCountOf_positive data) as Hpos.
  rewrite Forall_forall in Hpos. exact (Hpos _ Hin).
Qed.

Lemma dominant_color_from_pixel c data :
  In c (V2.dominantColorsOf data) -> exists px, In px data /\ rgbOf px = c.
Proof.
  intros Hc. apply occurrences_pos_pixel.
  exact (proj2 (dominant_entry _ _ Hc)).
Qed.

(** X9. The dominant colours [analyzeColors] reports are at most three,
    all different, each the colour of at least one sampled pixel; there
    is one as soon as a pixel was sampled. *)
Theorem dominantColors_well_formed (data : list V2.Pixel) :
  (List.length (V2.dominantColorsOf data) <= 3)%nat
  /\ NoDup (V2.dominantColorsOf data)
  /\ (forall c, In c (V2.dominantColorsOf data) ->
                exists px, In px data /\ rgbOf px = c)
  /\ (data <> [] -> V2.dominantColorsOf data <> []).
Proof.
  split; [|split; [|split]].
  - unfold V2.dominantColorsOf. rewrite length_map. apply firstn_le_length.
  - unfold V2.dominantColorsOf. fold (colorCountOf data).
    rewrite <- firstn_map. apply NoDup_firstn.
    destruct (colorCountOf_spec data) as [Hnd _].
    apply (Permutation_NoDup
             (Permutation_sym (Permutation_map fst
                                 (proj1 (sortByCount_spec _))))).
    exact Hnd.
  - intros c Hc. apply dominant_color_from_pixel, Hc.
  - intros Hd Hempty. destruct data as [|px data]; [congruence|].
    destruct (colorCountOf_spec (px :: data)) as [_ Hcount].
    assert (Hpos : (0 < countOf (rgbOf px) (colorCountOf (px :: data)))%nat).
    { rewrite Hcount. unfold occurrences. cbn [filter].
      rewrite colorEqb_refl. cbn [List.length]. lia. }
    apply countOf_pos_In in Hpos.
    apply (Permutation_in _ (Permutation_sym
                               (proj1 (sortByCount_spec _)))) in Hpos.
    unfold V2.dominantColorsOf in Hempty.
    fold (colorCountOf (px :: data)) in Hempty.
    destruct (V2.sortByCount (colorCountOf (px :: data))); [destruct Hpos|].
    discriminate Hempty.
Qed.

Lemma dominantColors_well_formed_witness :
  exists px,
    In px [(10, 20, 200, 255); (10, 20, 200, 255); (90, 90, 90, 255)]%N
    /\ rgbOf px = (10, 20, 200)%N.
Proof.
  apply (proj1 (proj2 (proj2 (dominantColors_well_formed
           [(10, 20, 200, 255); (10, 20, 200, 255); (90, 90, 90, 255)]%N)))).
  left. reflexivity.
Defined.

(** X10. The first dominant colour is a most frequent colour of the
    sample: no colour covers more sampled pixels. *)
Theorem first_dominant_color_is_most_frequent
  (data : list V2.Pixel) (c : V2.Color) (rest : list V2.Color) :
  V2.dominantColorsOf data = c :: rest ->
  forall c', (occurrences c' data <= occurrences c data)%nat.
Proof.
  intros Hd c'.
  assert (Hc : In c (V2.dominantColorsOf data)) by (rewrite Hd; left; reflexivity).
  destruct (colorCountOf_spec data) as [Hnd Hcount].
  destruct (Nat.eq_dec (occurrences c' data) 0) as [E|E]; [lia|].
  assert (Hin' : In (c', occurrences c' data) (colorCountOf data)).
  { rewrite <- Hcount. apply countOf_pos_In. rewrite Hcount. lia. }
  destruct (sortByCount_spec (colorCountOf data)) as [Hperm Hsorted].
  apply (Permutation_in _ (Permutation_sym Hperm)) in Hin'.
  unfold V2.dominantColorsOf in Hd. fold (colorCountOf data) in Hd.
  destruct (V2.sortByCount (colorCountOf data)) as [|[k n] sorted] eqn:Es;
    [destruct Hin'|].
  cbn [firstn map fst] in Hd. inversion Hd; subst k.
  assert (Hn : n = occurrences c data).
  { rewrite <- Hcount. symmetry. apply countOf_In; [exact Hnd|].
    apply (Permutation_in _ Hperm). left. reflexivity. }
  inversion Hsorted as [|? ? _ Hall]; subst.
  destruct Hin' as [E'|Hin'].
  - inversion E'; subst. lia.
  - rewrite Forall_forall in Hall. specialize (Hall _ Hin').
    unfold byCountDescending in Hall. cbn [snd] in Hall. lia.
Qed.

Lemma first_dominant_color_is_most_frequent_witness :
  (occurrences (90, 90, 90)%N
     [(10, 20, 200, 255); (10, 20, 200, 255); (90, 90, 90, 255)]%N
   <= occurrences (10, 20, 200)%N
        [(10, 20, 200, 255); (10, 20, 200, 255); (90, 90, 90, 255)]%N)%nat.
Proof.
  apply (first_dominant_color_is_most_frequent
           [(10, 20, 200, 255); (10, 20, 200, 255); (90, 90, 90, 255)]%N
           (10, 20, 200)%N [(90, 90, 90)%N]).
  reflexivity.
Defined.

(** X11. A sample in which no pixel is bluer than it is red and green (a
    greyscale scan, for one) never shows the official colours. *)
Theorem no_blue_pixel_no_official_colors (data : list V2.Pixel) :
  (forall r g b a, In (r, g, b, a) data -> (b <= r \/ b <= g)%N) ->
  V2.hasBlueTones (V2.dominantColorsOf data) = false.
Proof.
  intros H. unfold V2.hasBlueTones. apply not_true_is_false. intros E.
  apply existsb_exists in E as [[[r g] b] [Hin Hblue]].
  destruct (dominant_color_from_pixel _ _ Hin)
    as [[[[r' g'] b'] a'] [Hpx Hc]].
  cbn [rgbOf] in Hc. inversion Hc; subst.
  destruct (H _ _ _ _ Hpx) as [Hr|Hg];
    apply andb_prop in Hblue as [H1 H2];
    apply N.ltb_lt in H1, H2; lia.
Qed.

Lemma no_blue_pixel_no_official_colors_witness :
  V2.hasBlueTones
    (V2.dominantColorsOf [(90, 90, 90, 255); (200, 200, 200, 255)]%N) = false.
Proof.
  apply (no_blue_pixel_no_official_colors
           [(90, 90, 90, 255); (200, 200, 200, 255)]%N).
  intros r g b a [E|[E|[]]]; inversion E; subst; left; discriminate.
Defined.

(** ** The stages of [src/ine-validator.js] on a decoded image *)

Lemma likeINE_cases (img : V2.Image) :
  (likeINE img = true ->
     V2.aspectInRange (V2.naturalWidth img) (V2.naturalHeight img) = true
     /\ ((500 <=? V2.naturalWidth img) && (300 <=? V2.naturalHeight img))%N
        = true
     /\ V2.analyzeImageQuality img = true)
  /\ V2.detectSecurityPatterns img = likeINE img
  /\ V2.detectReliefElements img = false
  /\ V2.detectOfficialElements img = likeINE img
  /\ V2.validateLayout img = likeINE img.
Proof.
  unfold likeINE, V2.detectSecurityPatterns, V2.detectReliefElements,
    V2.detectOfficialElements, V2.validateLayout, V2.analyzeImageContent,
    V2.analyzeImageQuality.
  cbn [V2.looksLikeINE V2.analysisConfidence].
  destruct (V2.aspectInRange (V2.naturalWidth img) (V2.naturalHeight img)).
  - destruct ((600 <=? V2.naturalWidth img) && (400 <=? V2.naturalHeight img))%N
      eqn:E; cbn [andb].
    + repeat split; try reflexivity.
      * apply andb_prop in E as [E1 E2]. apply N.leb_le in E1, E2.
        apply andb_true_intro. split; apply N.leb_le; lia.
      * destruct ((1000 <=? V2.naturalWidth img)
                  && (600 <=? V2.naturalHeight img))%N; reflexivity.
    + repeat split; try reflexivity; discriminate.
  - cbn [andb]. repeat split; try reflexivity; discriminate.
Qed.

Lemma structure_result b d img :
  V2.createImage b d = Normal img ->
  V2.validateStructure b d = quorumResult 2 (structureChecks img).
Proof.
  intros H.
  unfold V2.validateStructure, V2.validateStructure_try,
    V2.extractTextFromImage, V2.detectINEText, V2.applyQuorum, exec, tryCatch,
    bind, await, ret, modify.
  rewrite H. unfold structureChecks, likeINE.
  destruct (V2.looksLikeINE (V2.analyzeImageContent img)); reflexivity.
Qed.

Lemma security_result b d img :
  V2.createImage b d = Normal img ->
  V2.validateSecurityElements b d = quorumResult 2 (securityChecks img).
Proof.
  intros H.
  unfold V2.validateSecurityElements, V2.validateSecurityElements_try,
    V2.applyQuorum, exec, tryCatch, bind, await, ret, modify.
  rewrite H. unfold securityChecks.
  destruct (likeINE_cases img) as (_ & <- & Hr & _). rewrite Hr.
  reflexivity.
Qed.

Lemma design_result b d img :
  V2.createImage b d = Normal img ->
  V2.validateOfficialDesign b d
  = match V2.getImageData b img with
    | Normal data => quorumResult 2 (designChecks img data)
    | Thrown _ => quorumResult 2 [check "Diseño oficial" false]
    end.
Proof.
  intros H.
  unfold V2.validateOfficialDesign, V2.validateOfficialDesign_try,
    V2.analyzeColors, V2.applyQuorum, exec, tryCatch, bind, await, ret, modify.
  rewrite H. destruct (V2.getImageData b img); reflexivity.
Qed.

Lemma validity_result b d img :
  V2.createImage b d = Normal img ->
  V2.validateValidity b d
  = quorumResult 2 (validityChecks img (V2.currentDate b)).
Proof.
  intros H.
  unfold V2.validateValidity, V2.validateValidity_try,
    V2.extractTextFromImage, V2.applyQuorum, exec, tryCatch, bind, await, ret,
    modify.
  rewrite H. unfold validityChecks, likeINE.
  destruct (V2.looksLikeINE (V2.analyzeImageContent img)); reflexivity.
Qed.

Lemma format_result b d img :
  V2.createImage b d = Normal img ->
  let ok := startsWith d "data:image/"
            && V2.aspectInRange (V2.naturalWidth img) (V2.naturalHeight img)
            && ((500 <=? V2.naturalWidth img)
                && (300 <=? V2.naturalHeight img))%N in
  V2.validateDocumentFormat b d
  = {| stage_passed := ok;
       elements :=
         [check "Relación de aspecto"
            (V2.aspectInRange (V2.naturalWidth img) (V2.naturalHeight img));
          check "Tamaño suficiente"
            ((500 <=? V2.naturalWidth img)
             && (300 <=? V2.naturalHeight img))%N;
          check "Formato de imagen" (startsWith d "data:image/")];
       stage_documentType :=
         Some (if ok then "potential_ine"
               else if startsWith d "data:image/" then "other_image"
                    else "other_document");
       stage_error := None |}.
Proof.
  intros H.
  unfold V2.validateDocumentFormat, V2.validateDocumentFormat_try, exec,
    tryCatch, bind, await, modify.
  rewrite H.
  destruct (startsWith d "data:image/"),
    (V2.aspectInRange (V2.naturalWidth img) (V2.naturalHeight img)),
    ((500 <=? V2.naturalWidth img) && (300 <=? V2.naturalHeight img))%N;
    reflexivity.
Qed.

Lemma format_result_undecoded b d e :
  V2.createImage b d = Thrown e ->
  V2.validateDocumentFormat b d
  = {| stage_passed := false;
       elements := [check "Formato del documento" false];
       stage_documentType := Some "unknown"; stage_error := None |}.
Proof.
  intros H.
  unfold V2.validateDocumentFormat, V2.validateDocumentFormat_try, exec,
    tryCatch, bind, await, modify.
  rewrite H. reflexivity.
Qed.

Lemma aspectInRange_landscape w h :
  V2.aspectInRange w h = true -> (0 < h /\ h < w)%N.
Proof.
  unfold V2.aspectInRange. destruct (h =? 0)%N eqn:E; [discriminate|].
  apply N.eqb_neq in E. intros H. apply andb_prop in H as [H1 H2].
  apply N.leb_le in H1, H2. lia.
Qed.

(** X12. The format gate lets an input through exactly when it classifies
    it as a potential INE, and then the input is a [data:image/] URL that
    decodes to a landscape image of at least 500x300 pixels whose
    width-to-height ratio lies between 1.5 and 1.7.  The document type is
    [unknown] exactly when the image cannot be decoded. *)
Theorem format_gate_classification (browser : V2.Browser) (imageData : string) :
  let r := V2.validateDocumentFormat browser imageData in
  (stage_passed r = true <-> stage_documentType r = Some "potential_ine")
  /\ (stage_documentType r = Some "unknown"
      <-> exists e, V2.createImage browser imageData = Thrown e)
  /\ (stage_passed r = true ->
      startsWith imageData "data:image/" = true
      /\ exists img,
           V2.createImage browser imageData = Normal img
           /\ (V2.naturalHeight img < V2.naturalWidth img)%N
           /\ (500 <= V2.naturalWidth img)%N
           /\ (300 <= V2.naturalHeight img)%N
           /\ (15 * V2.naturalHeight img <= 10 * V2.naturalWidth img)%N
           /\ (10 * V2.naturalWidth img <= 17 * V2.naturalHeight img)%N).
Proof.
  cbv zeta.
  destruct (V2.createImage browser imageData) as [img|e] eqn:Himg.
  - rewrite (format_result _ _ _ Himg). cbv zeta.
    cbn [stage_passed stage_documentType].
    destruct (startsWith imageData "data:image/") eqn:Ei;
      destruct (V2.aspectInRange (V2.naturalWidth img) (V2.naturalHeight img))
        eqn:Ea;
      destruct ((500 <=? V2.naturalWidth img)
                && (300 <=? V2.naturalHeight img))%N eqn:Es;
      cbn [andb];
      (split; [split; intros H; (discriminate H || reflexivity) |]);
      (split; [split; [intros H; discriminate H
                      | intros [e He]; discriminate He] |]);
      intros H; try discriminate H.
    split; [reflexivity|]. exists img. split; [reflexivity|].
    apply andb_prop in Es as [E1 E2]. apply N.leb_le in E1, E2.
    pose proof (aspectInRange_landscape _ _ Ea) as [Hh Hw].
    unfold V2.aspectInRange in Ea.
    destruct (V2.naturalHeight img =? 0)%N; [discriminate Ea|].
    apply andb_prop in Ea as [A1 A2]. apply N.leb_le in A1, A2.
    repeat split; assumption.
  - rewrite (format_result_undecoded _ _ _ Himg).
    cbn [stage_passed stage_documentType].
    split; [split; intros H; discriminate H|].
    split; [split; [intros _; exists e; reflexivity | reflexivity]|].
    intros H; discriminate H.
Qed.

Lemma format_gate_classification_witness :
  startsWith pngData "data:image/" = true
  /\ exists img,
       V2.createImage goodBrowser pngData = Normal img
       /\ (V2.naturalHeight img < V2.naturalWidth img)%N
       /\ (500 <= V2.naturalWidth img)%N
       /\ (300 <= V2.naturalHeight img)%N
       /\ (15 * V2.naturalHeight img <= 10 * V2.naturalWidth img)%N
       /\ (10 * V2.naturalWidth img <= 17 * V2.naturalHeight img)%N.
Proof.
  apply (proj2 (proj2 (format_gate_classification goodBrowser pngData))).
  reflexivity.
Defined.




(** ** The verdict of [src/ine-validator.js] *)






(** ** The orchestrator, over any stage methods *)

Lemma validateINE_with_shape (this : V2.StageMethods) (d : string) :
  RunShape this d (V2.validateINE_with this d).
Proof.
  destruct (V2.formatStage this d) as [fr|e] eqn:Hf.
  2:{ apply (EndedByFault _ _ 0%nat e); try lia;
        unfold V2.validateINE_with, V2.validateINE_try, exec, tryCatch, bind,
          await; rewrite Hf; reflexivity. }
  destruct (stage_passed fr) eqn:Hp.
  2:{ apply (EndedAtGate _ _ fr); try assumption;
        rewrite (validateINE_with_gate _ _ _ Hf Hp); reflexivity. }
  destruct (V2.structureStage this d) as [sr|e] eqn:Hs.
  2:{ apply (EndedByFault _ _ 1%nat e); try lia;
        unfold V2.validateINE_with, V2.validateINE_try, exec, tryCatch, bind,
          await; rewrite Hf; cbn [modify]; rewrite Hp, Hs; reflexivity. }
  destruct (V2.designStage this d) as [dr|e] eqn:Hd.
  2:{ apply (EndedByFault _ _ 2%nat e); try lia;
        unfold V2.validateINE_with, V2.validateINE_try, exec, tryCatch, bind,
          await; rewrite Hf; cbn [modify]; rewrite Hp, Hs, Hd; reflexivity. }
  destruct (V2.securityStage this d) as [cr|e] eqn:Hc.
  2:{ apply (EndedByFault _ _ 3%nat e); try lia;
        unfold V2.validateINE_with, V2.validateINE_try, exec, tryCatch, bind,
          await; rewrite Hf; cbn [modify]; rewrite Hp, Hs, Hd, Hc;
          reflexivity. }
  destruct (V2.validityStage this d) as [vr|e] eqn:Hv.
  2:{ apply (EndedByFault _ _ 4%nat e); try lia;
        unfold V2.validateINE_with, V2.validateINE_try, exec, tryCatch, bind,
          await; rewrite Hf; cbn [modify]; rewrite Hp, Hs, Hd, Hc, Hv;
          reflexivity. }
  apply (RanToEnd _ _ fr); try assumption;
    rewrite (validateINE_with_full _ _ _ _ _ _ _ Hf Hs Hd Hc Hv Hp);
    reflexivity.
Qed.

(** X17. A report with [isValid = true] always comes from a complete run:
    the format stage passed, all five stage results are present in
    pipeline order, no fault was recorded, and the score is at least
    70. *)
Theorem valid_only_after_complete_run
  (this : V2.StageMethods) (imageData : string) :
  isValid (V2.validateINE_with this imageData) = true ->
  let r := V2.validateINE_with this imageData in
  error r = None
  /\ map fst (details r) = pipelineOrder
  /\ (exists fr, V2.formatStage this imageData = Normal fr
                 /\ stage_passed fr = true)
  /\ exists z, score r = Some z /\ (70 <= z)%Z.
Proof.
  intros Hv r. subst r.
  destruct (validateINE_with_shape this imageData)
    as [n e r _ _ _ _ Hi _ | fr r _ _ _ _ Hi | fr r Hf Hp Hk He Hi _];
    try congruence.
  split; [exact He|]. split; [exact Hk|]. split; [exists fr; auto|].
  rewrite Hi in Hv. destruct (score r) as [z|]; [|discriminate Hv].
  exists z. split; [reflexivity|]. apply Z.leb_le. exact Hv.
Qed.

Lemma valid_only_after_complete_run_witness :
  error (V2.validateINE_with (V2.methods goodBrowser) pngData) = None
  /\ map fst (details (V2.validateINE_with (V2.methods goodBrowser) pngData))
     = pipelineOrder
  /\ (exists fr, V2.formatStage (V2.methods goodBrowser) pngData = Normal fr
                 /\ stage_passed fr = true)
  /\ exists z, score (V2.validateINE_with (V2.methods goodBrowser) pngData)
               = Some z /\ (70 <= z)%Z.
Proof.
  apply (valid_only_after_complete_run (V2.methods goodBrowser) pngData).
  vm_compute. reflexivity.
Defined.

(** X18. The stage results of a report are always those of an initial
    segment of the pipeline, in pipeline order: the format result alone
    or all five when no fault was recorded, and the results collected
    before the fault, fewer than five, with no recommendation, when one
    was. *)
Theorem details_in_execution_order
  (this : V2.StageMethods) (imageData : string) :
  let r := V2.validateINE_with this imageData in
  exists n,
    map fst (details r) = firstn n pipelineOrder
    /\ match error r with
       | None => n = 1%nat \/ n = 5%nat
       | Some _ => (n < 5)%nat /\ recommendations r = []
       end.
Proof.
  cbv zeta.
  destruct (validateINE_with_shape this imageData)
    as [n e r Hn Hk He Hr _ _ | fr r _ _ Hk He _ | fr r _ _ Hk He _ _].
  - exists n. rewrite He. auto.
  - exists 1%nat. rewrite He. auto.
  - exists 5%nat. rewrite He. auto.
Qed.

(** X19. Once the format stage has failed, nothing of the four later
    stage methods matters - not even that they would throw: two
    validators with the same format result return the same report. *)
Theorem failed_gate_ignores_later_stages
  (this this' : V2.StageMethods) (imageData : string) (fr : StageResult) :
  V2.formatStage this imageData = Normal fr ->
  V2.formatStage this' imageData = Normal fr ->
  stage_passed fr = false ->
  V2.validateINE_with this imageData = V2.validateINE_with this' imageData.
Proof.
  intros H H' Hp.
  rewrite (validateINE_with_gate _ _ _ H Hp),
    (validateINE_with_gate _ _ _ H' Hp).
  reflexivity.
Qed.

Lemma failed_gate_ignores_later_stages_witness :
  V2.validateINE_with
    (fixedMethods (Normal (stageOf false [failing "a"]))
       (Thrown "x") (Thrown "x") (Thrown "x") (Thrown "x")) pngData
  = V2.validateINE_with
      (fixedMethods (Normal (stageOf false [failing "a"]))
         (Normal (stageOf true [passing "b"])) (Thrown "y")
         (Normal (stageOf true [])) (Thrown "z")) pngData.
Proof.
  apply (failed_gate_ignores_later_stages _ _ pngData
           (stageOf false [failing "a"]));
    reflexivity.
Defined.



(** ** More on the recommendations *)

(** X20. [generateRecommendations] of [src/ine-validator.js] returns from
    one to four messages, and the affirmative message is among them
    exactly when none of the five stages is present and failed. *)
Theorem affirmative_only_without_failure (d : Details) :
  (1 <= List.length (V2.generateRecommendations d) <= 4)%nat
  /\ (In V2.allPassedMessage (V2.generateRecommendations d)
      <-> forallb (fun stage => negb (presentAndFailed d stage)) pipelineOrder
          = true).
Proof.
  unfold V2.generateRecommendations, pipelineOrder. cbn [forallb].
  destruct (presentAndFailed d "format"),
    (presentAndFailed d "structure"), (presentAndFailed d "design"),
    (presentAndFailed d "security"), (presentAndFailed d "validity");
    cbn; (split; [lia|]); split; intros H;
    try discriminate H; try reflexivity;
    repeat (destruct H as [H|H]; [discriminate H|]); try destruct H;
    auto.
Qed.

Lemma affirmative_only_without_failure_witness :
  In V2.allPassedMessage (V2.generateRecommendations allPassDetails).
Proof.
  apply (proj2 (proj2 (affirmative_only_without_failure allPassDetails))).
  reflexivity.
Defined.

(** ** Runs of [src/unnamed/part_000] *)

(** X21. In every run of the first copy the message about the visible
    elements is recommended exactly when the visible stage failed (its
    "more than two failed" agrees with the stage's "at least three passed"
    on the five checks), the message about the structure is never
    recommended, and the message about the validity is recommended exactly
    from 2029-01-15 on. *)
Theorem recommendations_of_a_first_copy_run
  (rho : nat -> Q) (currentDate : Z) (imageData : string) :
  let r := V1.validateINE rho currentDate imageData in
  (In V1.visibleMessage (recommendations r)
   <-> exists result, lookup "visible" (details r) = Some result
                      /\ stage_passed result = false)
  /\ ~ In V1.structureMessage (recommendations r)
  /\ (In V1.validityMessage (recommendations r)
      <-> (1863129600000 <= currentDate)%Z).
Proof.
  cbv zeta. rewrite V1_validateINE_run.
  unfold reportOfDetails. cbn [recommendations details].
  unfold V1.generateRecommendations, V1.manyVisibleFailed, presentAndFailed,
    detailsOfRun.
  cbn [lookup String.eqb Ascii.eqb Bool.eqb].
  unfold visibleElementsAt, observed, validityElementsAt, structureElements,
    quorumResult, stageOf.
  cbn [stage_passed elements].
  destruct (answerOf (V1.detectMicrotext rho) 0),
    (answerOf (V1.detectOVD rho) (2 + 0)),
    (answerOf (V1.detectUVInk rho) (4 + 0)),
    (answerOf (V1.detectRelief rho) (6 + 0)),
    (answerOf (V1.detectSecurityBackground rho) (8 + 0));
    destruct (currentDate <? 1863129600000)%Z eqn:Ec;
    cbn;
    (split; [split;
             [ intros H; try (eexists; split; reflexivity);
               repeat (destruct H as [H|H]; [discriminate H|]); destruct H
             | intros [result [Hr Hp]]; inversion Hr; subst result;
               try discriminate Hp; auto ] |]);
    (split; [intros H; repeat (destruct H as [H|H]; [discriminate H|]);
             destruct H |]);
    (split; [ intros H;
              try (apply Z.ltb_ge in Ec; exact Ec);
              repeat (destruct H as [H|H]; [discriminate H|]); destruct H
            | intros H; try (apply Z.ltb_lt in Ec; lia); auto ]).
Qed.

(** X22. The QR stage of the first copy passes exactly when the code
    decodes (the value of [Math.random()] is above the constant 0.2) and
    at least one of its two simulated checks answers yes (the next value
    is above 0.3, or the one after it above 0.4; the structure check of
    the decoded text always passes).  It makes three calls of
    [Math.random()] when the code decodes and one when it does not, in
    which case it collects no outcome; it never records an error.  The
    constants are the binary64 numbers of the code. *)
Theorem qr_stage_verdict (rho : nat -> Q) (n : nat) :
  let decoded := gt (rho n) (binary64 0.2) in
  exists r,
    V1.validateQRCodes rho n
    = (Normal r, if decoded then (3 + n)%nat else (1 + n)%nat)
    /\ stage_passed r
       = decoded && (gt (rho (1 + n)%nat) (binary64 0.3)
                     || gt (rho (2 + n)%nat) (binary64 0.4))
    /\ List.length (elements r) = (if decoded then 3 else 0)%nat
    /\ stage_error r = None.
Proof.
  cbv zeta. rewrite qr_run.
  destruct (gt (rho n) (binary64 0.2)).
  - eexists. split; [reflexivity|].
    unfold quorumResult, qrElementsAt, stageOf, answerOf,
      V1.validateDigitalSignature, V1.verifyQRConsistency, bind,
      V1.Math_random, ret.
    cbn [stage_passed elements stage_error List.length andb].
    split; [|split; reflexivity].
    destruct (gt (rho (1 + n)%nat) (binary64 0.3)),
      (gt (rho (2 + n)%nat) (binary64 0.4)); reflexivity.
  - eexists. split; [reflexivity|]. repeat split.
Qed.

(** X23. Every stage a run executes is a declared validation step with a
    weight, in the declared order: a complete run of
    [src/ine-validator.js] holds exactly the declared steps; a run of the
    first copy holds them all but [nonVisible], which is declared, never
    executed and has no weight.  A run of the first copy always holds its
    five stage results and never records an error. *)
Theorem executed_stages_are_declared_steps :
  (forall browser imageData,
      stage_passed (V2.validateDocumentFormat browser imageData) = true ->
      map fst (details (V2.validateINE browser imageData))
      = stepIds validationStepsV2)
  /\ map fst V2.weights = stepIds validationStepsV2
  /\ (forall rho currentDate imageData,
         map fst (details (V1.validateINE rho currentDate imageData))
         = filter (fun id => negb (String.eqb id "nonVisible"))
                  (stepIds validationStepsV1)
         /\ error (V1.validateINE rho currentDate imageData) = None)
  /\ map fst V1.weights
     = filter (fun id => negb (String.eqb id "nonVisible"))
              (stepIds validationStepsV1)
  /\ lookup "nonVisible" V1.weights = None.
Proof.
  split; [|split; [reflexivity | split; [|split; reflexivity]]].
  - intros browser imageData Hp. unfold V2.validateINE.
    rewrite (validateINE_with_full (V2.methods browser) imageData _ _ _ _ _
               eq_refl eq_refl eq_refl eq_refl eq_refl Hp).
    reflexivity.
  - intros rho currentDate imageData. rewrite V1_validateINE_run.
    split; reflexivity.
Qed.

Lemma executed_stages_are_declared_steps_witness :
  map fst (details (V2.validateINE goodBrowser pngData))
  = stepIds validationStepsV2.
Proof.
  apply (proj1 executed_stages_are_declared_steps goodBrowser pngData).
  reflexivity.
Defined.

(** On binary64 numbers the confidence of a passed check reaches 100. *)
Lemma binary64_confidence_reaches_100 :
  PrimFloat.ltb largestBelowOne 1 = true
  /\ PrimFloat.eqb (largestBelowOne * 30 + 70) 100 = true
  /\ PrimFloat.eqb (largestBelowOne * 25 + 75) 100 = true.
Proof. repeat split; vm_compute; reflexivity. Qed.

Lemma observed_band rho spread elementName detector n :
  0 <= rho (S n) /\ rho (S n) < 1 ->
  0 < spread ->
  confidenceBand spread
    (observed rho spread (100 - spread) elementName detector n).
Proof.
  intros [H0 H1] Hs. unfold confidenceBand, observed.
  cbn [confidence passed]. eexists. split; [reflexivity|].
  assert (Hm0 : 0 <= rho (S n) * spread)
    by (apply Qmult_le_0_compat; lra).
  assert (Hm1 : rho (S n) * spread < 1 * spread)
    by (apply Qmult_lt_compat_r; lra).
  destruct (answerOf detector n); split; lra.
Qed.

(** X24. When [Math.random()] returns values from 0 up to, not
    including, 1, every visible check is recorded with a confidence
    between 70 and 100 when it passed and between 0 and 30 when it did
    not, and every second-level check with one between 75 and 100, or
    between 0 and 25.  The ends of the bands are included: the exact value
    of [r * 30 + 70] stays below 100, but the binary64 result is 100 when
    [r] is the largest number below 1. *)
Theorem confidence_bands (rho : nat -> Q) (n : nat) :
  (forall k, 0 <= rho k /\ rho k < 1) ->
  (exists r n',
      V1.validateVisibleElements rho n = (Normal r, n')
      /\ Forall (confidenceBand 30) (elements r))
  /\ (exists r n',
         V1.validateSecondLevelElements rho n = (Normal r, n')
         /\ Forall (confidenceBand 25) (elements r)).
Proof.
  intros Hrho. rewrite visible_run, secondLevel_run. split.
  - do 2 eexists. split; [reflexivity|].
    unfold quorumResult, stageOf, visibleElementsAt. cbn [elements].
    repeat constructor;
      apply (observed_band rho 30); (apply Hrho || reflexivity).
  - do 2 eexists. split; [reflexivity|].
    unfold quorumResult, stageOf, secondLevelElementsAt. cbn [elements].
    repeat constructor;
      apply (observed_band rho 25); (apply Hrho || reflexivity).
Qed.

Lemma confidence_bands_witness :
  (exists r n',
      V1.validateVisibleElements steadyStream 0%nat = (Normal r, n')
      /\ Forall (confidenceBand 30) (elements r))
  /\ (exists r n',
         V1.validateSecondLevelElements steadyStream 0%nat = (Normal r, n')
         /\ Forall (confidenceBand 25) (elements r)).
Proof.
  apply (confidence_bands steadyStream 0%nat).
  intros k. unfold steadyStream. split; reflexivity || discriminate.
Defined.

(** X25. Three checks of [src/ine-validator.js] never pass, whatever the
    input: the elector key (the stub hands the CURP over as the key, and
    no text matches both patterns), the relief elements (the confidence
    0.8 is not above 0.8) and the validity period (the ten years of the
    stub's dates are 3653 days).  So the structure, security and validity
    stages never have more than two passing checks. *)
Theorem dead_checks_never_pass
  (stage : StageId) (browser : V2.Browser) (imageData : string) (e : Element) :
  In e (elements (runOf stage browser imageData)) ->
  In (name e) deadChecks ->
  passed e = false.
Proof.
  intros He Hn.
  destruct (V2.createImage browser imageData) as [img|msg] eqn:Himg.
  - destruct stage; cbn [runOf] in He.
    + rewrite (format_result _ _ _ Himg) in He. cbn [elements] in He.
      repeat (destruct He as [He|He];
              [subst e; cbn [name check] in Hn;
               repeat (destruct Hn as [Hn|Hn]; [discriminate Hn|]);
               destruct Hn|]).
      destruct He.
    + rewrite (structure_result _ _ _ Himg) in He.
      unfold quorumResult, stageOf, structureChecks in He.
      cbn [elements] in He.
      repeat (destruct He as [He|He];
              [subst e; cbn [name check passed] in *; try reflexivity;
               repeat (destruct Hn as [Hn|Hn]; [discriminate Hn|]);
               destruct Hn|]).
      destruct He.
    + rewrite (design_result _ _ _ Himg) in He.
      destruct (V2.getImageData browser img);
        unfold quorumResult, stageOf, designChecks in He;
        cbn [elements] in He;
        repeat (destruct He as [He|He];
                [subst e; cbn [name check passed] in *; try reflexivity;
                 repeat (destruct Hn as [Hn|Hn]; [discriminate Hn|]);
                 destruct Hn|]);
        destruct He.
    + rewrite (security_result _ _ _ Himg) in He.
      unfold quorumResult, stageOf, securityChecks in He.
      cbn [elements] in He.
      repeat (destruct He as [He|He];
              [subst e; cbn [name check passed] in *; try reflexivity;
               repeat (destruct Hn as [Hn|Hn]; [discriminate Hn|]);
               destruct Hn|]).
      destruct He.
    + rewrite (validity_result _ _ _ Himg) in He.
      unfold quorumResult, stageOf, validityChecks in He.
      destruct (likeINE img); cbn [elements] in He;
        repeat (destruct He as [He|He];
                [subst e; cbn [name check passed] in *; try reflexivity;
                 repeat (destruct Hn as [Hn|Hn]; [discriminate Hn|]);
                 destruct Hn|]);
        destruct He.
  - assert (Hf : tryOf stage browser imageData (initOf stage)
                 = (Thrown msg, initOf stage)).
    { destruct stage; cbn [tryOf initOf];
        unfold V2.validateDocumentFormat_try, V2.validateStructure_try,
          V2.validateOfficialDesign_try, V2.validateSecurityElements_try,
          V2.validateValidity_try, V2.extractTextFromImage, bind, await;
        rewrite Himg; reflexivity. }
    rewrite runOf_tryOf in He. unfold exec, tryCatch in He. rewrite Hf in He.
    destruct stage; cbn in He; destruct He as [He|[]]; subst e; reflexivity.
Qed.

Lemma dead_checks_never_pass_witness :
  passed (check "Clave de elector" false) = false.
Proof.
  apply (dead_checks_never_pass Structure goodBrowser pngData
           (check "Clave de elector" false)).
  - right. left. reflexivity.
  - left. reflexivity.
Defined.

Lemma recommendations_of_a_first_copy_run_witness :
  In V1.validityMessage
     (recommendations (V1.validateINE steadyStream 1900000000000 pngData)).
Proof.
  apply (proj2 (proj2 (proj2 (recommendations_of_a_first_copy_run
                                steadyStream 1900000000000 pngData)))).
  discriminate.
Defined.
